(** * The training and evaluation loop of [image_to_latex.trainers.base_trainer]

    A shallow embedding of [BaseTrainer]: its constructor, [config], [fit],
    [test], [_early_stopping] and [_save_checkpoint], followed by the
    properties of early stopping, checkpointing, loss averaging and
    configuration handling.

    Python floats are binary64 values, modelled by Rocq's primitive floats.
    Configuration values are dynamically typed ([Dict[str, Any]]) and are
    modelled by [PyVal].  The model, the loss function, the optimizer, the
    scheduler, the learning-rate finder and the metrics belong to the
    framework; they are the operations of the class [Framework] and are
    taken to return without raising.  Statements of the trainer itself
    raise as Python does: [TypeError], [ZeroDivisionError],
    [AttributeError] and [UnboundLocalError].  The constructor only
    declares [criterion], [optimizer], [scheduler] and [checkpoint]:
    reading one of them before it was assigned raises [AttributeError].
    [fit] assigns the optimizer and the scheduler; the criterion is left to
    whoever builds the trainer.  Wall-clock time and the
    drawing of progress bars are left out; what is printed is recorded with
    the values that go into the text. *)

From Stdlib Require Import ZArith Floats Uint63 Lia.
From stdpp Require Import gmap strings list fin_maps.

Set Warnings "-inexact-float,-clear-no-such-hyp".
Local Open Scope Z_scope.

(** ** Python values and the operators the trainer applies to them *)

Inductive PyVal : Type :=
  | VNone
  | VBool (b : bool)
  | VInt (n : Z)
  | VFloat (f : float)
  | VStr (s : string).

Inductive Exn : Type :=
  | TypeError
  | ZeroDivisionError
  | AttributeError
  | UnboundLocalError.

(** [bool(v)], as used by [if v:] and [if not v:]. *)
Definition py_truthy (v : PyVal) : bool :=
  match v with
  | VNone => false
  | VBool b => b
  | VInt n => negb (n =? 0)
  | VFloat f => negb (PrimFloat.eqb f 0%float)
  | VStr s => negb (String.eqb s "")
  end.

(** The values [range] accepts as a bound: [int] and its subclass [bool]. *)
Definition as_int (v : PyVal) : option Z :=
  match v with
  | VBool b => Some (Z.b2z b)
  | VInt n => Some n
  | _ => None
  end.

(** [v < 0]; [None] and strings are not ordered against an [int]. *)
Definition py_lt_zero (v : PyVal) : Exn + bool :=
  match v with
  | VBool _ => inr false
  | VInt n => inr (n <? 0)
  | VFloat f => inr (PrimFloat.ltb f 0%float)
  | VNone | VStr _ => inl TypeError
  end.

(** The integer a float denotes, when it denotes one. *)
Definition float_exact_int (f : float) : option Z :=
  match Prim2SF f with
  | S754_zero _ => Some 0
  | S754_finite s m e =>
      if 0 <=? e then Some (cond_Zopp s (Z.pos m * 2 ^ e))
      else if Z.pos m mod 2 ^ (- e) =? 0
           then Some (cond_Zopp s (Z.pos m / 2 ^ (- e)))
           else None
  | _ => None
  end.

(** [n == v] for an [int] [n]: numeric on numbers, [False] otherwise. *)
Definition py_int_eq (n : Z) (v : PyVal) : bool :=
  match v with
  | VBool b => n =? Z.b2z b
  | VInt m => n =? m
  | VFloat f => match float_exact_int f with
                | Some m => n =? m
                | None => false
                end
  | VNone | VStr _ => false
  end.

(** [float(n)] for a length [n] (always below [2^63]). *)
Definition float_of_len (n : nat) : float :=
  PrimFloat.of_uint63 (Uint63.of_Z (Z.of_nat n)).

(** [total / n] for a float [total] and an [int] [n]. *)
Definition py_truediv (total : float) (n : nat) : Exn + float :=
  match n with
  | O => inl ZeroDivisionError
  | S _ => inr (PrimFloat.div total (float_of_len n))
  end.

(** ** Module constants *)

Definition MAX_EPOCHS : PyVal := VInt 100.
Definition PATIENCE : PyVal := VInt 10.
Definition LR : PyVal := VFloat 1e-4.
Definition MAX_LR : PyVal := VFloat 1e-2.
Definition SAVE_BEST_MODEL : PyVal := VBool false.
Definition USE_SCHEDULER : PyVal := VBool false.

Definition CHECKPOINT_FILENAME : string := "best.pth".

(** [d.get(key, default)] on a dictionary. *)
Definition dict_get (d : gmap string PyVal) (key : string) (default : PyVal) : PyVal :=
  match d !! key with
  | Some v => v
  | None => default
  end.

(** ** The framework the trainer drives *)

Class Framework : Type := {
  Model : Type;
  Batch : Type;
  Logits : Type;
  Criterion : Type;
  StateDict : Type;
  Optimizer : Type;
  Scheduler : Type;
  (** [optim.Adam(model.parameters(), lr=...)] *)
  Adam : Model -> float -> Optimizer;
  (** [optim.lr_scheduler.OneCycleLR(optimizer, max_lr=..., epochs=...,
      steps_per_epoch=..., pct_start=0.5, div_factor=10,
      final_div_factor=1e4)]; the constructor also sets the optimizer's
      learning rate. *)
  OneCycleLR : Optimizer -> PyVal -> PyVal -> nat -> Scheduler * Optimizer;
  (** [LRFinder_(model, optimizer, criterion)], [range_test(dataloader,
      end_lr=100, num_iter=100)], then [suggest_lr()]. *)
  lr_range_test :
    Model -> Optimizer -> Criterion -> list Batch -> Model * Optimizer * PyVal;
  model_to_device : Model -> Model;
  model_train : Model -> Model;
  model_eval : Model -> Model;
  batch_to_device : Batch -> Batch;
  (** [model(imgs, targets)] for the images and targets of a batch. *)
  model_call : Model -> Batch -> Model * Logits;
  (** [criterion(logits, targets)], read with [.item()]. *)
  criterion_call : Criterion -> Logits -> Batch -> float;
  (** [loss.backward()] *)
  backward : Model -> Batch -> Model;
  (** [optimizer.step()] updates the parameters the optimizer refers to. *)
  optimizer_step : Optimizer -> Model -> Optimizer * Model;
  (** [scheduler.step()] updates the learning rate of its optimizer. *)
  scheduler_step : Scheduler -> Optimizer -> Scheduler * Optimizer;
  (** [model.state_dict()]: the object returned; whether it shares storage
      with the model is the framework's matter. *)
  state_dict : Model -> StateDict;
  load_state_dict : Model -> StateDict -> Model;
  (** [tokenizer.unindex(targets.tolist(), inference=True)] *)
  unindex_targets : Batch -> list (list string);
  (** [tokenizer.unindex(model.predict(imgs).tolist(), inference=True)] *)
  predict_unindex : Model -> Batch -> list (list string);
  bleu_score : list (list string) -> list (list string) -> float;
  edit_distance : list (list string) -> list (list string) -> float
}.

(** A dataloader is the finite sequence of batches one pass yields; [len]
    is the number of batches. *)
Abbreviation DataLoader := (list Batch).

Inductive Phase : Type := Train | Val.

(** What [fit] and [test] print, post on the progress bar, or report to
    the tracker.  [PrintEpoch] carries the epoch, [max_epochs] and the two
    average losses that are formatted into the line. *)
Inductive Event : Type :=
  | PbarPostfix (phase : Phase) (loss : float)
  | PrintLRTest
  | PrintEpoch (epoch : Z) (max_epochs : PyVal) (train_loss val_loss : float)
  | PrintStopped (patience : PyVal)
  | PrintEvaluation (bleu ed : float)
  | WandbSummary (key : string) (value : PyVal).

Section BaseTrainer.

Context `{FW : Framework}.

(** The attributes of a [BaseTrainer].  [criterion], [optimizer],
    [scheduler] and [checkpoint] are only declared by the constructor and
    are unset until assigned.  [wandb_run] records whether a run was
    passed. *)
Record Trainer : Type := mkTrainer {
  model : Model;
  wandb_run : bool;
  max_epochs : PyVal;
  patience : PyVal;
  lr : PyVal;
  max_lr : PyVal;
  save_best_model : PyVal;
  use_scheduler : PyVal;
  start_epoch : Z;
  best_val_loss : float;
  no_improve_count : Z;
  criterion : option Criterion;
  optimizer : option Optimizer;
  scheduler : option Scheduler;
  checkpoint : option StateDict
}.

Definition set_model (m : Model) (t : Trainer) : Trainer :=
  mkTrainer m (wandb_run t) (max_epochs t) (patience t) (lr t) (max_lr t)
    (save_best_model t) (use_scheduler t) (start_epoch t) (best_val_loss t)
    (no_improve_count t) (criterion t) (optimizer t) (scheduler t) (checkpoint t).


Definition set_max_lr (v : PyVal) (t : Trainer) : Trainer :=
  mkTrainer (model t) (wandb_run t) (max_epochs t) (patience t) (lr t) v
    (save_best_model t) (use_scheduler t) (start_epoch t) (best_val_loss t)
    (no_improve_count t) (criterion t) (optimizer t) (scheduler t) (checkpoint t).

Definition set_best_val_loss (x : float) (t : Trainer) : Trainer :=
  mkTrainer (model t) (wandb_run t) (max_epochs t) (patience t) (lr t) (max_lr t)
    (save_best_model t) (use_scheduler t) (start_epoch t) x
    (no_improve_count t) (criterion t) (optimizer t) (scheduler t) (checkpoint t).

Definition set_no_improve_count (n : Z) (t : Trainer) : Trainer :=
  mkTrainer (model t) (wandb_run t) (max_epochs t) (patience t) (lr t) (max_lr t)
    (save_best_model t) (use_scheduler t) (start_epoch t) (best_val_loss t)
    n (criterion t) (optimizer t) (scheduler t) (checkpoint t).

Definition set_criterion (c : option Criterion) (t : Trainer) : Trainer :=
  mkTrainer (model t) (wandb_run t) (max_epochs t) (patience t) (lr t) (max_lr t)
    (save_best_model t) (use_scheduler t) (start_epoch t) (best_val_loss t)
    (no_improve_count t) c (optimizer t) (scheduler t) (checkpoint t).

Definition set_optimizer (o : option Optimizer) (t : Trainer) : Trainer :=
  mkTrainer (model t) (wandb_run t) (max_epochs t) (patience t) (lr t) (max_lr t)
    (save_best_model t) (use_scheduler t) (start_epoch t) (best_val_loss t)
    (no_improve_count t) (criterion t) o (scheduler t) (checkpoint t).

Definition set_scheduler (s : option Scheduler) (t : Trainer) : Trainer :=
  mkTrainer (model t) (wandb_run t) (max_epochs t) (patience t) (lr t) (max_lr t)
    (save_best_model t) (use_scheduler t) (start_epoch t) (best_val_loss t)
    (no_improve_count t) (criterion t) (optimizer t) s (checkpoint t).

Definition set_checkpoint (c : option StateDict) (t : Trainer) : Trainer :=
  mkTrainer (model t) (wandb_run t) (max_epochs t) (patience t) (lr t) (max_lr t)
    (save_best_model t) (use_scheduler t) (start_epoch t) (best_val_loss t)
    (no_improve_count t) (criterion t) (optimizer t) (scheduler t) c.

(** ** Construction and configuration *)

Definition __init__ (m : Model) (config : gmap string PyVal) (run : bool) : Trainer :=
  {| model := m;
     wandb_run := run;
     max_epochs := dict_get config "max-epochs" MAX_EPOCHS;
     patience := dict_get config "patience" PATIENCE;
     lr := dict_get config "lr" LR;
     max_lr := dict_get config "max-lr" MAX_LR;
     save_best_model := dict_get config "save-best-model" SAVE_BEST_MODEL;
     use_scheduler := dict_get config "use-scheduler" USE_SCHEDULER;
     start_epoch := 1;
     best_val_loss := infinity;
     no_improve_count := 0;
     criterion := None;
     optimizer := None;
     scheduler := None;
     checkpoint := None |}.

Definition config (t : Trainer) : gmap string PyVal :=
  <["max-epochs" := max_epochs t]>
  (<["patience" := patience t]>
  (<["lr" := lr t]>
  (<["max-lr" := max_lr t]>
  (<["use-scheduler" := use_scheduler t]>
  (<["save-best-model" := save_best_model t]> ∅))))).

(** ** Early stopping and checkpointing *)

Definition _save_checkpoint (t : Trainer) : Trainer :=
  if negb (py_truthy (save_best_model t)) then t
  else set_checkpoint (Some (state_dict (model t))) t.

Definition _early_stopping (current_val_loss : float) (t : Trainer) : bool * Trainer :=
  if PrimFloat.ltb current_val_loss (best_val_loss t) then
    let t1 := set_best_val_loss current_val_loss t in
    let t2 := set_no_improve_count 0 t1 in
    (false, _save_checkpoint t2)
  else
    let t1 := set_no_improve_count (no_improve_count t + 1) t in
    if py_int_eq (no_improve_count t1) (patience t1) then (true, t1)
    else (false, t1).


(** ** Statements: they read and update the trainer, print, and may raise *)

Definition M (A : Type) : Type := Trainer -> (Exn + A) * Trainer * list Event.

Definition ret {A : Type} (a : A) : M A := fun t => (inr a, t, []).

Definition bind {A B : Type} (m : M A) (f : A -> M B) : M B :=
  fun t =>
    match m t with
    | (inl e, t1, out1) => (inl e, t1, out1)
    | (inr a, t1, out1) =>
        match f a t1 with
        | (r, t2, out2) => (r, t2, out1 ++ out2)
        end
    end.

#[local] Instance M_ret : MRet M := @ret.
#[local] Instance M_bind : MBind M := fun A B f m => bind m f.

Definition raise {A : Type} (e : Exn) : M A := fun t => (inl e, t, []).
Definition lift_result {A : Type} (r : Exn + A) : M A := fun t => (r, t, []).
Definition get : M Trainer := fun t => (inr t, t, []).
Definition modify (f : Trainer -> Trainer) : M unit := fun t => (inr tt, f t, []).
Definition emit (e : Event) : M unit := fun t => (inr tt, t, [e]).

(** Reading an attribute that was never assigned raises. *)
Definition attribute {A : Type} (field : Trainer -> option A) : M A :=
  t ← get;
  match field t with
  | Some a => ret a
  | None => raise AttributeError
  end.

(** ** Training *)

Definition _move_to_device (batch : Batch) : Batch := batch_to_device batch.

Definition training_step (batch : Batch) : M float :=
  t ← get;
  let '(m, logits) := model_call (model t) batch in
  modify (set_model m);;
  c ← attribute criterion;
  ret (criterion_call c logits batch).

Definition validation_step (batch : Batch) : M float :=
  t ← get;
  let '(m, logits) := model_call (model t) batch in
  modify (set_model m);;
  c ← attribute criterion;
  ret (criterion_call c logits batch).

Definition _find_optimal_lr (dataloader : DataLoader) : M PyVal :=
  t ← get;
  o ← attribute optimizer;
  c ← attribute criterion;
  let '(m, o', suggested) := lr_range_test (model t) o c dataloader in
  modify (fun t => set_optimizer (Some o') (set_model m t));;
  ret suggested.

(** The body of the batch loop in the ["train"] phase. *)
Definition train_batch (batch : Batch) : M float :=
  loss ← training_step batch;
  modify (fun t => set_model (backward (model t) batch) t);;
  o ← attribute optimizer;
  t ← get;
  (let '(o', m) := optimizer_step o (model t) in
   modify (fun t => set_optimizer (Some o') (set_model m t)));;
  t ← get;
  (if py_truthy (use_scheduler t) then
     s ← attribute scheduler;
     o ← attribute optimizer;
     let '(s', o') := scheduler_step s o in
     modify (fun t => set_scheduler (Some s') (set_optimizer (Some o') t))
   else ret tt);;
  ret loss.

(** [for batch in pbar: ...], threading [total_loss]. *)
Fixpoint batch_loop (phase : Phase) (batches : list Batch) (total_loss : float) : M float :=
  match batches with
  | [] => ret total_loss
  | batch :: rest =>
      let batch := _move_to_device batch in
      loss ← match phase with
             | Train => train_batch batch
             | Val => validation_step batch
             end;
      emit (PbarPostfix phase loss);;
      batch_loop phase rest (PrimFloat.add total_loss loss)
  end.

(** One turn of [for phase in ["train", "val"]]; the result is
    [avg_loss[phase]]. *)
Definition run_phase (phase : Phase) (loader : DataLoader) : M float :=
  modify (fun t =>
            set_model (match phase with
                       | Train => model_train (model t)
                       | Val => model_eval (model t)
                       end) t);;
  total_loss ← batch_loop phase loader 0%float;
  lift_result (py_truediv total_loss (length loader)).

(** The body of the epoch loop; the result tells whether it ends in
    [break]. *)
Definition run_epoch (train_dataloader val_dataloader : DataLoader) (epoch : Z) : M bool :=
  train_loss ← run_phase Train train_dataloader;
  val_loss ← run_phase Val val_dataloader;
  t ← get;
  emit (PrintEpoch epoch (max_epochs t) train_loss val_loss);;
  stop ← (fun t => let '(b, t') := _early_stopping val_loss t in (inr b, t', []));
  if stop : bool then
    t ← get;
    emit (PrintStopped (patience t));;
    ret true
  else ret false.

(** [range(start, stop)] *)
Definition py_range (start stop : Z) : list Z :=
  map (fun i => start + Z.of_nat i) (seq 0 (Z.to_nat (stop - start))).

(** [for epoch in ...: ...]; the result is the last value bound to
    [epoch], if any. *)
Fixpoint epoch_loop (train_dataloader val_dataloader : DataLoader)
    (epochs : list Z) (last : option Z) : M (option Z) :=
  match epochs with
  | [] => ret last
  | epoch :: rest =>
      stop ← run_epoch train_dataloader val_dataloader epoch;
      if stop : bool then ret (Some epoch)
      else epoch_loop train_dataloader val_dataloader rest (Some epoch)
  end.

(** [self.max_epochs + 1] as the bound of [range]. *)
Definition range_stop (v : PyVal) : Exn + Z :=
  match as_int v with
  | Some n => inr (n + 1)
  | None => inl TypeError
  end.

(** [min(epoch, v)]; only reached with a [v] that [range] has accepted. *)
Definition py_min_epoch (epoch : Z) (v : PyVal) : Exn + PyVal :=
  match as_int v with
  | Some n => inr (if n <? epoch then v else VInt epoch)
  | None => inl TypeError
  end.

Definition configure_scheduler (train_dataloader : DataLoader) : M unit :=
  t ← get;
  if py_truthy (use_scheduler t) then
    negative ← lift_result (py_lt_zero (max_lr t));
    (if negative : bool then
       emit PrintLRTest;;
       suggested ← _find_optimal_lr train_dataloader;
       modify (set_max_lr suggested)
     else ret tt);;
    t ← get;
    o ← attribute optimizer;
    let '(s, o') := OneCycleLR o (max_lr t) (max_epochs t) (length train_dataloader) in
    modify (fun t => set_scheduler (Some s) (set_optimizer (Some o') t))
  else ret tt.

Definition fit (train_dataloader val_dataloader : DataLoader) : M unit :=
  modify (fun t => set_optimizer (Some (Adam (model t) 1e-6)) t);;
  configure_scheduler train_dataloader;;
  modify (fun t => set_model (model_to_device (model t)) t);;
  t ← get;
  stop ← lift_result (range_stop (max_epochs t));
  last ← epoch_loop train_dataloader val_dataloader (py_range (start_epoch t) stop) None;
  t ← get;
  if wandb_run t then
    match last with
    | None => raise UnboundLocalError
    | Some epoch =>
        v ← lift_result (py_min_epoch epoch (max_epochs t));
        emit (WandbSummary "epoch" v)
    end
  else ret tt.

(** ** Testing *)

Fixpoint test_loop (batches : list Batch) (references hypothesis : list (list string))
    : M (list (list string) * list (list string)) :=
  match batches with
  | [] => ret (references, hypothesis)
  | batch :: rest =>
      let batch := _move_to_device batch in
      t ← get;
      test_loop rest (references ++ unindex_targets batch)
        (hypothesis ++ predict_unindex (model t) batch)
  end.

Definition test (test_dataloader : DataLoader) : M unit :=
  t ← get;
  (if py_truthy (save_best_model t) then
     c ← attribute checkpoint;
     modify (fun t => set_model (load_state_dict (model t) c) t)
   else ret tt);;
  modify (fun t => set_model (model_eval (model_to_device (model t))) t);;
  '(references, hypothesis) ← test_loop test_dataloader [] [];
  let bleu := PrimFloat.mul (bleu_score references hypothesis) 100 in
  let ed := PrimFloat.mul (edit_distance references hypothesis) 100 in
  emit (PrintEvaluation bleu ed);;
  t ← get;
  if wandb_run t then
    emit (WandbSummary "bleu" (VFloat bleu));;
    emit (WandbSummary "edit_distance" (VFloat ed))
  else ret tt.

(** ** Auxiliary definitions for the statements below *)

(** The attributes no statement of the training phases assigns. *)
Definition control (t : Trainer) :=
  (wandb_run t, max_epochs t, patience t, lr t, max_lr t, save_best_model t,
   use_scheduler t, start_epoch t, best_val_loss t, no_improve_count t,
   checkpoint t, criterion t).

(** The loss of one batch: the criterion applied to what the model gives,
    with the model as the call leaves it. *)
Definition forward_loss (c : Criterion) (m : Model) (batch : Batch) : Model * float :=
  let '(m', logits) := model_call m batch in
  (m', criterion_call c logits batch).

(** The attributes that decide early stopping. *)
Definition stopping_state (t : Trainer) : float * Z * PyVal :=
  (best_val_loss t, no_improve_count t, patience t).

(** The successive results of calling [_early_stopping] on each loss. *)
Fixpoint early_stopping_calls (losses : list float) (t : Trainer) : list bool * Trainer :=
  match losses with
  | [] => ([], t)
  | x :: rest =>
      let '(b, t1) := _early_stopping x t in
      let '(bs, t2) := early_stopping_calls rest t1 in
      (b :: bs, t2)
  end.

End BaseTrainer.

Arguments Trainer {FW}.
Arguments M {FW} A.

(** ** A small framework to run the trainer on

    The model counts optimizer steps, a batch carries the loss it yields,
    the criterion hands that loss on, and a state dict is the step count it
    was taken at. *)

#[local] Instance toy : Framework := {|
  Model := Z;
  Batch := float;
  Logits := float;
  Criterion := unit;
  StateDict := Z;
  Optimizer := float;
  Scheduler := unit;
  Adam := fun _ rate => rate;
  OneCycleLR := fun o _ _ _ => (tt, o);
  lr_range_test := fun m o _ _ => (m, o, VFloat 1e-3);
  model_to_device := fun m => m;
  model_train := fun m => m;
  model_eval := fun m => m;
  batch_to_device := fun b => b;
  model_call := fun m b => (m, b);
  criterion_call := fun _ logits _ => logits;
  backward := fun m _ => m;
  optimizer_step := fun o m => (o, m + 1);
  scheduler_step := fun s o => (s, o);
  state_dict := fun m => m;
  load_state_dict := fun _ sd => sd;
  unindex_targets := fun _ => [];
  predict_unindex := fun _ _ => [];
  bleu_score := fun _ _ => 1%float;
  edit_distance := fun _ _ => 0%float
|}.

(** ** Configuration *)

Definition config_keys : list string :=
  ["max-epochs"; "patience"; "lr"; "max-lr"; "use-scheduler"; "save-best-model"].

Definition DEFAULTS : gmap string PyVal :=
  <["max-epochs" := MAX_EPOCHS]>
  (<["patience" := PATIENCE]>
  (<["lr" := LR]>
  (<["max-lr" := MAX_LR]>
  (<["use-scheduler" := USE_SCHEDULER]>
  (<["save-best-model" := SAVE_BEST_MODEL]> ∅))))).

Definition sample_config : gmap string PyVal :=
  <["max-epochs" := VInt 3]>
  (<["patience" := VInt 2]>
  (<["lr" := VFloat 0.5]>
  (<["max-lr" := VFloat 1]>
  (<["use-scheduler" := VBool false]>
  (<["save-best-model" := VBool true]>
  (<["batch-size" := VInt 32]> ∅)))))).

(** ** The early-stopping policy in words

    The definitions below follow the description of the policy, not the
    code: the minimum loss seen so far, whether a call failed to improve on
    it, and the number of such calls in a row. *)

(** The smaller of two losses as [<] orders them, the earlier one unless
    the later is strictly smaller: Python's [min]. *)
Definition min_loss (m x : float) : float :=
  if PrimFloat.ltb x m then x else m.

(** The minimum validation loss seen so far; [start] is the value before
    any loss was seen. *)
Definition min_seen (start : float) (seen : list float) : float :=
  fold_left min_loss seen start.

(** Whether call [k] (counted from 0) failed to improve strictly on the
    minimum of the losses seen before it. *)
Definition non_improving (start : float) (losses : list float) (k : nat) : bool :=
  match losses !! k with
  | Some x => negb (PrimFloat.ltb x (min_seen start (take k losses)))
  | None => false
  end.

(** How many of the indices [n-1], [n-2], ... satisfy [f] in a row. *)
Fixpoint run_back (f : nat -> bool) (n : nat) : nat :=
  match n with
  | O => O
  | S k => if f k then S (run_back f k) else O
  end.

(** The number of consecutive non-improving calls that end the sequence. *)
Definition streak (start : float) (losses : list float) : nat :=
  run_back (non_improving start losses) (length losses).

(** ** Reading the output of [fit] *)

(** The validation losses of the epochs reported, in order. *)
Definition val_losses (out : list Event) : list float :=
  omap (fun e => match e with
                 | PrintEpoch _ _ _ v => Some v
                 | _ => None
                 end) out.

(** Whether the message of the early-stopping [break] was printed. *)
Definition stopped (out : list Event) : bool :=
  existsb (fun e => match e with
                    | PrintStopped _ => true
                    | _ => false
                    end) out.

(** ** Further notions used in the statements *)

(** The arithmetic mean as Python computes it on floats: the losses are
    added in order, starting from [0.0], and the sum is divided by their
    number. *)
Definition mean (losses : list float) : float :=
  PrimFloat.div (fold_left PrimFloat.add losses 0%float)
                (float_of_len (length losses)).

(** The loss values shown on the progress bar of a phase. *)
Definition postfixes (phase : Phase) (losses : list float) : list Event :=
  map (PbarPostfix phase) losses.

Section Ready.

Context `{FW : Framework}.

(** What a training batch reads: the criterion and the optimizer are set,
    and so is the scheduler when it is in use. *)
Definition ready (t : Trainer) : Prop :=
  is_Some (criterion t)
  ∧ is_Some (optimizer t)
  ∧ (py_truthy (use_scheduler t) = true → is_Some (scheduler t)).

(** What a batch of either phase reads: a validation batch reads the
    criterion only. *)
Definition able (phase : Phase) (t : Trainer) : Prop :=
  match phase with
  | Train => ready t
  | Val => is_Some (criterion t)
  end.

(** Each loss is the loss of the batch in its place: the criterion applied
    to what the model, as it stands when the batch is reached, gives for the
    batch moved to the device. *)
Definition batch_losses (c : Criterion) (batches : list Batch) (losses : list float)
    : Prop :=
  Forall2 (λ b x, ∃ m, x = (forward_loss c m (_move_to_device b)).2) batches losses.

(** The configuration attributes, which only the constructor and the
    learning-rate search assign. *)
Definition settings (t : Trainer) :=
  (wandb_run t, max_epochs t, patience t, lr t, save_best_model t,
   use_scheduler t, start_epoch t).

End Ready.

(** What one completed epoch shows: the losses posted in either phase, and
    whether it ended in [break]. *)
Record EpochLog : Type := mkEpochLog {
  log_epoch : Z;
  log_train : list float;
  log_val : list float;
  log_stop : bool
}.

(** The output of a completed epoch: the postfixes of both phases, the
    summary line, and the message that precedes [break]. *)
Definition epoch_events (shown_max_epochs shown_patience : PyVal) (l : EpochLog)
    : list Event :=
  postfixes Train (log_train l) ++ postfixes Val (log_val l)
  ++ PrintEpoch (log_epoch l) shown_max_epochs
       (mean (log_train l)) (mean (log_val l))
     :: (if log_stop l then [PrintStopped shown_patience] else []).

(** The output of an epoch that raised before its summary line. *)
Definition partial_events (out : list Event) : Prop :=
  ∃ l1 l2, out = postfixes Train l1 ++ postfixes Val l2.

(** The value [epoch] is bound to when the loop has run through the
    logged epochs. *)
Fixpoint last_bound (last : option Z) (logs : list EpochLog) : option Z :=
  match logs with
  | [] => last
  | l :: rest => last_bound (Some (log_epoch l)) rest
  end.

(** The validation losses of the logged epochs. *)
Definition log_val_losses (logs : list EpochLog) : list float :=
  map (fun l => mean (log_val l)) logs.

(** Each logged epoch posted one loss per batch of either dataloader. *)
Definition complete_logs (ntrain nval : nat) (logs : list EpochLog) : Prop :=
  Forall (fun l => length (log_train l) = ntrain ∧ length (log_val l) = nval) logs.

Section BatchLogs.

Context `{FW : Framework}.

(** The losses each logged epoch posted are those of the batches of the
    two dataloaders, in order. *)
Definition batch_logs (c : Criterion) (train val : DataLoader) (logs : list EpochLog)
    : Prop :=
  Forall (fun l => batch_losses c train (log_train l)
                   ∧ batch_losses c val (log_val l)) logs.

(** A trainer as a subclass builds it: the constructor of [BaseTrainer],
    then the assignment of the criterion. *)
Definition new_trainer (c : Criterion) (m : Model) (config : gmap string PyVal)
    (run : bool) : Trainer :=
  set_criterion (Some c) (__init__ m config run).

End BatchLogs.

(** No logged epoch ended in [break]. *)
Definition no_stop (logs : list EpochLog) : Prop :=
  Forall (fun l => log_stop l = false) logs.

(** [m] is a least element of [l]: it occurs in [l] and no element of [l]
    is strictly below it. *)
Definition is_minimum (m : float) (l : list float) : Prop :=
  In m l ∧ ∀ x, In x l → PrimFloat.ltb x m = false.

(** Sample trainers on the small framework; [bare_trainer] is what the
    constructor of [BaseTrainer] alone gives. *)
Definition bare_trainer : Trainer := __init__ (FW := toy) 0 sample_config false.

Definition default_trainer : Trainer := new_trainer (FW := toy) tt 0 ∅ false.

Definition sample_trainer : Trainer := new_trainer (FW := toy) tt 0 sample_config false.

Definition one_epoch_trainer : Trainer :=
  new_trainer (FW := toy) tt 0 (<["max-epochs" := VInt 1]> ∅) false.

Definition no_patience_trainer : Trainer :=
  new_trainer (FW := toy) tt 0
    (<["patience" := VInt (-1)]> (<["max-epochs" := VInt 3]> ∅)) false.

Definition zero_patience_trainer : Trainer :=
  new_trainer (FW := toy) tt 0
    (<["patience" := VInt 0]> (<["max-epochs" := VInt 3]> ∅)) false.

Section LrBlind.

Context `{FW : Framework}.


End LrBlind.



(** ** Further readings of the output and of the trainer *)

(** The epoch numbers of the epochs reported, in order. *)
Definition epoch_numbers (out : list Event) : list Z :=
  omap (fun e => match e with
                 | PrintEpoch epoch _ _ _ => Some epoch
                 | _ => None
                 end) out.

(** What was reported to the tracker, key and value, in order. *)
Definition summaries (out : list Event) : list (string * PyVal) :=
  omap (fun e => match e with
                 | WandbSummary key value => Some (key, value)
                 | _ => None
                 end) out.

(** Whether the notice of the learning-rate range test was printed. *)
Definition range_test_notice (out : list Event) : bool :=
  existsb (fun e => match e with
                    | PrintLRTest => true
                    | _ => false
                    end) out.

Section Readings.

Context `{FW : Framework}.

(** Whether the attribute [checkpoint] has been assigned. *)
Definition has_checkpoint (t : Trainer) : bool :=
  match checkpoint t with
  | Some _ => true
  | None => false
  end.

(** Whether [fit] goes through the learning-rate range test: the scheduler
    is in use and [max_lr < 0] holds. *)
Definition runs_range_test (t : Trainer) : bool :=
  py_truthy (use_scheduler t)
  && match py_lt_zero (max_lr t) with
     | inr true => true
     | _ => false
     end.

(** Whether the scheduler configuration of [fit] goes through: the
    scheduler is not in use, or [max_lr] compares with [0]. *)
Definition scheduler_configurable (t : Trainer) : bool :=
  negb (py_truthy (use_scheduler t))
  || match py_lt_zero (max_lr t) with
     | inr _ => true
     | inl _ => false
     end.

(** Whether [fit] goes through the range test with no criterion to hand
    to it. *)
Definition range_test_fails (t : Trainer) : bool :=
  runs_range_test t
  && match criterion t with
     | Some _ => false
     | None => true
     end.

(** The trainer with which [fit] enters the epoch loop, when the scheduler
    configuration goes through. *)
Definition configured (train : DataLoader) (t : Trainer) : Trainer :=
  let o := Adam (model t) 1e-6 in
  let t1 := set_optimizer (Some o) t in
  let t2 :=
    if py_truthy (use_scheduler t) then
      if runs_range_test t then
        match criterion t with
        | Some c =>
            let '(m, o1, suggested) := lr_range_test (model t) o c train in
            let '(s, o2) := OneCycleLR o1 suggested (max_epochs t) (length train) in
            set_scheduler (Some s)
              (set_optimizer (Some o2)
                 (set_max_lr suggested (set_optimizer (Some o1) (set_model m t1))))
        | None => t1
        end
      else
        let '(s, o2) := OneCycleLR o (max_lr t) (max_epochs t) (length train) in
        set_scheduler (Some s) (set_optimizer (Some o2) t1)
    else t1 in
  set_model (model_to_device (model t2)) t2.

End Readings.

Section TestReadings.

Context `{FW : Framework}.

(** The model [test] evaluates: the checkpoint loaded into the model when
    [save_best_model] is enabled, the model as it is otherwise, moved to
    the device and put in evaluation mode.  There is none when the
    checkpoint is called for and was never saved. *)
Definition evaluation_model (t : Trainer) : option Model :=
  if py_truthy (save_best_model t) then
    match checkpoint t with
    | Some c => Some (model_eval (model_to_device (load_state_dict (model t) c)))
    | None => None
    end
  else Some (model_eval (model_to_device (model t))).

(** The target and the predicted token sequences of a dataloader, batch by
    batch in order. *)
Definition references_of (loader : DataLoader) : list (list string) :=
  concat (map (fun b => unindex_targets (_move_to_device b)) loader).

Definition hypotheses_of (m : Model) (loader : DataLoader) : list (list string) :=
  concat (map (fun b => predict_unindex m (_move_to_device b)) loader).

End TestReadings.

Section MoreReadings.

Context `{FW : Framework}.

(** What the learning-rate range test of [fit] suggests: it is run on the
    model as it is, with the optimizer [fit] has just built and the
    criterion of the trainer. *)
Definition suggested_max_lr (c : Criterion) (train : DataLoader) (t : Trainer) : PyVal :=
  (lr_range_test (model t) (Adam (model t) 1e-6) c train).2.

(** The integer a patience equals, if it equals one. *)
Definition int_value (v : PyVal) : option Z :=
  match v with
  | VBool b => Some (Z.b2z b)
  | VInt n => Some n
  | VFloat f => float_exact_int f
  | VNone | VStr _ => None
  end.

(** What the constructor establishes and every method keeps. *)
Definition sound (t : Trainer) : Prop :=
  0 ≤ no_improve_count t
  ∧ start_epoch t = 1
  ∧ PrimFloat.is_nan (best_val_loss t) = false.

End MoreReadings.

(** Trainers whose [max_epochs] is no [int], and whose range of epochs is
    empty with a tracker attached. *)
Definition float_epochs_trainer : Trainer :=
  new_trainer (FW := toy) tt 0 (<["max-epochs" := VFloat 3]> ∅) false.

Definition no_epochs_tracked_trainer : Trainer :=
  new_trainer (FW := toy) tt 0 (<["max-epochs" := VInt 0]> ∅) true.

(** A trainer whose patience is no whole number. *)
Definition float_patience_trainer : Trainer :=
  new_trainer (FW := toy) tt 0 (<["patience" := VFloat 2.5]> ∅) false.

(** The events of the epoch loop: postfixes, summary lines and the stop
    message. *)
Definition loop_event (e : Event) : bool :=
  match e with
  | PbarPostfix _ _ | PrintEpoch _ _ _ _ | PrintStopped _ => true
  | _ => false
  end.

Section SavingState.

Context `{FW : Framework}.

(** What decides whether a checkpoint is kept, and the checkpoint itself
    when saving is disabled. *)
Definition saving_state (t : Trainer) : float * PyVal * bool * option StateDict :=
  (best_val_loss t, save_best_model t, has_checkpoint t,
   if py_truthy (save_best_model t) then None else checkpoint t).

End SavingState.

Section Counters.

Context `{FW : Framework}.

(** The attributes [sound] speaks of, with the patience that drives the
    counter. *)
Definition counters (t : Trainer) : float * Z * PyVal * Z :=
  (best_val_loss t, no_improve_count t, patience t, start_epoch t).

End Counters.

(** The sample trainer after the run that a patience of two stopped, and
    the same trainer made ready for an epoch. *)
Definition stopped_trainer : Trainer :=
  (fit (FW := toy) [1; 2]%float [3]%float sample_trainer).1.2.

Definition ready_trainer : Trainer := configured (FW := toy) [1]%float sample_trainer.

Section ValidationReadings.

Context `{FW : Framework}.

(** The forward passes of a phase that only evaluates: the model is
    threaded through the batches, each moved to the device, and the losses
    are collected in order. *)
Fixpoint forward_losses (c : Criterion) (m : Model) (batches : list Batch)
    : Model * list float :=
  match batches with
  | [] => (m, [])
  | b :: rest =>
      let '(m1, loss) := forward_loss c m (_move_to_device b) in
      let '(m2, losses) := forward_losses c m1 rest in
      (m2, loss :: losses)
  end.

End ValidationReadings.

(** * Properties *)

(** ** The configuration round trip *)

Lemma dict_get_lookup (d : gmap string PyVal) (key : string) (default : PyVal) :
  Some (dict_get d key default) = match d !! key with Some v => Some v | None => Some default end.
Proof. unfold dict_get. by destruct (d !! key). Qed.

Lemma elem_of_config_keys (k : string) :
  k ∈ config_keys ↔
  k = "max-epochs" ∨ k = "patience" ∨ k = "lr" ∨ k = "max-lr"
  ∨ k = "use-scheduler" ∨ k = "save-best-model".
Proof. unfold config_keys. rewrite !elem_of_cons, elem_of_nil. tauto. Qed.

(** Every lookup in [config()] of a new trainer: a configured key gives
    the value passed in, or the module default when the key was absent;
    any other key is absent. *)
Lemma config_init_lookup `{FW : Framework} (m : Model) (run : bool)
    (cfg : gmap string PyVal) (k : string) :
  config (__init__ m cfg run) !! k =
  if decide (k ∈ config_keys)
  then match cfg !! k with Some v => Some v | None => DEFAULTS !! k end
  else None.
Proof.
  unfold config, __init__; simpl.
  case_decide as Hk.
  - apply elem_of_config_keys in Hk.
    destruct Hk as [-> | [-> | [-> | [-> | [-> | ->]]]]];
      unfold DEFAULTS; simplify_map_eq; apply dict_get_lookup.
  - rewrite elem_of_config_keys in Hk.
    repeat (rewrite lookup_insert_ne; [| naive_solver]).
    apply lookup_empty.
Qed.

(** C10. A configuration dictionary that has the six keys comes back from
    [config()] of a new trainer as exactly those six entries, unchanged;
    a key the dictionary lacks is reported with its module default. *)
Theorem config_round_trip `{FW : Framework} (m : Model) (run : bool)
    (cfg : gmap string PyVal) :
  ((∀ k, k ∈ config_keys → is_Some (cfg !! k)) →
   config (__init__ m cfg run) = filter (λ kv, kv.1 ∈ config_keys) cfg)
  ∧ (∀ k, k ∈ config_keys → cfg !! k = None →
       config (__init__ m cfg run) !! k = DEFAULTS !! k)
  ∧ dom (config (__init__ m cfg run)) = list_to_set config_keys.
Proof.
  split; [| split].
  - intros Hall. apply map_eq. intros k.
    rewrite config_init_lookup.
    case_decide as Hk.
    + destruct (Hall k Hk) as [v Hv]. rewrite Hv.
      symmetry. by apply map_lookup_filter_Some.
    + symmetry. apply map_lookup_filter_None. right. intros v _. exact Hk.
  - intros k Hk Hnone. rewrite config_init_lookup.
    rewrite decide_True by done. by rewrite Hnone.
  - apply set_eq. intros k. rewrite elem_of_dom, config_init_lookup.
    rewrite elem_of_list_to_set.
    case_decide as Hk.
    + split; [done |]. intros _.
      destruct (cfg !! k); [by eexists |].
      apply elem_of_config_keys in Hk.
      destruct Hk as [-> | [-> | [-> | [-> | [-> | ->]]]]]; by eexists.
    + split; [intros [? ?]; done | done].
Qed.


Lemma config_round_trip_witness :
  config (__init__ (FW := toy) 0 sample_config false)
  = filter (λ kv, kv.1 ∈ config_keys) sample_config.
Proof.
  apply (proj1 (config_round_trip (FW := toy) 0 false sample_config)).
  intros k Hk. apply elem_of_config_keys in Hk.
  destruct Hk as [-> | [-> | [-> | [-> | [-> | ->]]]]]; eexists; reflexivity.
Defined.

(** ** The order of losses

    [PrimFloat.ltb] is the comparison of IEEE 754: irreflexive and
    transitive, with NaN below and above nothing. *)

Lemma SFltb_irrefl (x : spec_float) : SFltb x x = false.
Proof.
  unfold SFltb, SFcompare.
  destruct x as [[|] | [|] | | [|] m e]; try reflexivity;
    rewrite Z.compare_refl, Pos.compare_cont_refl; reflexivity.
Qed.

Lemma SFltb_trans (x y z : spec_float) :
  SFltb x y = true → SFltb y z = true → SFltb x z = true.
Proof.
  unfold SFltb, SFcompare.
  destruct x as [[|] | [|] | | [|] mx ex], y as [[|] | [|] | | [|] my ey],
    z as [[|] | [|] | | [|] mz ez]; try (intros; congruence);
    change (Pos.compare_cont Eq) with Pos.compare;
    destruct (Z.compare_spec ex ey), (Z.compare_spec ey ez), (Z.compare_spec ex ez);
    try lia; try (intros; congruence); subst;
    destruct (Pos.compare_spec mx my), (Pos.compare_spec my mz),
      (Pos.compare_spec mx mz);
    simpl; try lia; intros; congruence.
Qed.

Lemma ltb_irrefl (x : float) : PrimFloat.ltb x x = false.
Proof. rewrite FloatAxioms.ltb_spec. apply SFltb_irrefl. Qed.

Lemma ltb_trans (x y z : float) :
  PrimFloat.ltb x y = true → PrimFloat.ltb y z = true → PrimFloat.ltb x z = true.
Proof. rewrite !FloatAxioms.ltb_spec. apply SFltb_trans. Qed.

(** ** What one call of [_early_stopping] does *)

Section EarlyStopping.

Context `{FW : Framework}.


Lemma save_checkpoint_eq (t : Trainer) :
  _save_checkpoint t =
  set_checkpoint (if py_truthy (save_best_model t)
                  then Some (state_dict (model t)) else checkpoint t) t.
Proof.
  unfold _save_checkpoint. destruct (py_truthy (save_best_model t)); simpl; [done |].
  by destruct t.
Qed.

Lemma early_stopping_eq (x : float) (t : Trainer) :
  _early_stopping x t =
  let improved := PrimFloat.ltb x (best_val_loss t) in
  (negb improved && py_int_eq (no_improve_count t + 1) (patience t),
   set_checkpoint
     (if improved && py_truthy (save_best_model t)
      then Some (state_dict (model t)) else checkpoint t)
     (set_no_improve_count (if improved then 0 else no_improve_count t + 1)
        (set_best_val_loss (if improved then x else best_val_loss t) t))).
Proof.
  unfold _early_stopping. simpl.
  destruct (PrimFloat.ltb x (best_val_loss t)); simpl.
  - by rewrite save_checkpoint_eq.
  - destruct (py_int_eq (no_improve_count t + 1) (patience t)); by destruct t.
Qed.


Lemma early_stopping_calls_app (xs ys : list float) (t : Trainer) :
  early_stopping_calls (xs ++ ys) t =
  let '(bs, t1) := early_stopping_calls xs t in
  let '(cs, t2) := early_stopping_calls ys t1 in
  (bs ++ cs, t2).
Proof.
  revert t. induction xs as [| x xs IH]; intros t; simpl.
  - by destruct (early_stopping_calls ys t).
  - destruct (_early_stopping x t) as [b t1]. rewrite IH.
    destruct (early_stopping_calls xs t1) as [bs t2].
    by destruct (early_stopping_calls ys t2).
Qed.

Lemma early_stopping_calls_length (xs : list float) (t : Trainer) :
  length (early_stopping_calls xs t).1 = length xs.
Proof.
  revert t. induction xs as [| x xs IH]; intros t; simpl; [done |].
  destruct (_early_stopping x t) as [b t1]. specialize (IH t1).
  destruct (early_stopping_calls xs t1). simpl in *. by rewrite IH.
Qed.

(** The decision and the next stopping state depend on the stopping state
    alone. *)
Lemma early_stopping_stopping_state (x : float) (t u : Trainer) :
  stopping_state t = stopping_state u →
  (_early_stopping x t).1 = (_early_stopping x u).1
  ∧ stopping_state (_early_stopping x t).2 = stopping_state (_early_stopping x u).2.
Proof.
  unfold stopping_state. intros [= Hb Hc Hp].
  rewrite !early_stopping_eq. simpl. rewrite Hb, Hc, Hp. done.
Qed.

Lemma early_stopping_calls_stopping_state (xs : list float) (t u : Trainer) :
  stopping_state t = stopping_state u →
  (early_stopping_calls xs t).1 = (early_stopping_calls xs u).1
  ∧ stopping_state (early_stopping_calls xs t).2
    = stopping_state (early_stopping_calls xs u).2.
Proof.
  revert t u. induction xs as [| x xs IH]; intros t u Htu; simpl; [done |].
  destruct (early_stopping_stopping_state x t u Htu) as [Hb Hs].
  destruct (_early_stopping x t) as [b t1], (_early_stopping x u) as [c u1].
  simpl in Hb, Hs. subst c.
  destruct (IH t1 u1 Hs) as [Hbs Hss].
  destruct (early_stopping_calls xs t1), (early_stopping_calls xs u1).
  simpl in *. by subst.
Qed.

End EarlyStopping.

(** ** Sequences of calls to [_early_stopping] *)

Lemma run_back_ext (f g : nat → bool) (n : nat) :
  (∀ k, (k < n)%nat → f k = g k) → run_back f n = run_back g n.
Proof.
  induction n as [| n IH]; intros Hfg; simpl; [done |].
  rewrite (Hfg n) by lia. rewrite IH; [done |]. intros k Hk. apply Hfg. lia.
Qed.

Lemma non_improving_app_l (start : float) (xs ys : list float) (k : nat) :
  (k < length xs)%nat →
  non_improving start (xs ++ ys) k = non_improving start xs k.
Proof.
  intros Hk. unfold non_improving.
  rewrite lookup_app_l by done. rewrite take_app_le by lia. done.
Qed.

Lemma non_improving_last (start : float) (xs : list float) (x : float) :
  non_improving start (xs ++ [x]) (length xs)
  = negb (PrimFloat.ltb x (min_seen start xs)).
Proof.
  unfold non_improving. rewrite list_lookup_middle by done.
  rewrite take_app_le by lia. rewrite take_ge by lia. done.
Qed.

Lemma streak_snoc (start : float) (xs : list float) (x : float) :
  streak start (xs ++ [x]) =
  if PrimFloat.ltb x (min_seen start xs) then O else S (streak start xs).
Proof.
  unfold streak. rewrite length_app. simpl.
  replace (length xs + 1)%nat with (S (length xs)) by lia. simpl.
  rewrite non_improving_last.
  destruct (PrimFloat.ltb x (min_seen start xs)); simpl; [done |].
  f_equal. apply run_back_ext. intros k Hk. by apply non_improving_app_l.
Qed.

Lemma min_seen_snoc (start : float) (xs : list float) (x : float) :
  min_seen start (xs ++ [x]) = min_loss (min_seen start xs) x.
Proof. unfold min_seen. by rewrite fold_left_app. Qed.

Section EarlyStoppingCalls.

Context `{FW : Framework}.

(** After any sequence of calls from a counter of zero, the trainer holds
    the minimum seen and the current streak. *)
Lemma early_stopping_calls_state (xs : list float) (t : Trainer) :
  no_improve_count t = 0 →
  let t' := (early_stopping_calls xs t).2 in
  best_val_loss t' = min_seen (best_val_loss t) xs
  ∧ no_improve_count t' = Z.of_nat (streak (best_val_loss t) xs)
  ∧ patience t' = patience t.
Proof.
  intros Hc. induction xs as [| x xs IH] using rev_ind; simpl.
  - by rewrite Hc.
  - rewrite early_stopping_calls_app.
    destruct (early_stopping_calls xs t) as [bs t1]. simpl in *.
    destruct IH as (Hb & Hn & Hp).
    rewrite early_stopping_eq. simpl.
    rewrite min_seen_snoc, streak_snoc. unfold min_loss. rewrite Hb, Hn.
    destruct (PrimFloat.ltb x (min_seen (best_val_loss t) xs)); simpl;
      repeat split; try done; lia.
Qed.

(** The result of each call: [True] exactly when the streak that ends with
    the call has length [p]. *)
Lemma early_stopping_calls_results (xs : list float) (t : Trainer) (p : Z) :
  no_improve_count t = 0 →
  patience t = VInt p →
  1 ≤ p →
  (early_stopping_calls xs t).1 =
  map (λ k, Z.of_nat (streak (best_val_loss t) (take (S k) xs)) =? p)
      (seq 0 (length xs)).
Proof.
  intros Hc Hpat Hp. induction xs as [| x xs IH] using rev_ind; simpl; [done |].
  rewrite early_stopping_calls_app.
  pose proof (early_stopping_calls_state xs t Hc) as (Hb & Hn & Hq).
  destruct (early_stopping_calls xs t) as [bs t1]. simpl in *.
  rewrite early_stopping_eq. simpl.
  rewrite length_app. simpl. rewrite seq_app, map_app. simpl.
  f_equal.
  - rewrite IH. apply map_ext_in. intros k Hk%in_seq.
    rewrite take_app_le by lia. done.
  - rewrite take_ge by (rewrite length_app; simpl; lia).
    rewrite streak_snoc, Hb, Hn, Hq, Hpat.
    destruct (PrimFloat.ltb x (min_seen (best_val_loss t) xs));
      cbn [negb andb py_int_eq].
    + f_equal. symmetry. apply Z.eqb_neq. lia.
    + f_equal. f_equal. lia.
Qed.

(** A patience that no positive counter equals never stops training. *)
Lemma early_stopping_calls_never (xs : list float) (t : Trainer) :
  0 ≤ no_improve_count t →
  (∀ n, 1 ≤ n → py_int_eq n (patience t) = false) →
  Forall (λ b, b = false) (early_stopping_calls xs t).1
  ∧ 0 ≤ no_improve_count (early_stopping_calls xs t).2.
Proof.
  revert t. induction xs as [| x xs IH]; intros t Hc Hnever; simpl; [by split |].
  rewrite early_stopping_eq. simpl.
  set (t1 := set_checkpoint _ _).
  assert (H1 : 0 ≤ no_improve_count t1)
    by (subst t1; simpl; destruct (PrimFloat.ltb x (best_val_loss t)); lia).
  assert (H2 : ∀ n, 1 ≤ n → py_int_eq n (patience t1) = false) by (subst t1; done).
  destruct (IH t1 H1 H2) as [Hall Hpos].
  destruct (early_stopping_calls xs t1) as [bs t2]. simpl in *.
  split; [| done]. constructor; [| done].
  rewrite Hnever by lia. by rewrite andb_false_r.
Qed.

End EarlyStoppingCalls.

(** ** The statements of the training loop, one by one *)

Ltac munfold :=
  unfold attribute in *;
  unfold mbind, M_bind, bind, mret, M_ret, ret, get, modify, emit, raise,
    lift_result in *.

Section Phases.

Context `{FW : Framework}.

Lemma training_step_eq (b : Batch) (t : Trainer) :
  training_step b t =
  (match criterion t with
   | Some c => inr (forward_loss c (model t) b).2
   | None => inl AttributeError
   end, set_model (model_call (model t) b).1 t, []).
Proof.
  unfold training_step, forward_loss. munfold.
  destruct (model_call (model t) b) as [m logits]. simpl.
  by destruct (criterion t).
Qed.

Lemma validation_step_eq (b : Batch) (t : Trainer) :
  validation_step b t =
  (match criterion t with
   | Some c => inr (forward_loss c (model t) b).2
   | None => inl AttributeError
   end, set_model (model_call (model t) b).1 t, []).
Proof.
  unfold validation_step, forward_loss. munfold.
  destruct (model_call (model t) b) as [m logits]. simpl.
  by destruct (criterion t).
Qed.

Lemma control_criterion (t u : Trainer) :
  control t = control u → criterion t = criterion u.
Proof. unfold control. congruence. Qed.

Lemma able_kept (phase : Phase) (t u : Trainer) :
  control u = control t → (ready t → ready u) → able phase t → able phase u.
Proof.
  intros Hc Hr. destruct phase; simpl; [done |].
  by rewrite (control_criterion _ _ Hc).
Qed.

Lemma ready_able (phase : Phase) (t : Trainer) : ready t → able phase t.
Proof. destruct phase; simpl; [done | by intros [? _]]. Qed.

(** A training batch prints nothing and leaves the control attributes
    alone; it yields the loss of the batch when the criterion, the optimizer
    and the scheduler in use are set, and raises otherwise. *)
Lemma train_batch_spec (b : Batch) (t : Trainer) :
  ∃ r t', train_batch b t = (r, t', [])
    ∧ control t' = control t
    ∧ (ready t → ready t')
    ∧ ((ready t ∧ ∃ c, criterion t = Some c ∧ r = inr (forward_loss c (model t) b).2)
       ∨ (r = inl AttributeError ∧ ¬ ready t)).
Proof.
  unfold train_batch. munfold. rewrite training_step_eq. simpl.
  unfold ready.
  destruct (criterion t) as [c |] eqn:Hcr; simpl.
  2: { eexists _, _. split; [reflexivity |]. split; [done |].
       split; [by intros [[? ?] _] |]. right. split; [done |]. by intros [[? ?] _]. }
  destruct (optimizer t) as [o |] eqn:Ho; simpl;
    [destruct (optimizer_step o (backward (model_call (model t) b).1 b)) as [o1 m3];
     simpl;
     destruct (py_truthy (use_scheduler t)) eqn:Hs; simpl;
     [destruct (scheduler t) as [s |] eqn:Hsch; simpl;
      [destruct (scheduler_step s o1) as [s1 o2]; simpl |] |] |].
  all: eexists _, _; split; [reflexivity |]; split; [done |].
  all: unfold is_Some; simpl; rewrite ?Hs, ?Hcr; naive_solver.
Qed.

Lemma phase_batch_spec (phase : Phase) (b : Batch) (t : Trainer) :
  ∃ r t',
    match phase with
    | Train => train_batch b
    | Val => validation_step b
    end t = (r, t', [])
    ∧ control t' = control t
    ∧ (ready t → ready t')
    ∧ ((able phase t ∧ ∃ c, criterion t = Some c ∧ r = inr (forward_loss c (model t) b).2)
       ∨ (r = inl AttributeError ∧ ¬ able phase t)).
Proof.
  destruct phase; [apply train_batch_spec |].
  rewrite validation_step_eq. eexists _, _.
  split; [reflexivity |]. split; [done |]. split; [done |]. simpl.
  destruct (criterion t) as [c |].
  - left. split; [by eexists |]. by exists c.
  - right. split; [done |]. by intros [? ?].
Qed.

(** The batch loop posts one loss per batch, the loss of that batch, and
    returns their running sum; if it raises, it does so on its first
    batch. *)
Lemma batch_loop_spec (phase : Phase) (batches : list Batch) (total : float)
    (t : Trainer) :
  ∃ r t' losses,
    batch_loop phase batches total t = (r, t', postfixes phase losses)
    ∧ control t' = control t
    ∧ (ready t → ready t')
    ∧ ((r = inr (fold_left PrimFloat.add losses total)
        ∧ length losses = length batches
        ∧ (batches ≠ [] → able phase t)
        ∧ (∀ c, criterion t = Some c → batch_losses c batches losses))
       ∨ (r = inl AttributeError ∧ ¬ able phase t ∧ batches ≠ [] ∧ losses = [])).
Proof.
  revert total t. induction batches as [| b rest IH]; intros total t.
  - exists (inr total), t, []. simpl. split; [done |]. split; [done |].
    split; [done |]. left. repeat split; try done. intros c _. constructor.
  - cbn [batch_loop]. munfold.
    destruct (phase_batch_spec phase (_move_to_device b) t)
      as (r & t1 & Hrun & Hc1 & Hr1 & Hres).
    rewrite Hrun.
    destruct Hres as [(Hable & c & Hcr & ->) | [-> Hnot]].
    + set (loss := (forward_loss c (model t) (_move_to_device b)).2).
      destruct (IH (PrimFloat.add total loss) t1)
        as (r2 & t2 & losses & Hloop & Hc2 & Hr2 & Hres2).
      rewrite Hloop. exists r2, t2, (loss :: losses).
      split; [reflexivity |]. split; [congruence |]. split; [tauto |].
      destruct Hres2 as [(-> & Hlen & _ & Hlosses) | (_ & Hnot & _)].
      * left. split; [reflexivity |]. split; [simpl; by rewrite Hlen |].
        split; [done |]. intros c' Hc'. assert (c' = c) as -> by congruence.
        constructor; [by exists (model t) |].
        apply Hlosses. by rewrite (control_criterion _ _ Hc1).
      * destruct Hnot. by apply (able_kept phase t).
    + exists (inl AttributeError), t1, []. split; [reflexivity |].
      split; [done |]. split; [done |]. by right.
Qed.

(** A phase yields the mean of the losses it posted, their sum divided by
    the number of batches; it raises on an empty dataloader, and on its
    first batch when an attribute the batch reads is unset. *)
Lemma run_phase_spec (phase : Phase) (loader : DataLoader) (t : Trainer) :
  ∃ r t' losses,
    run_phase phase loader t = (r, t', postfixes phase losses)
    ∧ control t' = control t
    ∧ (ready t → ready t')
    ∧ ((r = inr (mean losses) ∧ length losses = length loader ∧ loader ≠ []
        ∧ able phase t
        ∧ (∀ c, criterion t = Some c → batch_losses c loader losses))
       ∨ (r = inl ZeroDivisionError ∧ loader = [] ∧ losses = [])
       ∨ (r = inl AttributeError ∧ ¬ able phase t ∧ loader ≠ [] ∧ losses = [])).
Proof.
  unfold run_phase. munfold.
  set (t0 := set_model _ t).
  assert (Hc0 : control t0 = control t) by done.
  assert (Hr0 : ready t ↔ ready t0) by done.
  assert (Ha0 : able phase t ↔ able phase t0) by (by destruct phase).
  destruct (batch_loop_spec phase loader 0%float t0)
    as (r & t1 & losses & Hloop & Hc1 & Hr1 & Hres).
  rewrite Hloop. cbn [app].
  destruct Hres as [(-> & Hlen & Hable & Hlosses) | (-> & Hnot & Hne & ->)].
  - destruct loader as [| b rest].
    + exists (inl ZeroDivisionError), t1, losses. simpl. rewrite app_nil_r.
      split; [reflexivity |]. split; [congruence |]. split; [tauto |].
      right. left. split; [done |]. split; [done |]. by destruct losses.
    + exists (inr (mean losses)), t1, losses. rewrite app_nil_r.
      split; [unfold mean; simpl; by rewrite Hlen |].
      split; [congruence |]. split; [tauto |]. left.
      split; [done |]. split; [done |]. split; [done |].
      split; [apply Ha0; by apply Hable |]. done.
  - exists (inl AttributeError), t1, [].
    split; [reflexivity |]. split; [congruence |]. split; [tauto |].
    right. right. split; [done |]. split; [tauto | done].
Qed.

End Phases.

Section Epochs.

Context `{FW : Framework}.

Lemma control_stopping_state (t u : Trainer) :
  control t = control u → stopping_state t = stopping_state u.
Proof. unfold control, stopping_state. intros [=]. congruence. Qed.

Lemma control_settings (t u : Trainer) :
  control t = control u → settings t = settings u ∧ max_lr t = max_lr u.
Proof. unfold control, settings. intros [=]. split; congruence. Qed.

Lemma early_stopping_settings (x : float) (t : Trainer) :
  settings (_early_stopping x t).2 = settings t
  ∧ max_lr (_early_stopping x t).2 = max_lr t
  ∧ model (_early_stopping x t).2 = model t
  ∧ optimizer (_early_stopping x t).2 = optimizer t
  ∧ scheduler (_early_stopping x t).2 = scheduler t
  ∧ criterion (_early_stopping x t).2 = criterion t.
Proof. rewrite early_stopping_eq. done. Qed.

Lemma early_stopping_ready (x : float) (t : Trainer) :
  ready t → ready (_early_stopping x t).2.
Proof. rewrite early_stopping_eq. done. Qed.

(** One epoch: either it completes, reporting for each phase the mean of
    the losses posted for its batches, and asks [_early_stopping] whether to
    stop; or it raises before reporting: on an empty dataloader, or on its
    first training batch when an attribute that batch reads is unset. *)
Lemma run_epoch_spec (train val : DataLoader) (epoch : Z) (t : Trainer) :
  ∃ r t' out,
    run_epoch train val epoch t = (r, t', out)
    ∧ (ready t → ready t')
    ∧ criterion t' = criterion t
    ∧ ((∃ ltrain lval tm,
          control tm = control t
          ∧ r = inr (_early_stopping (mean lval) tm).1
          ∧ t' = (_early_stopping (mean lval) tm).2
          ∧ out = epoch_events (max_epochs t) (patience t)
                    (mkEpochLog epoch ltrain lval (_early_stopping (mean lval) tm).1)
          ∧ length ltrain = length train ∧ length lval = length val
          ∧ (train ≠ [] ∧ val ≠ [] ∧ ready t)
          ∧ (∀ c, criterion t = Some c →
                  batch_losses c train ltrain ∧ batch_losses c val lval))
       ∨ (∃ e, r = inl e
          ∧ control t' = control t
          ∧ partial_events out
          ∧ ((e = ZeroDivisionError ∧ (train = [] ∨ (val = [] ∧ ready t)))
             ∨ (e = AttributeError ∧ ¬ ready t ∧ train ≠ [] ∧ out = [])))).
Proof.
  unfold run_epoch. munfold.
  destruct (run_phase_spec Train train t)
    as (r1 & t1 & ltrain & Hrun1 & Hc1 & Hr1 & Hres1).
  rewrite Hrun1.
  destruct Hres1 as [(-> & Hlen1 & Hne1 & Hready & Hl1)
                    | [(-> & -> & ->) | (-> & Hnot & Hne1 & ->)]].
  2: { eexists _, _, _. split; [reflexivity |]. split; [done |].
       split; [by apply control_criterion |]. right.
       exists ZeroDivisionError. split; [done |]. split; [done |].
       split; [by exists [], [] |]. left. tauto. }
  2: { eexists _, _, _. split; [reflexivity |]. split; [done |].
       split; [by apply control_criterion |]. right.
       exists AttributeError. split; [done |]. split; [done |].
       split; [by exists [], [] |]. right. done. }
  simpl in Hready.
  destruct (run_phase_spec Val val t1)
    as (r2 & t2 & lval & Hrun2 & Hc2 & Hr2 & Hres2).
  rewrite Hrun2.
  assert (Hc : control t2 = control t) by congruence.
  destruct Hres2 as [(-> & Hlen2 & Hne2 & _ & Hl2)
                    | [(-> & -> & ->) | (_ & Hnot & _)]].
  2: { eexists _, _, _. split; [reflexivity |]. split; [tauto |].
       split; [by apply control_criterion |]. right.
       exists ZeroDivisionError. split; [done |]. split; [done |].
       split; [by exists ltrain, [] |]. left. tauto. }
  2: { destruct Hnot. simpl. rewrite (control_criterion _ _ Hc1). by destruct Hready. }
  destruct (control_settings _ _ Hc) as [Hset _].
  assert (Hme : max_epochs t2 = max_epochs t)
    by (unfold settings in Hset; congruence).
  assert (Hpat : patience t2 = patience t)
    by (unfold settings in Hset; congruence).
  pose proof (early_stopping_settings (mean lval) t2) as (Hset' & _ & _ & _ & _ & Hcr').
  pose proof (early_stopping_ready (mean lval) t2) as Hready'.
  assert (Hlosses : ∀ c, criterion t = Some c →
            batch_losses c train ltrain ∧ batch_losses c val lval).
  { intros c Hcr. split; [by apply Hl1 |]. apply Hl2.
    by rewrite (control_criterion _ _ Hc1). }
  destruct (_early_stopping (mean lval) t2) as [b t3] eqn:Hes. simpl in *.
  assert (Hpat' : patience t3 = patience t)
    by (unfold settings in Hset'; congruence).
  assert (Hcr3 : criterion t3 = criterion t)
    by (rewrite Hcr'; by apply control_criterion).
  destruct b; simpl.
  - eexists _, _, _. split; [reflexivity |]. split; [tauto |]. split; [done |]. left.
    exists ltrain, lval, t2. rewrite Hes. simpl.
    split; [done |]. split; [done |]. split; [done |].
    split; [unfold epoch_events; simpl; by rewrite Hme, Hpat' |].
    by repeat (split; [done |]).
  - eexists _, _, _. split; [reflexivity |]. split; [tauto |]. split; [done |]. left.
    exists ltrain, lval, t2. rewrite Hes. simpl.
    split; [done |]. split; [done |]. split; [done |].
    split; [unfold epoch_events; simpl; by rewrite Hme |].
    by repeat (split; [done |]).
Qed.

(** The epoch loop: the epochs it completed, in the order of the range,
    with the decisions of [_early_stopping] on their validation losses,
    and the way it ended.  An epoch raises only if it is the first. *)
Lemma epoch_loop_spec (train val : DataLoader) (epochs : list Z)
    (last : option Z) (t : Trainer) :
  ∃ r t' logs rest_out,
    epoch_loop train val epochs last t
    = (r, t', concat (map (epoch_events (max_epochs t) (patience t)) logs) ++ rest_out)
    ∧ map log_epoch logs = take (length logs) epochs
    ∧ complete_logs (length train) (length val) logs
    ∧ (early_stopping_calls (log_val_losses logs) t).1 = map log_stop logs
    ∧ stopping_state t'
      = stopping_state (early_stopping_calls (log_val_losses logs) t).2
    ∧ settings t' = settings t
    ∧ (ready t → ready t')
    ∧ (logs ≠ [] → train ≠ [] ∧ val ≠ [] ∧ ready t)
    ∧ (∀ c, criterion t = Some c → batch_logs c train val logs)
    ∧ ((rest_out = [] ∧ length logs = length epochs ∧ no_stop logs
        ∧ r = inr (last_bound last logs))
       ∨ (rest_out = [] ∧ ∃ logs0 l, logs = logs0 ++ [l] ∧ no_stop logs0
          ∧ log_stop l = true ∧ r = inr (Some (log_epoch l)))
       ∨ (∃ e, r = inl e ∧ partial_events rest_out ∧ logs = [] ∧ epochs ≠ []
          ∧ ((e = ZeroDivisionError ∧ (train = [] ∨ (val = [] ∧ ready t)))
             ∨ (e = AttributeError ∧ ¬ ready t ∧ train ≠ [] ∧ rest_out = [])))).
Proof.
  revert last t. induction epochs as [| epoch rest IH]; intros last t.
  - exists (inr last), t, [], []. simpl.
    split; [done |]. split; [done |]. split; [constructor |].
    split; [done |]. split; [done |]. split; [done |]. split; [done |].
    split; [done |]. split; [intros c _; constructor |].
    left. repeat split; constructor.
  - cbn [epoch_loop]. munfold.
    destruct (run_epoch_spec train val epoch t)
      as (r1 & t1 & out1 & Hrun & Hr1 & Hcr1 & Hcase).
    rewrite Hrun.
    destruct Hcase as [(ltrain & lval & tm & Hc & -> & -> & -> & Hl1 & Hl2 & Hok & Hlosses)
                      | (e & -> & Hc & Hpart & He)].
    2: { exists (inl e), t1, [], out1. simpl.
         split; [done |]. split; [done |]. split; [constructor |].
         split; [done |]. split; [by apply control_stopping_state |].
         split; [by apply control_settings |]. split; [done |].
         split; [done |]. split; [intros c _; constructor |].
         right. right. exists e. by repeat split. }
    pose proof (control_stopping_state _ _ Hc) as Hss.
    destruct (early_stopping_stopping_state (mean lval) tm t Hss) as [Hb Hss'].
    pose proof (early_stopping_settings (mean lval) tm) as (Hset & _).
    destruct (control_settings _ _ Hc) as [Hset0 _].
    set (l := mkEpochLog epoch ltrain lval (_early_stopping (mean lval) tm).1).
    destruct (_early_stopping (mean lval) tm) as [b t2] eqn:Hes.
    simpl in Hb, Hss', Hset, Hr1, Hcr1. cbn [fst snd] in *.
    destruct b.
    + (* the epoch ends in break *)
      exists (inr (Some epoch)), t2, [l], []. simpl.
      rewrite !app_nil_r.
      split; [reflexivity |]. split; [done |].
      split; [by repeat constructor |].
      destruct (_early_stopping (mean lval) t) as [b' t'] eqn:Hes'.
      simpl in Hb, Hss'. subst b'.
      split; [done |]. split; [done |]. split; [congruence |].
      split; [done |]. split; [done |].
      split; [intros c Hcr; constructor; [by apply Hlosses | constructor] |].
      right. left. split; [done |].
      exists [], l. repeat split; try done. constructor.
    + (* the loop goes on *)
      destruct (IH (Some epoch) t2)
        as (r & t3 & logs & rest_out & Hloop & Hep & Hcomp & Hcalls & Hst & Hset2
            & Hr2 & _ & Hlogs & Hend).
      rewrite Hloop.
      assert (Hme : max_epochs t2 = max_epochs t)
        by (unfold settings in *; congruence).
      assert (Hpat : patience t2 = patience t)
        by (unfold settings in *; congruence).
      rewrite Hme, Hpat.
      exists r, t3, (l :: logs), rest_out. cbn [map concat length take].
      split; [by rewrite <- !app_assoc |].
      split; [by rewrite Hep |].
      split; [by constructor |].
      destruct (_early_stopping (mean lval) t) as [b' t'] eqn:Hes'.
      simpl in Hb, Hss'. subst b'.
      destruct (early_stopping_calls_stopping_state (log_val_losses logs) t2 t'
                  Hss') as [Hcb Hcs].
      unfold log_val_losses in *. cbn [map early_stopping_calls].
      change (log_val l) with lval. change (log_stop l) with false.
      rewrite Hes'. cbn [fst snd].
      destruct (early_stopping_calls (map (λ l0, mean (log_val l0)) logs) t')
        as [bs t4] eqn:Hcalls'.
      simpl in Hcb, Hcs. cbn [fst snd].
      split; [by rewrite <- Hcb, Hcalls |].
      split; [by rewrite Hst |].
      split; [congruence |].
      split; [tauto |].
      split; [done |].
      split; [intros c Hcr; constructor; [by apply Hlosses |];
              apply Hlogs; by rewrite Hcr1 |].
      destruct Hend as [(-> & Hlen & Hno & ->)
                       | [(-> & logs0 & l' & -> & Hno & Hstop & ->)
                         | (e & _ & _ & _ & _ & He)]].
      * left. repeat split; try done; [simpl; by rewrite Hlen | by constructor].
      * right. left. split; [done |]. exists (l :: logs0), l'.
        repeat split; try done. by constructor.
      * destruct Hok as (Hne1 & Hne2 & Hready).
        destruct He as [(_ & [? | [? _]]) | (_ & Hnot & _)]; tauto.
Qed.

End Epochs.

(** ** The whole of [fit] *)

Section Fit.

Context `{FW : Framework}.

Lemma py_range_length (start stop : Z) :
  length (py_range start stop) = Z.to_nat (stop - start).
Proof. unfold py_range. by rewrite length_map, length_seq. Qed.

Lemma last_bound_None (last : option Z) (logs : list EpochLog) :
  last_bound last logs = None → last = None ∧ logs = [].
Proof.
  revert last. induction logs as [| l logs IH]; intros last H; simpl in *; [done |].
  by destruct (IH _ H).
Qed.

Lemma not_is_Some_None {A : Type} (x : option A) : ¬ is_Some x → x = None.
Proof. destruct x; [intros []; by eexists | done]. Qed.

(** Configuring the scheduler prints at most the notice of the range
    test, keeps the stopping state and the settings, and either leaves the
    optimizer and the scheduler set for the epoch loop, or raises: on a
    [max_lr] that does not compare with [0], or in the range test when
    there is no criterion to hand to it. *)
Lemma configure_scheduler_spec (train : DataLoader) (t : Trainer) :
  is_Some (optimizer t) →
  ∃ r t' out,
    configure_scheduler train t = (r, t', out)
    ∧ stopping_state t' = stopping_state t
    ∧ settings t' = settings t
    ∧ checkpoint t' = checkpoint t
    ∧ criterion t' = criterion t
    ∧ Forall (λ e, e = PrintLRTest) out
    ∧ ((r = inr () ∧ range_test_fails t = false
        ∧ (is_Some (criterion t) → ready t'))
       ∨ (r = inl TypeError ∧ py_truthy (use_scheduler t) = true
          ∧ py_lt_zero (max_lr t) = inl TypeError)
       ∨ (r = inl AttributeError ∧ range_test_fails t = true)).
Proof.
  intros [o Ho]. unfold configure_scheduler, _find_optimal_lr. munfold.
  unfold ready, range_test_fails, runs_range_test. simpl.
  destruct (py_truthy (use_scheduler t)) eqn:Hs; simpl.
  2: { eexists _, _, _. split; [reflexivity |].
       repeat (split; [done |]). left. split; [done |]. split; [done |].
       rewrite Ho, Hs. intros ?. split; [done |]. split; [by eexists | done]. }
  destruct (py_lt_zero (max_lr t)) as [e | negative] eqn:Hlt; simpl.
  { destruct (max_lr t); simpl in Hlt; try discriminate;
      injection Hlt as <-;
      (eexists _, _, _; split; [reflexivity |]; repeat (split; [done |]);
       right; by left). }
  destruct negative; simpl; rewrite Ho; simpl.
  - destruct (criterion t) as [c |] eqn:Hcr; simpl.
    2: { eexists _, _, _. split; [reflexivity |]. split; [done |]. split; [done |].
         split; [done |]. split; [done |]. split; [by repeat constructor |].
         right. by right. }
    destruct (lr_range_test (model t) o c train) as [[m o1] suggested]. simpl.
    destruct (OneCycleLR o1 suggested (max_epochs t) (length train)) as [s o2].
    simpl.
    eexists _, _, _. split; [reflexivity |]. split; [done |]. split; [done |].
    split; [done |]. split; [done |]. split; [by repeat constructor |].
    left. split; [done |]. split; [done |]. intros _.
    split; [by eexists |]. split; by eexists.
  - destruct (OneCycleLR o (max_lr t) (max_epochs t) (length train)) as [s o2].
    simpl.
    eexists _, _, _. split; [reflexivity |]. split; [done |]. split; [done |].
    split; [done |]. split; [done |]. split; [by repeat constructor |].
    left. split; [done |]. split; [done |]. intros ?.
    split; [done |]. split; by eexists.
Qed.

(** [fit] as a whole.  Its output is the notice of the range test, if
    any, then the output of the completed epochs and of an epoch that
    raised, then the summary sent to the tracker.  The decisions logged are
    those of [_early_stopping] on the validation losses logged, and the
    run ends by an exception before the loop, by exhausting the range, by
    [break], or by an exception in the first epoch: a division by zero on
    an empty dataloader, or the read of a criterion that was never set. *)
Lemma fit_spec (train val : DataLoader) (t : Trainer) :
  ∃ r t' out_c logs rest_out out_w,
    fit train val t
    = (r, t', out_c ++ (concat (map (epoch_events (max_epochs t) (patience t)) logs)
                        ++ rest_out) ++ out_w)
    ∧ Forall (λ e, e = PrintLRTest) out_c
    ∧ Forall (λ e, ∃ v, e = WandbSummary "epoch" v) out_w
    ∧ complete_logs (length train) (length val) logs
    ∧ (∀ c, criterion t = Some c → batch_logs c train val logs)
    ∧ (logs ≠ [] → train ≠ [] ∧ val ≠ [] ∧ is_Some (criterion t))
    ∧ (early_stopping_calls (log_val_losses logs) t).1 = map log_stop logs
    ∧ stopping_state t'
      = stopping_state (early_stopping_calls (log_val_losses logs) t).2
    ∧ settings t' = settings t
    ∧ ((r = inl TypeError ∧ logs = [] ∧ rest_out = [] ∧ out_w = []
        ∧ ((py_truthy (use_scheduler t) = true
            ∧ py_lt_zero (max_lr t) = inl TypeError)
           ∨ (as_int (max_epochs t) = None ∧ range_test_fails t = false)))
       ∨ (r = inl AttributeError ∧ logs = [] ∧ rest_out = [] ∧ out_w = []
          ∧ range_test_fails t = true)
       ∨ (∃ m, as_int (max_epochs t) = Some m
          ∧ (py_truthy (use_scheduler t) = true → ∃ b, py_lt_zero (max_lr t) = inr b)
          ∧ range_test_fails t = false
          ∧ map log_epoch logs
            = take (length logs) (py_range (start_epoch t) (m + 1))
          ∧ ((rest_out = []
              ∧ length logs = Z.to_nat (m + 1 - start_epoch t)
              ∧ no_stop logs
              ∧ ((r = inr () ∧ (wandb_run t = true → logs ≠ []))
                 ∨ (r = inl UnboundLocalError ∧ logs = []
                    ∧ wandb_run t = true ∧ out_w = [])))
             ∨ (rest_out = []
                ∧ (length logs ≤ Z.to_nat (m + 1 - start_epoch t))%nat
                ∧ r = inr ()
                ∧ ∃ logs0 l, logs = logs0 ++ [l] ∧ no_stop logs0
                             ∧ log_stop l = true)
             ∨ (r = inl ZeroDivisionError ∧ partial_events rest_out ∧ out_w = []
                ∧ logs = []
                ∧ (0 < Z.to_nat (m + 1 - start_epoch t))%nat
                ∧ (train = [] ∨ (val = [] ∧ is_Some (criterion t))))
             ∨ (r = inl AttributeError ∧ rest_out = [] ∧ out_w = []
                ∧ logs = []
                ∧ (0 < Z.to_nat (m + 1 - start_epoch t))%nat
                ∧ criterion t = None ∧ train ≠ [])))).
Proof.
  unfold fit. munfold.
  set (t1 := set_optimizer (Some (Adam (model t) 1e-6)) t).
  destruct (configure_scheduler_spec train t1) as
    (rc & t2 & out_c & Hconf & Hss2 & Hset2 & _ & Hcr2 & Hout_c & Hrc);
    [by eexists |].
  rewrite Hconf. cbn [app].
  change (stopping_state t1) with (stopping_state t) in Hss2.
  change (settings t1) with (settings t) in Hset2.
  change (criterion t1) with (criterion t) in Hcr2, Hrc.
  change (range_test_fails t1) with (range_test_fails t) in Hrc.
  destruct Hrc as [(-> & Hfails & Hready) | [(-> & Hus & Hlt) | (-> & Hfails)]].
  2: { exists (inl TypeError), t2, out_c, [], [], []. simpl. rewrite app_nil_r.
       split; [reflexivity |]. split; [done |]. split; [constructor |].
       split; [constructor |]. split; [intros c _; constructor |].
       split; [done |]. split; [done |]. split; [done |].
       split; [done |]. left. repeat (split; [done |]). left. done. }
  2: { exists (inl AttributeError), t2, out_c, [], [], []. simpl. rewrite app_nil_r.
       split; [reflexivity |]. split; [done |]. split; [constructor |].
       split; [constructor |]. split; [intros c _; constructor |].
       split; [done |]. split; [done |]. split; [done |].
       split; [done |]. right. left. done. }
  assert (Hlt : py_truthy (use_scheduler t) = true
                → ∃ b, py_lt_zero (max_lr t) = inr b).
  { intros Hus. unfold configure_scheduler in Hconf. munfold. simpl in Hconf.
    rewrite Hus in Hconf.
    destruct (py_lt_zero (max_lr t)) as [e | b]; [done | by eexists]. }
  set (t3 := set_model (model_to_device (model t2)) t2).
  assert (Hss3 : stopping_state t3 = stopping_state t) by done.
  assert (Hset3 : settings t3 = settings t) by done.
  assert (Hcr3 : criterion t3 = criterion t) by done.
  assert (Hready3 : is_Some (criterion t) → ready t3) by done.
  assert (Hme : max_epochs t3 = max_epochs t)
    by (unfold settings in Hset3; congruence).
  assert (Hpat : patience t3 = patience t)
    by (unfold settings in Hset3; congruence).
  assert (Hstart : start_epoch t2 = start_epoch t)
    by (unfold settings in Hset2; congruence).
  unfold range_stop. rewrite Hme.
  destruct (as_int (max_epochs t)) as [m |] eqn:Hm; simpl.
  2: { exists (inl TypeError), t3, out_c, [], [], []. simpl.
       split; [reflexivity |]. split; [done |]. split; [constructor |].
       split; [constructor |]. split; [intros c _; constructor |].
       split; [done |]. split; [done |]. split; [done |].
       split; [done |]. left. repeat (split; [done |]). by right. }
  destruct (epoch_loop_spec train val (py_range (start_epoch t2) (m + 1)) None t3)
    as (rl & t4 & logs & rest_out & Hloop & Hep & Hcomp & Hcalls & Hst & Hset4
        & _ & Hlogs & Hbatch & Hend).
  rewrite Hloop, Hme, Hpat.
  rewrite Hstart in Hep.
  destruct (early_stopping_calls_stopping_state (log_val_losses logs) t3 t Hss3)
    as [Hcb Hcs].
  rewrite Hcb in Hcalls. rewrite Hcs in Hst.
  assert (Hset' : settings t4 = settings t) by congruence.
  assert (Hw : wandb_run t4 = wandb_run t)
    by (unfold settings in Hset'; congruence).
  assert (Hme4 : max_epochs t4 = max_epochs t)
    by (unfold settings in Hset'; congruence).
  assert (Hlogs' : logs ≠ [] → train ≠ [] ∧ val ≠ [] ∧ is_Some (criterion t)).
  { intros Hne. destruct (Hlogs Hne) as (? & ? & [Hsome _]).
    by rewrite Hcr3 in Hsome. }
  assert (Hbatch' : ∀ c, criterion t = Some c → batch_logs c train val logs).
  { intros c Hcr. apply Hbatch. by rewrite Hcr3. }
  destruct Hend as [(-> & Hlen & Hno & ->)
                   | [(-> & logs0 & l & -> & Hno & Hstop & ->)
                     | (e & -> & Hpart & -> & Hne & He)]].
  - (* the range is exhausted *)
    rewrite py_range_length, Hstart in Hlen.
    simpl. rewrite Hw.
    destruct (wandb_run t) eqn:Hrun.
    + destruct (last_bound None logs) as [epoch |] eqn:Hlast; simpl.
      * unfold py_min_epoch. rewrite Hme4, Hm. simpl.
        eexists (inr ()), t4, out_c, logs, [], [_].
        split; [by rewrite !app_nil_r|].
        split; [done |]. split; [repeat constructor; by eexists |].
        split; [done |]. split; [done |]. split; [done |].
        split; [done |]. split; [done |]. split; [done |].
        right. right. exists m. split; [done |]. split; [done |]. split; [done |].
        split; [done |].
        left. split; [done |]. split; [done |]. split; [done |].
        left. split; [done |]. intros _ ->. done.
      * apply last_bound_None in Hlast as [_ ->].
        exists (inl UnboundLocalError), t4, out_c, [], [], [].
        split; [by rewrite !app_nil_r |].
        split; [done |]. split; [constructor |].
        split; [done |]. split; [done |]. split; [done |].
        split; [done |]. split; [done |]. split; [done |].
        right. right. exists m. split; [done |]. split; [done |]. split; [done |].
        split; [done |].
        left. split; [done |]. split; [done |]. split; [done |].
        right. done.
    + exists (inr ()), t4, out_c, logs, [], [].
      split; [by rewrite !app_nil_r |].
      split; [done |]. split; [constructor |].
      split; [done |]. split; [done |]. split; [done |].
      split; [done |]. split; [done |]. split; [done |].
      right. right. exists m. split; [done |]. split; [done |]. split; [done |].
      split; [done |].
      left. split; [done |]. split; [done |]. split; [done |].
      left. done.
  - (* break *)
    assert (Hle : (length (logs0 ++ [l]) ≤ Z.to_nat (m + 1 - start_epoch t))%nat).
    { apply (f_equal length) in Hep. rewrite length_map, length_take in Hep.
      rewrite py_range_length in Hep. lia. }
    simpl. rewrite Hw.
    destruct (wandb_run t) eqn:Hrun; simpl.
    + unfold py_min_epoch. rewrite Hme4, Hm. simpl.
      eexists (inr ()), t4, out_c, (logs0 ++ [l]), [], [_].
      split; [by rewrite !app_nil_r |].
      split; [done |]. split; [repeat constructor; by eexists |].
      split; [done |]. split; [done |]. split; [done |].
      split; [done |]. split; [done |]. split; [done |].
      right. right. exists m. split; [done |]. split; [done |]. split; [done |].
      split; [done |].
      right. left. split; [done |]. split; [done |]. split; [done |].
      by exists logs0, l.
    + exists (inr ()), t4, out_c, (logs0 ++ [l]), [], [].
      split; [by rewrite !app_nil_r |].
      split; [done |]. split; [constructor |].
      split; [done |]. split; [done |]. split; [done |].
      split; [done |]. split; [done |]. split; [done |].
      right. right. exists m. split; [done |]. split; [done |]. split; [done |].
      split; [done |].
      right. left. split; [done |]. split; [done |]. split; [done |].
      by exists logs0, l.
  - (* the first epoch raised *)
    assert (Hpos : (0 < Z.to_nat (m + 1 - start_epoch t))%nat).
    { rewrite <- Hstart, <- py_range_length.
      destruct (py_range (start_epoch t2) (m + 1)); [done | simpl; lia]. }
    destruct He as [[-> Hempty] | (-> & Hnot & Hne1 & ->)].
    + exists (inl ZeroDivisionError), t4, out_c, [], rest_out, [].
      split; [by rewrite !app_nil_r |].
      split; [done |]. split; [constructor |].
      split; [done |]. split; [done |]. split; [done |].
      split; [done |]. split; [done |]. split; [done |].
      right. right. exists m. split; [done |]. split; [done |]. split; [done |].
      split; [done |].
      right. right. left. repeat (split; [done |]).
      destruct Hempty as [? | [? [Hsome _]]]; [by left | right].
      split; [done |]. by rewrite Hcr3 in Hsome.
    + exists (inl AttributeError), t4, out_c, [], [], [].
      split; [by rewrite !app_nil_r |].
      split; [done |]. split; [constructor |].
      split; [done |]. split; [done |]. split; [done |].
      split; [done |]. split; [done |]. split; [done |].
      right. right. exists m. split; [done |]. split; [done |]. split; [done |].
      split; [done |].
      right. right. right. repeat (split; [done |]).
      split; [| done]. apply not_is_Some_None. tauto.
Qed.

End Fit.

(** ** Reading the output *)

Lemma val_losses_app (out1 out2 : list Event) :
  val_losses (out1 ++ out2) = val_losses out1 ++ val_losses out2.
Proof. unfold val_losses. apply omap_app. Qed.

Lemma stopped_app (out1 out2 : list Event) :
  stopped (out1 ++ out2) = stopped out1 || stopped out2.
Proof. unfold stopped. apply existsb_app. Qed.

Lemma postfixes_quiet (phase : Phase) (losses : list float) :
  val_losses (postfixes phase losses) = [] ∧ stopped (postfixes phase losses) = false.
Proof. induction losses as [| x losses [IH1 IH2]]; simpl; done. Qed.

Lemma partial_events_quiet (out : list Event) :
  partial_events out → val_losses out = [] ∧ stopped out = false.
Proof.
  intros (l1 & l2 & ->). rewrite val_losses_app, stopped_app.
  destruct (postfixes_quiet Train l1) as [-> ->].
  by destruct (postfixes_quiet Val l2) as [-> ->].
Qed.

Lemma notice_quiet (out : list Event) :
  Forall (λ e, e = PrintLRTest) out → val_losses out = [] ∧ stopped out = false.
Proof. induction 1 as [| e out -> _ [IH1 IH2]]; simpl; done. Qed.

Lemma summary_quiet (out : list Event) :
  Forall (λ e, ∃ v, e = WandbSummary "epoch" v) out →
  val_losses out = [] ∧ stopped out = false.
Proof. induction 1 as [| e out [v ->] _ [IH1 IH2]]; simpl; done. Qed.

Lemma epoch_events_read (me pat : PyVal) (l : EpochLog) :
  val_losses (epoch_events me pat l) = [mean (log_val l)]
  ∧ stopped (epoch_events me pat l) = log_stop l.
Proof.
  unfold epoch_events. rewrite !val_losses_app, !stopped_app.
  destruct (postfixes_quiet Train (log_train l)) as [-> ->].
  destruct (postfixes_quiet Val (log_val l)) as [-> ->].
  simpl. by destruct (log_stop l).
Qed.

Lemma epochs_read (me pat : PyVal) (logs : list EpochLog) :
  val_losses (concat (map (epoch_events me pat) logs)) = log_val_losses logs
  ∧ stopped (concat (map (epoch_events me pat) logs)) = existsb log_stop logs.
Proof.
  induction logs as [| l logs [IH1 IH2]]; simpl; [done |].
  rewrite val_losses_app, stopped_app, IH1, IH2.
  by destruct (epoch_events_read me pat l) as [-> ->].
Qed.

(** The output of [fit], read back: the validation losses are those of the
    logged epochs, and the stop message was printed exactly when a logged
    epoch ended in [break]. *)
Lemma fit_output_read (me pat : PyVal) (out_c rest_out out_w : list Event)
    (logs : list EpochLog) :
  Forall (λ e, e = PrintLRTest) out_c →
  rest_out = [] ∨ partial_events rest_out →
  Forall (λ e, ∃ v, e = WandbSummary "epoch" v) out_w →
  let out := out_c ++ (concat (map (epoch_events me pat) logs) ++ rest_out) ++ out_w in
  val_losses out = log_val_losses logs ∧ stopped out = existsb log_stop logs.
Proof.
  intros Hc Hrest Hw. simpl.
  rewrite !val_losses_app, !stopped_app.
  destruct (notice_quiet _ Hc) as [-> ->].
  destruct (summary_quiet _ Hw) as [-> ->].
  destruct (epochs_read me pat logs) as [-> ->].
  assert (val_losses rest_out = [] ∧ stopped rest_out = false) as [-> ->].
  { destruct Hrest as [-> | Hp]; [done | by apply partial_events_quiet]. }
  simpl. rewrite !app_nil_r, !orb_false_r. done.
Qed.

Lemma no_stop_existsb (logs : list EpochLog) :
  no_stop logs → existsb log_stop logs = false.
Proof. induction 1 as [| l logs Hl _ IH]; simpl; [done |]. by rewrite Hl, IH. Qed.

Lemma log_val_losses_length (logs : list EpochLog) :
  length (log_val_losses logs) = length logs.
Proof. unfold log_val_losses. apply length_map. Qed.

Section FitLog.

Context `{FW : Framework}.

(** The facts about a run of [fit] that the properties below rest on. *)
Lemma fit_log (train val : DataLoader) (t : Trainer) :
  ∃ logs, let '(r, t', out) := fit train val t in
    val_losses out = log_val_losses logs
    ∧ stopped out = existsb log_stop logs
    ∧ (early_stopping_calls (log_val_losses logs) t).1 = map log_stop logs
    ∧ stopping_state t'
      = stopping_state (early_stopping_calls (log_val_losses logs) t).2
    ∧ settings t' = settings t
    ∧ (no_stop logs
       ∨ (r = inr () ∧ ∃ logs0 l, logs = logs0 ++ [l] ∧ no_stop logs0
                                  ∧ log_stop l = true))
    ∧ (∀ m, as_int (max_epochs t) = Some m →
            (length logs ≤ Z.to_nat (m + 1 - start_epoch t))%nat)
    ∧ (r = inr () → no_stop logs →
       ∃ m, as_int (max_epochs t) = Some m
            ∧ length logs = Z.to_nat (m + 1 - start_epoch t))
    ∧ (train ≠ [] → val ≠ [] → is_Some (criterion t) →
       (py_truthy (use_scheduler t) = true → ∃ b, py_lt_zero (max_lr t) = inr b) →
       ∀ m, as_int (max_epochs t) = Some m →
            (r = inr () ∨ (r = inl UnboundLocalError ∧ wandb_run t = true ∧ logs = []))
            ∧ (no_stop logs → length logs = Z.to_nat (m + 1 - start_epoch t)))
    ∧ (∀ e, r = inl e →
         logs = []
         ∧ ((e = TypeError
             ∧ ((py_truthy (use_scheduler t) = true
                 ∧ py_lt_zero (max_lr t) = inl TypeError)
                ∨ (as_int (max_epochs t) = None ∧ range_test_fails t = false)))
            ∨ (e = ZeroDivisionError
               ∧ (train = [] ∨ (val = [] ∧ is_Some (criterion t)))
               ∧ ∃ m, as_int (max_epochs t) = Some m
                      ∧ (0 < Z.to_nat (m + 1 - start_epoch t))%nat)
            ∨ (e = UnboundLocalError ∧ wandb_run t = true
               ∧ ∃ m, as_int (max_epochs t) = Some m
                      ∧ Z.to_nat (m + 1 - start_epoch t) = O)
            ∨ (e = AttributeError ∧ criterion t = None))).
Proof.
  destruct (fit_spec train val t)
    as (r & t' & out_c & logs & rest_out & out_w & Hfit & Hc & Hw & _ & _ & _ & Hcalls
        & Hst & Hset & Hend).
  exists logs. rewrite Hfit.
  assert (Hrest : rest_out = [] ∨ partial_events rest_out).
  { destruct Hend as [(_ & _ & -> & _)
                     | [(_ & _ & -> & _)
                       | (m & _ & _ & _ & _
                          & [(-> & _) | [(-> & _) | [(_ & Hp & _) | (_ & -> & _)]]])]];
      tauto. }
  destruct (fit_output_read (max_epochs t) (patience t) out_c rest_out out_w logs
              Hc Hrest Hw) as [Hvals Hstopped].
  split; [done |]. split; [done |]. split; [done |]. split; [done |].
  split; [done |].
  destruct Hend as [(-> & -> & _ & _ & Hwhy)
                   | [(-> & -> & _ & _ & Hfails)
                     | (m & Hm & Hlt & Hfails & Hep & Hend)]].
  - (* a TypeError before the loop *)
    split; [left; constructor |]. split; [simpl; lia |].
    split; [done |].
    split.
    + intros _ _ _ Hok m Hm. destruct Hwhy as [[Hus Hlt] | [Hnone _]]; [| congruence].
      destruct (Hok Hus) as [b Hb]. congruence.
    + intros e [= <-]. split; [done |]. by left.
  - (* the range test without a criterion *)
    split; [left; constructor |]. split; [simpl; lia |].
    split; [done |].
    unfold range_test_fails in Hfails. apply andb_true_iff in Hfails as [_ Hnone].
    destruct (criterion t) as [c |] eqn:Hcr; [done |].
    split.
    + intros _ _ [c Hc']. done.
    + intros e [= <-]. split; [done |]. right. right. by right.
  - assert (Hle : (length logs ≤ Z.to_nat (m + 1 - start_epoch t))%nat).
    { apply (f_equal length) in Hep.
      rewrite length_map, length_take, py_range_length in Hep. lia. }
    destruct Hend as [(_ & Hlen & Hno & Hr)
                     | [(_ & _ & -> & logs0 & l & -> & Hno & Hstop)
                       | [(-> & _ & _ & -> & Hpos & Hempty)
                         | (-> & _ & _ & -> & Hpos & Hnone & Hne)]]].
    + (* the range is exhausted *)
      split; [by left |].
      split; [intros m' Hm'; congruence |].
      split; [intros _ _; by exists m |].
      split.
      * intros _ _ _ _ m' Hm'. assert (m' = m) as -> by congruence.
        split; [| done].
        destruct Hr as [[-> _] | (-> & -> & Hrun & _)]; [by left | by right].
      * intros e ->. destruct Hr as [[? _] | (He & -> & Hrun & _)]; [done |].
        injection He as <-. split; [done |]. right. right. left.
        split; [done |]. split; [done |]. exists m. split; [done |].
        simpl in Hlen. lia.
    + (* break *)
      split; [right; split; [done |]; by exists logs0, l |].
      split; [intros m' Hm'; congruence |].
      split.
      { intros _ Hall. apply Forall_app in Hall as [_ Hl].
        apply Forall_inv in Hl. congruence. }
      split.
      * intros _ _ _ _ m' Hm'. split; [by left |].
        intros Hall. apply Forall_app in Hall as [_ Hl].
        apply Forall_inv in Hl. congruence.
      * intros e [=].
    + (* the first epoch divided by zero *)
      split; [left; constructor |].
      split; [intros m' Hm'; simpl; lia |].
      split; [done |].
      split.
      * intros Hne1 Hne2. tauto.
      * intros e [= <-]. split; [done |]. right. left. split; [done |].
        split; [done |]. by exists m.
    + (* the first epoch read the criterion *)
      split; [left; constructor |].
      split; [intros m' Hm'; simpl; lia |].
      split; [done |].
      split.
      * intros _ _ [c Hc']. congruence.
      * intros e [= <-]. split; [done |]. right. right. by right.
Qed.

End FitLog.

(** ** Early stopping *)

Lemma no_stop_nth (logs : list EpochLog) (k : nat) :
  no_stop logs → nth k (map log_stop logs) false = false.
Proof.
  intros Hno. revert k. induction Hno as [| l logs Hl _ IH]; intros [| k]; simpl; auto.
Qed.

Section EarlyStoppingProperties.

Context `{FW : Framework}.

Lemma early_stopping_calls_nth (xs : list float) (t : Trainer) (p : Z) (k : nat) :
  no_improve_count t = 0 →
  patience t = VInt p →
  1 ≤ p →
  (k < length xs)%nat →
  nth k (early_stopping_calls xs t).1 false
  = (Z.of_nat (streak (best_val_loss t) (take (S k) xs)) =? p).
Proof.
  intros Hc Hpat Hp Hk. rewrite (early_stopping_calls_results xs t p Hc Hpat Hp).
  set (F := λ k, Z.of_nat (streak (best_val_loss t) (take (S k) xs)) =? p).
  rewrite (nth_indep _ false (F O)) by (rewrite length_map, length_seq; lia).
  rewrite (map_nth F). by rewrite seq_nth by lia.
Qed.

(** C1. With a patience [p >= 1] and a counter that starts at zero, a call
    of [_early_stopping] returns [True] exactly when the run of consecutive
    calls that failed to improve strictly on the minimum loss seen so far
    has reached length [p] with this call.  [fit] takes the early-stopping
    [break] exactly at the first epoch whose validation loss completes such
    a run: no epoch before the last one reported completes one, the stop
    message is printed exactly when the last one does, and, when the
    trainer has its criterion, the scheduler can be configured and the
    dataloaders are non-empty, [fit] goes on training until then: if it was
    not stopped, it has run every epoch of the range. *)
Theorem early_stopping_exactly_at_patience (t : Trainer) (p : Z) :
  no_improve_count t = 0 →
  patience t = VInt p →
  1 ≤ p →
  (∀ losses,
     (early_stopping_calls losses t).1
     = map (λ k, Z.of_nat (streak (best_val_loss t) (take (S k) losses)) =? p)
           (seq 0 (length losses)))
  ∧ (∀ train val,
       let '(r, _, out) := fit train val t in
       let vs := val_losses out in
       (∀ k, (S k < length vs)%nat →
             Z.of_nat (streak (best_val_loss t) (take (S k) vs)) ≠ p)
       ∧ (stopped out = true
          ↔ vs ≠ [] ∧ Z.of_nat (streak (best_val_loss t) vs) = p)
       ∧ (∀ m, as_int (max_epochs t) = Some m →
               is_Some (criterion t) →
               (py_truthy (use_scheduler t) = true
                → ∃ b, py_lt_zero (max_lr t) = inr b) →
               train ≠ [] → val ≠ [] →
               (length vs ≤ Z.to_nat (m + 1 - start_epoch t))%nat
               ∧ (stopped out = false → length vs = Z.to_nat (m + 1 - start_epoch t))
               ∧ (r = inr ()
                  ∨ (r = inl UnboundLocalError ∧ wandb_run t = true ∧ vs = [])))).
Proof.
  intros Hc Hpat Hp. split.
  { intros losses. by apply early_stopping_calls_results. }
  intros train val.
  destruct (fit_log train val t) as [logs Hlog].
  destruct (fit train val t) as [[r t'] out].
  destruct Hlog as (Hv & Hs & Hcalls & _ & _ & Hend & Hle & _ & Hfull & _).
  cbn zeta. rewrite Hv, Hs.
  set (vs := log_val_losses logs) in *.
  assert (Hlen : length vs = length logs) by apply log_val_losses_length.
  assert (Hnth : ∀ k, (k < length logs)%nat →
            nth k (map log_stop logs) false
            = (Z.of_nat (streak (best_val_loss t) (take (S k) vs)) =? p)).
  { intros k Hk. rewrite <- Hcalls.
    apply early_stopping_calls_nth; try done. lia. }
  assert (Hrun : ∀ m, as_int (max_epochs t) = Some m →
            is_Some (criterion t) →
            (py_truthy (use_scheduler t) = true
             → ∃ b, py_lt_zero (max_lr t) = inr b) →
            train ≠ [] → val ≠ [] →
            (length vs ≤ Z.to_nat (m + 1 - start_epoch t))%nat
            ∧ (existsb log_stop logs = false
               → length vs = Z.to_nat (m + 1 - start_epoch t))
            ∧ (r = inr ()
               ∨ (r = inl UnboundLocalError ∧ wandb_run t = true ∧ vs = []))).
  { intros m Hm Hcr Hok Hne1 Hne2.
    destruct (Hfull Hne1 Hne2 Hcr Hok m Hm) as [Hr Hall].
    split; [rewrite Hlen; by apply Hle |]. split.
    - intros Hnone. rewrite Hlen. apply Hall.
      destruct Hend as [Hno | (_ & logs0 & l & -> & _ & Hstop)]; [done |].
      rewrite existsb_app in Hnone. simpl in Hnone.
      rewrite Hstop, orb_true_r in Hnone. done.
    - destruct Hr as [-> | (-> & Hw & ->)]; [by left | right]. done. }
  destruct Hend as [Hno | (_ & logs0 & l & Hlogs & Hno & Hstop)].
  - (* no epoch asked to stop *)
    assert (Hne : ∀ k, (k < length logs)%nat →
              Z.of_nat (streak (best_val_loss t) (take (S k) vs)) ≠ p).
    { intros k Hk. apply Z.eqb_neq. rewrite <- Hnth by done.
      by apply no_stop_nth. }
    split; [intros k Hk; apply Hne; lia |].
    split; [| done].
    rewrite no_stop_existsb by done. split; [done |].
    intros [Hnil Heq]. exfalso.
    destruct (length logs) as [| n] eqn:Hn.
    + destruct vs; [done | simpl in Hlen; lia].
    + apply (Hne n); [lia |]. rewrite take_ge by lia. done.
  - (* the last epoch asked to stop *)
    assert (Hlast : length logs = S (length logs0))
      by (rewrite Hlogs, length_app; simpl; lia).
    split.
    + intros k Hk. apply Z.eqb_neq. rewrite <- Hnth by lia.
      rewrite Hlogs, map_app, app_nth1 by (rewrite length_map; lia).
      by apply no_stop_nth.
    + split; [| done].
      rewrite Hlogs at 1. rewrite existsb_app. simpl. rewrite Hstop.
      rewrite orb_true_r. split; [| done]. intros _.
      split; [destruct vs; [simpl in Hlen; lia | done] |].
      apply Z.eqb_eq. rewrite <- (take_ge vs (S (length logs0))) by lia.
      rewrite <- Hnth by lia.
      rewrite Hlogs, map_app, app_nth2 by (rewrite length_map; lia).
      rewrite length_map, Nat.sub_diag. simpl. done.
Qed.

End EarlyStoppingProperties.

Lemma early_stopping_exactly_at_patience_witness :
  let '(r, _, out) := fit [1; 2]%float [3]%float sample_trainer in
  (stopped out = true
   ↔ val_losses out ≠ [] ∧ Z.of_nat (streak infinity (val_losses out)) = 2)
  ∧ (stopped out = false → length (val_losses out) = 3%nat).
Proof.
  pose proof (proj2 (early_stopping_exactly_at_patience sample_trainer 2
                       eq_refl eq_refl ltac:(lia)) [1; 2]%float [3]%float) as H.
  destruct (fit _ _ sample_trainer) as [[r t'] out].
  destruct H as (_ & Hstop & Hrun). split; [exact Hstop |].
  apply (Hrun 3 eq_refl ltac:(by eexists) ltac:(discriminate) ltac:(discriminate)
           ltac:(discriminate)).
Defined.

(** ** Checkpointing *)

Section Checkpoint.

Context `{FW : Framework}.

(** C3. A call of [_early_stopping] rebinds [checkpoint], to the state
    dict of the model, exactly when [save_best_model] is enabled and the
    loss is strictly below [best_val_loss]; otherwise it leaves
    [checkpoint] as it was.  The same holds of [_save_checkpoint] and the
    flag alone. *)
Theorem checkpoint_updated_exactly_on_improvement (x : float) (t : Trainer) :
  checkpoint (_early_stopping x t).2
  = (if py_truthy (save_best_model t) && PrimFloat.ltb x (best_val_loss t)
     then Some (state_dict (model t))
     else checkpoint t)
  ∧ checkpoint (_save_checkpoint t)
    = (if py_truthy (save_best_model t) then Some (state_dict (model t))
       else checkpoint t).
Proof.
  rewrite early_stopping_eq, save_checkpoint_eq. simpl.
  by rewrite andb_comm.
Qed.

(** C2, as the code has it.  When the validation loss of an epoch strictly
    improves on the best one so far and [save_best_model] is enabled, the
    state dict of the model is kept in the attribute [checkpoint]; when
    [save_best_model] is disabled the attribute is left as it was. *)
Theorem checkpoint_kept_in_attribute (train val : DataLoader) (epoch : Z)
    (t : Trainer) (v : float) :
  PrimFloat.ltb v (best_val_loss t) = true →
  (checkpoint (_early_stopping v t).2
   = if py_truthy (save_best_model t) then Some (state_dict (model t))
     else checkpoint t)
  ∧ (let '(_, t', out) := run_epoch train val epoch t in
     val_losses out = [v] →
     checkpoint t'
     = if py_truthy (save_best_model t) then Some (state_dict (model t'))
       else checkpoint t).
Proof.
  intros Hlt. split.
  { rewrite early_stopping_eq. simpl. by rewrite Hlt. }
  destruct (run_epoch_spec train val epoch t)
    as (r & t' & out & Hrun & _ & _ & Hcase).
  rewrite Hrun. intros Hv.
  destruct Hcase as [(ltrain & lval & tm & Hc & _ & -> & -> & _)
                    | (e & _ & _ & Hpart & _)].
  2: { apply partial_events_quiet in Hpart as [Hnil _]. congruence. }
  destruct (epoch_events_read (max_epochs t) (patience t)
              (mkEpochLog epoch ltrain lval (_early_stopping (mean lval) tm).1))
    as [Hread _].
  rewrite Hread in Hv. simpl in Hv. injection Hv as Hv.
  rewrite early_stopping_eq. simpl.
  unfold control in Hc. injection Hc as _ _ _ _ _ Hsave _ _ Hbest _ Hck _.
  rewrite Hv, Hbest, Hlt, Hsave, Hck. done.
Qed.

End Checkpoint.

Lemma checkpoint_kept_in_attribute_witness :
  checkpoint (_early_stopping 3 sample_trainer).2 = Some 0.
Proof.
  apply (proj1 (checkpoint_kept_in_attribute (FW := toy) [] [] 1
                  sample_trainer 3 eq_refl)).
Defined.

(** C2, as stated, fails: with the default configuration an epoch whose
    validation loss improves on the best one leaves no snapshot behind,
    and all that [fit] puts out is the progress and the summary line. *)
Lemma checkpoint_file_counterexample :
  let '(r, t', out) := fit [1; 2]%float [3]%float one_epoch_trainer in
  r = inr ()
  ∧ out = [PbarPostfix Train 1; PbarPostfix Train 2; PbarPostfix Val 3;
           PrintEpoch 1 (VInt 1) 1.5 3]
  ∧ PrimFloat.ltb 3 (best_val_loss one_epoch_trainer) = true
  ∧ best_val_loss t' = 3%float
  ∧ checkpoint t' = None.
Proof. vm_compute. repeat split; reflexivity. Qed.

(** ** A patience that is never reached *)

Section NeverStops.

Context `{FW : Framework}.

Lemma all_false_no_stop (logs : list EpochLog) :
  Forall (λ b, b = false) (map log_stop logs) → no_stop logs.
Proof. intros H. by apply Forall_map in H. Qed.

(** When no positive counter equals the patience, no call returns [True],
    [fit] never takes the [break], and on non-empty dataloaders a trainer
    that has its criterion completes every epoch of the range. *)
Lemma unreachable_patience_never_stops (t : Trainer) :
  (∀ n, 1 ≤ n → py_int_eq n (patience t) = false) →
  0 ≤ no_improve_count t →
  (∀ losses, Forall (λ b, b = false) (early_stopping_calls losses t).1)
  ∧ (∀ train val,
       let '(r, _, out) := fit train val t in
       stopped out = false
       ∧ (∀ m, max_epochs t = VInt m → start_epoch t = 1 →
               is_Some (criterion t) →
               train ≠ [] → val ≠ [] →
               (py_truthy (use_scheduler t) = true
                → ∃ b, py_lt_zero (max_lr t) = inr b) →
               length (val_losses out) = Z.to_nat m
               ∧ (1 ≤ m ∨ wandb_run t = false → r = inr ()))).
Proof.
  intros Hnever Hc. split.
  { intros losses. by apply early_stopping_calls_never. }
  intros train val.
  destruct (fit_log train val t) as [logs Hlog].
  destruct (fit train val t) as [[r t'] out].
  destruct Hlog as (Hv & Hs & Hcalls & _ & _ & _ & _ & _ & Hfull & _).
  assert (Hno : no_stop logs).
  { apply all_false_no_stop. rewrite <- Hcalls.
    by apply early_stopping_calls_never. }
  split; [by rewrite Hs, no_stop_existsb |].
  intros m Hm Hstart Hcr Hne1 Hne2 Hok.
  destruct (Hfull Hne1 Hne2 Hcr Hok m) as [Hr Hlen]; [by rewrite Hm |].
  rewrite Hv, log_val_losses_length, (Hlen Hno), Hstart.
  split; [f_equal; lia |].
  intros Hcase. destruct Hr as [-> | (_ & Hrun & ->)]; [done |].
  specialize (Hlen Hno). simpl in Hlen. rewrite Hstart in Hlen.
  destruct Hcase as [Hpos | Hoff]; [lia | congruence].
Qed.

(** C4. With [patience = -1] early stopping is disabled: no call of
    [_early_stopping] returns [True], [fit] never takes the [break], and on
    non-empty dataloaders a trainer that has its criterion completes all
    [max_epochs] epochs. *)
Theorem patience_minus_one_disables_early_stopping (t : Trainer) :
  patience t = VInt (-1) →
  0 ≤ no_improve_count t →
  (∀ losses, Forall (λ b, b = false) (early_stopping_calls losses t).1)
  ∧ (∀ train val,
       let '(r, _, out) := fit train val t in
       stopped out = false
       ∧ (∀ m, max_epochs t = VInt m → start_epoch t = 1 →
               is_Some (criterion t) →
               train ≠ [] → val ≠ [] →
               (py_truthy (use_scheduler t) = true
                → ∃ b, py_lt_zero (max_lr t) = inr b) →
               length (val_losses out) = Z.to_nat m
               ∧ (1 ≤ m ∨ wandb_run t = false → r = inr ()))).
Proof.
  intros Hpat Hc. apply unreachable_patience_never_stops; [| done].
  intros n Hn. rewrite Hpat. simpl. apply Z.eqb_neq. lia.
Qed.

(** C9. With [patience = 0] early stopping is disabled as well: the
    counter is at least 1 whenever it is compared, so no call of
    [_early_stopping] returns [True], [fit] never takes the [break], and on
    non-empty dataloaders a trainer that has its criterion completes all
    [max_epochs] epochs. *)
Theorem patience_zero_disables_early_stopping (t : Trainer) :
  patience t = VInt 0 →
  0 ≤ no_improve_count t →
  (∀ losses, Forall (λ b, b = false) (early_stopping_calls losses t).1)
  ∧ (∀ train val,
       let '(r, _, out) := fit train val t in
       stopped out = false
       ∧ (∀ m, max_epochs t = VInt m → start_epoch t = 1 →
               is_Some (criterion t) →
               train ≠ [] → val ≠ [] →
               (py_truthy (use_scheduler t) = true
                → ∃ b, py_lt_zero (max_lr t) = inr b) →
               length (val_losses out) = Z.to_nat m
               ∧ (1 ≤ m ∨ wandb_run t = false → r = inr ()))).
Proof.
  intros Hpat Hc. apply unreachable_patience_never_stops; [| done].
  intros n Hn. rewrite Hpat. simpl. apply Z.eqb_neq. lia.
Qed.

End NeverStops.

Lemma patience_minus_one_disables_early_stopping_witness :
  let '(r, _, out) := fit [1]%float [3]%float no_patience_trainer in
  stopped out = false ∧ length (val_losses out) = 3%nat ∧ r = inr ().
Proof.
  pose proof (proj2 (patience_minus_one_disables_early_stopping
                       no_patience_trainer eq_refl ltac:(simpl; lia))
                [1]%float [3]%float) as H.
  destruct (fit _ _ no_patience_trainer) as [[r t'] out].
  destruct H as [Hs Hm]. split; [exact Hs |].
  destruct (Hm 3 eq_refl eq_refl ltac:(by eexists) ltac:(discriminate)
              ltac:(discriminate) ltac:(discriminate)) as [Hlen Hr].
  split; [exact Hlen |]. apply Hr. left. lia.
Defined.

Lemma patience_zero_disables_early_stopping_witness :
  let '(r, _, out) := fit [1]%float [3]%float zero_patience_trainer in
  stopped out = false ∧ length (val_losses out) = 3%nat ∧ r = inr ().
Proof.
  pose proof (proj2 (patience_zero_disables_early_stopping
                       zero_patience_trainer eq_refl ltac:(simpl; lia))
                [1]%float [3]%float) as H.
  destruct (fit _ _ zero_patience_trainer) as [[r t'] out].
  destruct H as [Hs Hm]. split; [exact Hs |].
  destruct (Hm 3 eq_refl eq_refl ltac:(by eexists) ltac:(discriminate)
              ltac:(discriminate) ltac:(discriminate)) as [Hlen Hr].
  split; [exact Hlen |]. apply Hr. left. lia.
Defined.

(** ** The best validation loss *)

Lemma min_seen_is_minimum (start : float) (xs : list float) :
  is_minimum (min_seen start xs) (start :: xs).
Proof.
  induction xs as [| x xs [Hin Hlow]] using rev_ind.
  - split; [by left |]. intros y [<- | []]. apply ltb_irrefl.
  - rewrite min_seen_snoc. unfold min_loss.
    destruct (PrimFloat.ltb x (min_seen start xs)) eqn:Hlt.
    + split; [right; apply in_or_app; right; by left |].
      intros y Hy. change (start :: xs ++ [x]) with ((start :: xs) ++ [x]) in Hy.
      apply in_app_or in Hy as [Hy | [<- | []]]; [| apply ltb_irrefl].
      destruct (PrimFloat.ltb y x) eqn:Hyx; [| done].
      rewrite <- (Hlow y Hy). symmetry. by apply (ltb_trans y x).
    + split.
      * change (start :: xs ++ [x]) with ((start :: xs) ++ [x]).
        apply in_or_app. by left.
      * intros y Hy. change (start :: xs ++ [x]) with ((start :: xs) ++ [x]) in Hy.
        apply in_app_or in Hy as [Hy | [<- | []]]; [by apply Hlow | done].
Qed.

Section BestValLoss.

Context `{FW : Framework}.

Lemma early_stopping_calls_best (xs : list float) (t : Trainer) :
  best_val_loss (early_stopping_calls xs t).2 = min_seen (best_val_loss t) xs.
Proof.
  revert t. induction xs as [| x xs IH]; intros t; simpl; [done |].
  destruct (_early_stopping x t) as [b t1] eqn:Hes.
  specialize (IH t1). destruct (early_stopping_calls xs t1) as [bs t2].
  simpl in *. rewrite IH. f_equal.
  rewrite early_stopping_eq in Hes. injection Hes as _ <-. done.
Qed.

Lemma test_loop_eq (batches : list Batch) (references hypothesis : list (list string))
    (t : Trainer) :
  ∃ res, test_loop batches references hypothesis t = (inr res, t, []).
Proof.
  revert references hypothesis. induction batches as [| b rest IH]; intros refs hyps.
  - by eexists.
  - cbn [test_loop]. munfold.
    destruct (IH (refs ++ unindex_targets (_move_to_device b))
                 (hyps ++ predict_unindex (model t) (_move_to_device b)))
      as [res ->].
    by eexists.
Qed.

(** [test] assigns the model only. *)
Lemma test_control (loader : DataLoader) (t : Trainer) :
  let '(_, t', _) := test loader t in control t' = control t.
Proof.
  unfold test. munfold. simpl.
  destruct (py_truthy (save_best_model t)); simpl.
  - destruct (checkpoint t) as [c |] eqn:Hc; simpl; [| done].
    set (t1 := set_model _ (set_model _ t)).
    destruct (test_loop_eq loader [] [] t1) as [[refs hyps] ->]. simpl.
    destruct (wandb_run t); simpl; subst t1; unfold control; simpl; by rewrite ?Hc.
  - set (t1 := set_model _ t).
    destruct (test_loop_eq loader [] [] t1) as [[refs hyps] ->]. simpl.
    destruct (wandb_run t); simpl; done.
Qed.

(** C5. [best_val_loss] is the minimum of the losses seen: it starts at
    positive infinity, and after any sequence of calls of
    [_early_stopping] it is the minimum of its value before them and the
    losses passed, which occurs among these and has none of them strictly
    below it.  [_save_checkpoint], the training and validation steps, the
    learning-rate search and [test] leave it alone, and [fit] folds in the
    validation losses of the epochs it completes. *)
Theorem best_val_loss_is_minimum_seen :
  (∀ m cfg run, best_val_loss (__init__ m cfg run) = infinity)
  ∧ (∀ m cfg run losses,
       let t' := (early_stopping_calls losses (__init__ m cfg run)).2 in
       best_val_loss t' = min_seen infinity losses
       ∧ is_minimum (best_val_loss t') (infinity :: losses))
  ∧ (∀ t losses,
       let t' := (early_stopping_calls losses t).2 in
       best_val_loss t' = min_seen (best_val_loss t) losses
       ∧ is_minimum (best_val_loss t') (best_val_loss t :: losses))
  ∧ (∀ t, best_val_loss (_save_checkpoint t) = best_val_loss t)
  ∧ (∀ t b, best_val_loss (training_step b t).1.2 = best_val_loss t
            ∧ best_val_loss (validation_step b t).1.2 = best_val_loss t)
  ∧ (∀ t loader, best_val_loss (_find_optimal_lr loader t).1.2 = best_val_loss t)
  ∧ (∀ t train val,
       let '(_, t', out) := fit train val t in
       best_val_loss t' = min_seen (best_val_loss t) (val_losses out)
       ∧ is_minimum (best_val_loss t') (best_val_loss t :: val_losses out))
  ∧ (∀ t loader,
       let '(_, t', _) := test loader t in best_val_loss t' = best_val_loss t).
Proof.
  split; [done |]. split; [| split; [| split; [| split; [| split; [| split]]]]].
  - intros m cfg run losses. cbn zeta. rewrite early_stopping_calls_best.
    split; [done | apply min_seen_is_minimum].
  - intros t losses. cbn zeta. rewrite early_stopping_calls_best.
    split; [done | apply min_seen_is_minimum].
  - intros t. by rewrite save_checkpoint_eq.
  - intros t b. by rewrite training_step_eq, validation_step_eq.
  - intros t loader. unfold _find_optimal_lr. munfold. simpl.
    destruct (optimizer t) as [o |]; simpl; [| done].
    destruct (criterion t) as [c |]; simpl; [| done].
    by destruct (lr_range_test (model t) o c loader) as [[m o'] suggested].
  - intros t train val.
    destruct (fit_log train val t) as [logs Hlog].
    destruct (fit train val t) as [[r t'] out].
    destruct Hlog as (Hv & _ & _ & Hst & _).
    assert (Hbest : best_val_loss t' = min_seen (best_val_loss t) (val_losses out)).
    { rewrite Hv, <- early_stopping_calls_best.
      unfold stopping_state in Hst. congruence. }
    rewrite Hbest. split; [done | apply min_seen_is_minimum].
  - intros t loader. pose proof (test_control loader t) as H.
    destruct (test loader t) as [[r t'] out].
    unfold control in H. congruence.
Qed.

End BestValLoss.

(** ** The configured learning rate *)

Section LearningRate.

Context `{FW : Framework}.

#[local] Existing Instances M_ret M_bind.






















End LearningRate.


(** On the small framework the optimizer is its learning rate: after [fit]
    with ["lr"] configured as [0.5] it is still [1e-6]. *)
Example fit_builds_adam_with_fixed_rate :
  lr sample_trainer = VFloat 0.5
  ∧ optimizer (fit [1; 2]%float [3]%float sample_trainer).1.2 = Some 1e-6%float.
Proof. vm_compute. split; reflexivity. Qed.

(** ** Termination of [fit] *)

Section Termination.

Context `{FW : Framework}.

Lemma early_stopping_true (x : float) (t : Trainer) :
  (_early_stopping x t).1 = true →
  py_int_eq (no_improve_count (_early_stopping x t).2)
            (patience (_early_stopping x t).2) = true.
Proof.
  rewrite early_stopping_eq. simpl.
  destruct (PrimFloat.ltb x (best_val_loss t)); simpl; done.
Qed.

Lemma early_stopping_calls_last_true (xs : list float) (x : float) (t : Trainer)
    (bs : list bool) :
  (early_stopping_calls (xs ++ [x]) t).1 = bs ++ [true] →
  let t' := (early_stopping_calls (xs ++ [x]) t).2 in
  py_int_eq (no_improve_count t') (patience t') = true.
Proof.
  rewrite early_stopping_calls_app.
  pose proof (early_stopping_calls_length xs t) as Hlen.
  destruct (early_stopping_calls xs t) as [cs t1]. simpl in *.
  pose proof (early_stopping_true x t1) as Htrue.
  destruct (_early_stopping x t1) as [b t2]. simpl in *.
  intros Heq. apply app_inj_tail in Heq as [_ ->]. by apply Htrue.
Qed.

(** A call that returns [True] from a counter of zero ends a run of
    non-improving calls whose length equals the patience. *)
Lemma early_stopping_calls_stop_streak (xs : list float) (x : float) (t : Trainer)
    (bs : list bool) :
  no_improve_count t = 0 →
  (early_stopping_calls (xs ++ [x]) t).1 = bs ++ [true] →
  (1 ≤ streak (best_val_loss t) (xs ++ [x]))%nat
  ∧ py_int_eq (Z.of_nat (streak (best_val_loss t) (xs ++ [x]))) (patience t) = true.
Proof.
  intros Hc. rewrite early_stopping_calls_app.
  pose proof (early_stopping_calls_state xs t Hc) as (Hb & Hn & Hp).
  destruct (early_stopping_calls xs t) as [cs t1]. simpl in *.
  rewrite early_stopping_eq. simpl. intros Heq.
  apply app_inj_tail in Heq as [_ Htrue].
  rewrite streak_snoc. rewrite Hb in Htrue.
  destruct (PrimFloat.ltb x (min_seen (best_val_loss t) xs)); [done |].
  simpl in Htrue. rewrite Hn, Hp in Htrue.
  split; [lia |]. by replace (Z.of_nat (S (streak (best_val_loss t) xs)))
                     with (Z.of_nat (streak (best_val_loss t) xs) + 1) by lia.
Qed.

(** C6, as the code has it.  [fit] always returns or raises, having
    completed at most [max_epochs] epochs, and none when [max_epochs] is no
    [int].  When it returns, the loop has ended by exhausting the range,
    all epochs completed, or by the early-stopping [break], after a run of
    consecutive non-improving epochs whose length equals the patience.
    When it raises, no epoch was completed and the loop was not left by
    [break]: the exception is a [TypeError] before the first epoch (on a
    [max_epochs] that is no [int], or a [max_lr] that does not compare with
    [0] while the scheduler is in use), a [ZeroDivisionError] in the first
    epoch on an empty dataloader, an [AttributeError] where the criterion,
    never assigned, is read (by the range test or the first training
    batch), or an [UnboundLocalError] after a loop of no epochs with a
    tracker attached. *)
Theorem fit_ends_within_max_epochs (train val : DataLoader) (t : Trainer) :
  start_epoch t = 1 →
  no_improve_count t = 0 →
  let '(r, t', out) := fit train val t in
  let vs := val_losses out in
  let n := match as_int (max_epochs t) with
           | Some m => Z.to_nat m
           | None => O
           end in
  (length vs ≤ n)%nat
  ∧ (r = inr () →
     (stopped out = false ∧ length vs = n)
     ∨ (stopped out = true
        ∧ (1 ≤ streak (best_val_loss t) vs)%nat
        ∧ py_int_eq (Z.of_nat (streak (best_val_loss t) vs)) (patience t) = true))
  ∧ (∀ e, r = inl e →
       stopped out = false ∧ vs = []
       ∧ ((e = TypeError
           ∧ (as_int (max_epochs t) = None
              ∨ (py_truthy (use_scheduler t) = true
                 ∧ py_lt_zero (max_lr t) = inl TypeError)))
          ∨ (e = ZeroDivisionError ∧ (train = [] ∨ val = []) ∧ (0 < n)%nat)
          ∨ (e = AttributeError ∧ criterion t = None
             ∧ (runs_range_test t = true ∨ ((0 < n)%nat ∧ train ≠ [])))
          ∨ (e = UnboundLocalError ∧ wandb_run t = true ∧ n = O
             ∧ is_Some (as_int (max_epochs t))))).
Proof.
  intros Hstart Hc.
  destruct (fit_spec train val t)
    as (r0 & t0 & out_c & logs0 & rest_out & out_w & Hfit0 & _ & _ & _ & _ & _ & _
        & _ & _ & Hspec).
  destruct (fit_log train val t) as [logs Hlog].
  destruct (fit train val t) as [[r t'] out].
  injection Hfit0 as <- <- _.
  destruct Hlog as (Hv & Hs & Hcalls & Hst & _ & Hend & Hle & Hfull & _ & Herr).
  cbn zeta. rewrite Hv, Hs, log_val_losses_length.
  assert (Hrange : ∀ m, Z.to_nat (m + 1 - start_epoch t) = Z.to_nat m)
    by (intros m; rewrite Hstart; f_equal; lia).
  split.
  { destruct (as_int (max_epochs t)) as [m |] eqn:Hm.
    - rewrite <- Hrange. by apply Hle.
    - destruct r as [e | []].
      + by destruct (Herr e eq_refl) as [-> _].
      + destruct Hend as [Hno | (_ & logs1 & l & -> & Hno & Hstop)].
        * by destruct (Hfull eq_refl Hno) as (m' & Hm' & _).
        * destruct Hspec as [(? & _) | [(? & _) | (m' & ? & _)]]; done. }
  split.
  - intros ->.
    destruct Hend as [Hno | (_ & logs1 & l & -> & Hno & Hstop)].
    + left. split; [by apply no_stop_existsb |].
      destruct (Hfull eq_refl Hno) as (m' & -> & ->). apply Hrange.
    + right. rewrite existsb_app. simpl. rewrite Hstop, orb_true_r.
      split; [done |].
      unfold log_val_losses in *. rewrite map_app in *.
      simpl in *. rewrite map_app in Hcalls. simpl in Hcalls.
      rewrite Hstop in Hcalls.
      by apply (early_stopping_calls_stop_streak _ _ _ _ Hc Hcalls).
  - intros e ->.
    destruct (Herr e eq_refl) as [-> Hwhy].
    split; [done |]. split; [done |].
    destruct Hwhy as [(-> & Hwhy) | [(-> & Hemp & m & Hm & Hpos)
                                    | [(-> & Hrun & m & Hm & Hzero)
                                      | (-> & Hnone)]]].
    + left. split; [done |]. destruct Hwhy as [? | [? _]]; [by right | by left].
    + right. left. split; [done |]. split; [tauto |].
      rewrite Hm, <- Hrange. done.
    + right. right. right. split; [done |]. split; [done |].
      rewrite Hm, <- Hrange. split; [done | by eexists].
    + right. right. left. split; [done |]. split; [done |].
      destruct Hspec as [(? & _) | [(_ & _ & _ & _ & Hfails)
                                   | (m & Hm & _ & _ & _ & Hcase)]]; [done | |].
      * left. unfold range_test_fails in Hfails.
        by apply andb_true_iff in Hfails as [? _].
      * right. rewrite Hm, <- Hrange.
        destruct Hcase as [(_ & _ & _ & [[? _] | (? & _)])
                          | [(_ & _ & ? & _)
                            | [(? & _) | (_ & _ & _ & _ & Hpos & _ & Hne)]]];
          done.
Qed.

End Termination.

Lemma fit_ends_within_max_epochs_witness :
  let '(r, t', out) := fit [1; 2]%float [3]%float sample_trainer in
  (length (val_losses out) ≤ 3)%nat
  ∧ (r = inr () →
     (stopped out = false ∧ length (val_losses out) = 3%nat)
     ∨ (stopped out = true
        ∧ (1 ≤ streak infinity (val_losses out))%nat
        ∧ py_int_eq (Z.of_nat (streak infinity (val_losses out))) (VInt 2) = true)).
Proof.
  pose proof (fit_ends_within_max_epochs (FW := toy) [1; 2]%float [3]%float
                sample_trainer eq_refl eq_refl) as H.
  destruct (fit _ _ sample_trainer) as [[r t'] out].
  destruct H as (Hle & Hret & _). split; [exact Hle | exact Hret].
Defined.

(** C6, as stated, fails on an empty validation dataloader: the first
    epoch raises [ZeroDivisionError], so the loop ends with none of its
    three epochs completed and without the early-stopping [break]. *)
Lemma fit_ends_by_exception_counterexample :
  let '(r, t', out) := fit [1; 2]%float [] sample_trainer in
  max_epochs sample_trainer = VInt 3
  ∧ r = inl ZeroDivisionError
  ∧ out = [PbarPostfix Train 1; PbarPostfix Train 2]
  ∧ val_losses out = []
  ∧ stopped out = false
  ∧ no_improve_count t' = 0.
Proof. vm_compute. repeat split; reflexivity. Qed.

(** ** The losses reported *)

Lemma py_range_nil (start stop : Z) : stop ≤ start → py_range start stop = [].
Proof.
  intros Hle. unfold py_range. by replace (Z.to_nat (stop - start)) with O by lia.
Qed.

Lemma take_py_range (n : nat) (start stop : Z) :
  (n ≤ length (py_range start stop))%nat →
  take n (py_range start stop) = py_range start (start + Z.of_nat n).
Proof.
  rewrite py_range_length. intros Hn. unfold py_range.
  rewrite firstn_map, take_seq.
  replace (n `min` Z.to_nat (stop - start))%nat with n by lia.
  f_equal. f_equal. lia.
Qed.

Section ReportedLoss.

Context `{FW : Framework}.

(** C7. On non-empty dataloaders the output of [fit] is, after the notice
    of the range test and before the summary for the tracker, the output of
    the epochs completed: each posts one loss per training batch and one per
    validation batch, the loss the criterion gives for that batch, and then
    reports for either phase the mean of the losses posted, their sum
    divided by the number of batches of the dataloader.  The epochs
    completed are the first ones of the range; for a trainer that has its
    criterion and whose scheduler can be configured they include the first
    epoch, if the range has one, and all epochs of the range unless one
    ended in [break]. *)
Theorem reported_loss_is_mean_of_batch_losses (train val : DataLoader) (t : Trainer) :
  train ≠ [] →
  val ≠ [] →
  let '(_, _, out) := fit train val t in
  ∃ pre logs post,
    out = pre ++ concat (map (epoch_events (max_epochs t) (patience t)) logs) ++ post
    ∧ Forall (λ e, e = PrintLRTest) pre
    ∧ Forall (λ e, ∃ v, e = WandbSummary "epoch" v) post
    ∧ complete_logs (length train) (length val) logs
    ∧ val_losses out = log_val_losses logs
    ∧ (∀ c, criterion t = Some c → batch_logs c train val logs)
    ∧ map log_epoch logs
      = py_range (start_epoch t) (start_epoch t + Z.of_nat (length logs))
    ∧ (∀ m, as_int (max_epochs t) = Some m →
            is_Some (criterion t) →
            (py_truthy (use_scheduler t) = true
             → ∃ b, py_lt_zero (max_lr t) = inr b) →
            (start_epoch t ≤ m → logs ≠ [])
            ∧ (no_stop logs → length logs = Z.to_nat (m + 1 - start_epoch t))).
Proof.
  intros Hne1 Hne2.
  destruct (fit_spec train val t)
    as (r & t' & out_c & logs & rest_out & out_w & Hfit & Hc & Hw & Hcomp & Hbatch
        & _ & _ & _ & _ & Hend).
  rewrite Hfit.
  assert (Hrest : rest_out = []).
  { destruct Hend as [(_ & _ & -> & _)
                     | [(_ & _ & -> & _)
                       | (m & _ & _ & _ & _
                          & [(-> & _) | [(-> & _) | [(_ & _ & _ & _ & _ & Hemp)
                                                    | (_ & -> & _)]]])]];
      try done. tauto. }
  subst rest_out. rewrite app_nil_r.
  exists out_c, logs, out_w.
  split; [done |]. split; [done |]. split; [done |]. split; [done |].
  split.
  { pose proof (fit_output_read (max_epochs t) (patience t) out_c [] out_w logs
                  Hc (or_introl eq_refl) Hw) as [Hv _].
    by rewrite app_nil_r in Hv. }
  split; [done |].
  split.
  { destruct Hend as [(_ & -> & _)
                     | [(_ & -> & _)
                       | (m & _ & _ & _ & Hep & _)]];
      [by rewrite py_range_nil by (simpl; lia)
      | by rewrite py_range_nil by (simpl; lia) |].
    rewrite Hep, take_py_range; [done |].
    apply (f_equal length) in Hep. rewrite length_map, length_take in Hep. lia. }
  intros m Hm [c Hcr] Hok.
  destruct Hend as [(_ & _ & _ & _ & [[Hus Hbad] | [Hnone _]])
                   | [(_ & _ & _ & _ & Hfails)
                     | (m' & Hm' & _ & _ & Hep & Hend)]].
  - destruct (Hok Hus). congruence.
  - congruence.
  - unfold range_test_fails in Hfails. rewrite Hcr in Hfails.
    by rewrite andb_false_r in Hfails.
  - assert (m' = m) as -> by congruence.
    destruct Hend as [(_ & Hlen & Hno & _)
                     | [(_ & _ & _ & logs0 & l & -> & _ & Hstop)
                       | [(_ & _ & _ & _ & _ & Hemp)
                         | (_ & _ & _ & _ & _ & Hnone & _)]]].
    + split; [| done]. intros Hstart ->. simpl in Hlen. lia.
    + split; [intros _; by destruct logs0 |].
      intros Hno. apply Forall_app in Hno as [_ Hl]. apply Forall_inv in Hl.
      congruence.
    + tauto.
    + congruence.
Qed.

End ReportedLoss.

Lemma reported_loss_is_mean_of_batch_losses_witness :
  let '(_, _, out) := fit [1; 2]%float [3]%float sample_trainer in
  ∃ pre logs post,
    out = pre ++ concat (map (epoch_events (VInt 3) (VInt 2)) logs) ++ post
    ∧ Forall (λ e, e = PrintLRTest) pre
    ∧ Forall (λ e, ∃ v, e = WandbSummary "epoch" v) post
    ∧ complete_logs 2 1 logs
    ∧ batch_logs (FW := toy) tt [1; 2]%float [3]%float logs
    ∧ logs ≠ [].
Proof.
  pose proof (reported_loss_is_mean_of_batch_losses (FW := toy) [1; 2]%float
                [3]%float sample_trainer ltac:(discriminate) ltac:(discriminate))
    as H.
  destruct (fit _ _ sample_trainer) as [[r t'] out].
  destruct H as (pre & logs & post & Hout & Hpre & Hpost & Hcomp & _ & Hbatch & _ & Hrun).
  exists pre, logs, post.
  split; [exact Hout |]. split; [exact Hpre |]. split; [exact Hpost |].
  split; [exact Hcomp |]. split; [exact (Hbatch tt eq_refl) |].
  apply (Hrun 3 eq_refl ltac:(by eexists) ltac:(discriminate)). simpl. lia.
Defined.

(** A run on the small framework: three epochs of two training batches
    and one validation batch, stopped by a patience of two. *)
Example fit_sample_run :
  fit [1; 2]%float [3]%float sample_trainer
  = (inr (),
     mkTrainer (FW := toy) 6 false (VInt 3) (VInt 2) (VFloat 0.5) (VFloat 1)
       (VBool true) (VBool false) 1 3 2 (Some tt) (Some 1e-6%float) None (Some 2),
     [PbarPostfix Train 1; PbarPostfix Train 2; PbarPostfix Val 3;
      PrintEpoch 1 (VInt 3) 1.5 3;
      PbarPostfix Train 1; PbarPostfix Train 2; PbarPostfix Val 3;
      PrintEpoch 2 (VInt 3) 1.5 3;
      PbarPostfix Train 1; PbarPostfix Train 2; PbarPostfix Val 3;
      PrintEpoch 3 (VInt 3) 1.5 3;
      PrintStopped (VInt 2)]).
Proof. vm_compute. reflexivity. Qed.

(** * Further properties of the trainer *)

(** ** How [fit] is put together *)

Section FitView.

Context `{FW : Framework}.

(** [fit] is the epoch loop run from the configured trainer, followed by
    the summary for the tracker; before the loop it raises [TypeError] when
    the scheduler cannot be configured or [max_epochs] is no [int], and
    [AttributeError] when the range test finds no criterion. *)
Lemma fit_view (train val : DataLoader) (t : Trainer) :
  let out_c := if runs_range_test t then [PrintLRTest] else [] in
  if negb (scheduler_configurable t) then
    fit train val t
    = (inl TypeError, set_optimizer (Some (Adam (model t) 1e-6)) t, [])
  else if range_test_fails t then
    fit train val t
    = (inl AttributeError, set_optimizer (Some (Adam (model t) 1e-6)) t, [PrintLRTest])
  else
    match as_int (max_epochs t) with
    | None => fit train val t = (inl TypeError, configured train t, out_c)
    | Some m =>
        let '(rl, t', out_l) :=
          epoch_loop train val (py_range (start_epoch t) (m + 1)) None
            (configured train t) in
        fit train val t =
        match rl with
        | inl e => (inl e, t', out_c ++ out_l)
        | inr last =>
            if wandb_run t' then
              match last with
              | None => (inl UnboundLocalError, t', out_c ++ out_l)
              | Some epoch =>
                  match py_min_epoch epoch (max_epochs t') with
                  | inl e => (inl e, t', out_c ++ out_l)
                  | inr v => (inr (), t', out_c ++ out_l ++ [WandbSummary "epoch" v])
                  end
              end
            else (inr (), t', out_c ++ out_l)
        end
    end.
Proof.
  unfold fit, configure_scheduler, _find_optimal_lr, configured,
    scheduler_configurable, range_test_fails, runs_range_test, range_stop.
  munfold. simpl.
  destruct (py_truthy (use_scheduler t)) eqn:Hs; simpl.
  - destruct (py_lt_zero (max_lr t)) as [e | [|]] eqn:Hlt; simpl.
    + destruct (max_lr t); simpl in Hlt; try discriminate; by injection Hlt as <-.
    + destruct (criterion t) as [c |] eqn:Hcr; simpl; [| done].
      destruct (lr_range_test (model t) (Adam (model t) 1e-6) c train)
        as [[m0 o1] suggested]. simpl.
      destruct (OneCycleLR o1 suggested (max_epochs t) (length train)) as [s o2].
      simpl.
      destruct (as_int (max_epochs t)) as [m |]; simpl; [| done].
      match goal with
      | |- context [epoch_loop ?a ?b ?c ?d ?e] =>
          destruct (epoch_loop a b c d e) as [[[e' | last] t'] out_l]
      end; simpl; [done |].
      destruct (wandb_run t'); simpl; [| by rewrite app_nil_r].
      destruct last as [epoch |]; simpl; [| by rewrite app_nil_r].
      destruct (py_min_epoch epoch (max_epochs t')); simpl; [by rewrite app_nil_r | done].
    + destruct (OneCycleLR (Adam (model t) 1e-6) (max_lr t) (max_epochs t)
                  (length train)) as [s o2]. simpl.
      destruct (as_int (max_epochs t)) as [m |]; simpl; [| done].
      match goal with
      | |- context [epoch_loop ?a ?b ?c ?d ?e] =>
          destruct (epoch_loop a b c d e) as [[[e' | last] t'] out_l]
      end; simpl; [done |].
      destruct (wandb_run t'); simpl; [| by rewrite app_nil_r].
      destruct last as [epoch |]; simpl; [| by rewrite app_nil_r].
      destruct (py_min_epoch epoch (max_epochs t')); simpl; [by rewrite app_nil_r | done].
  - destruct (as_int (max_epochs t)) as [m |]; simpl; [| done].
    match goal with
    | |- context [epoch_loop ?a ?b ?c ?d ?e] =>
        destruct (epoch_loop a b c d e) as [[[e' | last] t'] out_l]
    end; simpl; [done |].
    destruct (wandb_run t'); simpl; [| by rewrite app_nil_r].
    destruct last as [epoch |]; simpl; [| by rewrite app_nil_r].
    destruct (py_min_epoch epoch (max_epochs t')); simpl; [by rewrite app_nil_r | done].
Qed.

End FitView.

Section LoopViews.

Context `{FW : Framework}.

Lemma early_stopping_calls_respect {X : Type} (α : Trainer → X) :
  (∀ x t u, α t = α u → α (_early_stopping x t).2 = α (_early_stopping x u).2) →
  ∀ xs t u, α t = α u →
    α (early_stopping_calls xs t).2 = α (early_stopping_calls xs u).2.
Proof.
  intros Hes xs. induction xs as [| x xs IH]; intros t u Htu; simpl; [done |].
  specialize (Hes x t u Htu).
  destruct (_early_stopping x t) as [b t1], (_early_stopping x u) as [c u1].
  simpl in Hes. specialize (IH t1 u1 Hes).
  by destruct (early_stopping_calls xs t1), (early_stopping_calls xs u1).
Qed.

(** Any reading of the trainer that the training phases leave alone and
    that [_early_stopping] updates on its own is, after the epoch loop,
    what the calls of [_early_stopping] on the validation losses reported
    make of it. *)
Lemma epoch_loop_reading {X : Type} (α : Trainer → X) :
  (∀ t u, control t = control u → α t = α u) →
  (∀ x t u, α t = α u → α (_early_stopping x t).2 = α (_early_stopping x u).2) →
  ∀ train val epochs last t,
    let '(_, t', out) := epoch_loop train val epochs last t in
    α t' = α (early_stopping_calls (val_losses out) t).2.
Proof.
  intros Hcontrol Hes train val epochs.
  induction epochs as [| epoch rest IH]; intros last t; [done |].
  cbn [epoch_loop]. munfold.
  destruct (run_epoch_spec train val epoch t)
    as (r1 & t1 & out1 & Hrun & _ & _ & Hcase).
  rewrite Hrun.
  destruct Hcase as [(ltrain & lval & tm & Hc & -> & -> & -> & _)
                    | (e & -> & Hc & Hpart & _)].
  2: { apply partial_events_quiet in Hpart as [-> _]. simpl. by apply Hcontrol. }
  set (l := mkEpochLog epoch ltrain lval (_early_stopping (mean lval) tm).1).
  destruct (epoch_events_read (max_epochs t) (patience t) l) as [Hread _].
  assert (Hstep : α (_early_stopping (mean lval) tm).2
                  = α (_early_stopping (mean lval) t).2)
    by (apply Hes; by apply Hcontrol).
  destruct (_early_stopping (mean lval) tm) as [b t2] eqn:Htm.
  destruct (_early_stopping (mean lval) t) as [b' t2'] eqn:Ht.
  simpl in Hstep. cbn [fst snd].
  destruct b.
  - rewrite app_nil_r, Hread. simpl. by rewrite Ht.
  - specialize (IH (Some epoch) t2).
    destruct (epoch_loop train val rest (Some epoch) t2) as [[r t3] out2].
    rewrite val_losses_app, Hread. simpl. rewrite Ht, IH.
    pose proof (early_stopping_calls_respect α Hes (val_losses out2) t2 t2' Hstep)
      as Hcalls.
    by destruct (early_stopping_calls (val_losses out2) t2'),
         (early_stopping_calls (val_losses out2) t2).
Qed.

Lemma configured_control (train : DataLoader) (t : Trainer) :
  stopping_state (configured train t) = stopping_state t
  ∧ settings (configured train t) = settings t
  ∧ checkpoint (configured train t) = checkpoint t
  ∧ criterion (configured train t) = criterion t
  ∧ (is_Some (criterion t) → ready (configured train t)).
Proof.
  unfold configured, ready.
  destruct (py_truthy (use_scheduler t)) eqn:Hs; simpl.
  - destruct (runs_range_test t).
    + destruct (criterion t) as [c |] eqn:Hcr; simpl.
      2: { do 4 (split; [done |]). by intros [? ?]. }
      destruct (lr_range_test _ _ _ _) as [[m o1] suggested].
      destruct (OneCycleLR _ _ _ _) as [s o2]. simpl.
      do 4 (split; [done |]). intros _. rewrite Hcr. repeat split; by eexists.
    + destruct (OneCycleLR _ _ _ _) as [s o2]. simpl.
      do 4 (split; [done |]). intros ?. split; [done |]. split; by eexists.
  - do 4 (split; [done |]). intros ?. split; [done |]. simpl. rewrite Hs.
    split; [by eexists | done].
Qed.

Lemma range_test_fails_spec (t : Trainer) :
  range_test_fails t = true ↔ runs_range_test t = true ∧ criterion t = None.
Proof.
  unfold range_test_fails. rewrite andb_true_iff.
  destruct (criterion t); split; intros [? ?]; done.
Qed.

Lemma configured_range_test_fails (train : DataLoader) (t : Trainer) :
  range_test_fails t = true → control (configured train t) = control t.
Proof.
  intros [Hrun Hnone]%range_test_fails_spec. unfold configured.
  rewrite Hrun, Hnone. by destruct (py_truthy (use_scheduler t)).
Qed.

(** The output of [fit] holds the validation losses, the epoch numbers and
    the stop message of its epoch loop, and nothing of the kind besides. *)
Lemma fit_view_output (out_l : list Event) (b : bool) (tail : list Event) :
  Forall (λ e, ∃ v, e = WandbSummary "epoch" v) tail →
  let out := (if b then [PrintLRTest] else []) ++ out_l ++ tail in
  val_losses out = val_losses out_l
  ∧ stopped out = stopped out_l
  ∧ epoch_numbers out = epoch_numbers out_l.
Proof.
  intros Htail. cbn zeta.
  rewrite !val_losses_app, !stopped_app. unfold epoch_numbers. rewrite !omap_app.
  destruct (summary_quiet _ Htail) as [-> ->].
  assert (omap (λ e, match e with PrintEpoch epoch _ _ _ => Some epoch | _ => None end)
            tail = []) as ->.
  { induction Htail as [| e tl [v ->] _ IH]; simpl; done. }
  rewrite !app_nil_r, orb_false_r. by destruct b.
Qed.

(** A reading as above is, after [fit], what the calls of
    [_early_stopping] on the validation losses reported make of it,
    starting from the configured trainer. *)
Lemma fit_reading {X : Type} (α : Trainer → X) :
  (∀ t u, control t = control u → α t = α u) →
  (∀ x t u, α t = α u → α (_early_stopping x t).2 = α (_early_stopping x u).2) →
  ∀ train val t,
    let '(_, t', out) := fit train val t in
    α t' = α (early_stopping_calls (val_losses out)
                (if scheduler_configurable t then configured train t else t)).2.
Proof.
  intros Hcontrol Hes train val t.
  pose proof (fit_view train val t) as Hview. cbn zeta in Hview.
  destruct (scheduler_configurable t); simpl in Hview.
  2: { rewrite Hview. simpl. by apply Hcontrol. }
  destruct (range_test_fails t) eqn:Hfails.
  { rewrite Hview. simpl. apply Hcontrol.
    by rewrite configured_range_test_fails. }
  destruct (as_int (max_epochs t)) as [m |].
  2: { rewrite Hview. by destruct (runs_range_test t). }
  pose proof (epoch_loop_reading α Hcontrol Hes train val
                (py_range (start_epoch t) (m + 1)) None (configured train t)) as Hloop.
  destruct (epoch_loop train val (py_range (start_epoch t) (m + 1)) None
              (configured train t)) as [[rl t'] out_l].
  rewrite Hview.
  assert (Hplain : val_losses ((if runs_range_test t then [PrintLRTest] else [])
                               ++ out_l) = val_losses out_l).
  { destruct (fit_view_output out_l (runs_range_test t) [] ltac:(constructor))
      as [Hv _]. by rewrite app_nil_r in Hv. }
  destruct rl as [e | last]; [by rewrite Hplain |].
  destruct (wandb_run t'); [| by rewrite Hplain].
  destruct last as [epoch |]; [| by rewrite Hplain].
  destruct (py_min_epoch epoch (max_epochs t')) as [e | v]; [by rewrite Hplain |].
  destruct (fit_view_output out_l (runs_range_test t) [WandbSummary "epoch" v])
    as [Hv _]; [repeat constructor; by eexists |].
  cbn zeta in Hv. by rewrite Hv.
Qed.

End LoopViews.

(** ** How [fit] ends *)

Section FitOutcome.

Context `{FW : Framework}.

Lemma scheduler_configurable_spec (t : Trainer) :
  scheduler_configurable t = true
  ↔ (py_truthy (use_scheduler t) = true → ∃ b, py_lt_zero (max_lr t) = inr b).
Proof.
  unfold scheduler_configurable.
  destruct (py_truthy (use_scheduler t)); simpl; [| by split].
  destruct (py_lt_zero (max_lr t)) as [e | b]; split; try done.
  - intros H. by destruct (H eq_refl).
  - intros _ _. by exists b.
Qed.

Lemma scheduler_not_configurable_spec (t : Trainer) :
  scheduler_configurable t = false
  ↔ py_truthy (use_scheduler t) = true ∧ py_lt_zero (max_lr t) = inl TypeError.
Proof.
  unfold scheduler_configurable.
  destruct (py_truthy (use_scheduler t)); simpl; [| by split; [| intros []]].
  destruct (max_lr t); simpl; split; try done; by intros [].
Qed.

Lemma runs_range_test_configurable (t : Trainer) :
  runs_range_test t = true → scheduler_configurable t = true.
Proof.
  unfold runs_range_test, scheduler_configurable.
  destruct (py_truthy (use_scheduler t)); simpl; [| done].
  by destruct (py_lt_zero (max_lr t)).
Qed.

Lemma range_test_works_spec (t : Trainer) :
  range_test_fails t = false ↔ (runs_range_test t = true → is_Some (criterion t)).
Proof.
  unfold range_test_fails.
  destruct (runs_range_test t), (criterion t); simpl; split; try done.
  intros H. by destruct (H eq_refl).
Qed.

(** On an empty dataloader the epoch loop reports no epoch: its first
    epoch, if there is one, divides by zero. *)
Lemma epoch_loop_empty (train val : DataLoader) (epochs : list Z)
    (last : option Z) (t : Trainer) :
  train = [] ∨ val = [] →
  let '(r, _, out) := epoch_loop train val epochs last t in
  val_losses out = [] ∧ stopped out = false ∧ epoch_numbers out = []
  ∧ (epochs ≠ [] → ready t → r = inl ZeroDivisionError).
Proof.
  intros Hempty. destruct epochs as [| epoch rest]; [done |].
  cbn [epoch_loop]. munfold.
  destruct (run_epoch_spec train val epoch t)
    as (r1 & t1 & out1 & Hrun & _ & _ & Hcase).
  rewrite Hrun.
  destruct Hcase as [(ltrain & lval & tm & _ & _ & _ & _ & _ & _ & (Hne1 & Hne2 & _) & _)
                    | (e & -> & _ & Hpart & He)]; [tauto |].
  destruct (partial_events_quiet _ Hpart) as [Hv Hs].
  split; [done |]. split; [done |]. split.
  - destruct Hpart as (l1 & l2 & ->). unfold epoch_numbers. rewrite omap_app.
    assert (Hq : ∀ ph l, omap (λ e, match e with
                                    | PrintEpoch epoch _ _ _ => Some epoch
                                    | _ => None
                                    end) (postfixes ph l) = []).
    { intros ph l. induction l; simpl; done. }
    by rewrite !Hq.
  - intros _ Hready. destruct He as [[-> _] | (_ & Hnot & _)]; [done | tauto].
Qed.

(** Which inputs lead to which end of [fit]. *)
Lemma fit_outcome (train val : DataLoader) (t : Trainer) :
  let '(r, _, _) := fit train val t in
  match r with
  | inl TypeError =>
      scheduler_configurable t = false
      ∨ (as_int (max_epochs t) = None ∧ range_test_fails t = false)
  | inl AttributeError =>
      scheduler_configurable t = true ∧ criterion t = None
      ∧ (runs_range_test t = true
         ∨ ∃ m, as_int (max_epochs t) = Some m ∧ start_epoch t ≤ m ∧ train ≠ [])
  | inl ZeroDivisionError =>
      scheduler_configurable t = true ∧ range_test_fails t = false
      ∧ ∃ m, as_int (max_epochs t) = Some m ∧ start_epoch t ≤ m
             ∧ (train = [] ∨ (val = [] ∧ is_Some (criterion t)))
  | inl UnboundLocalError =>
      scheduler_configurable t = true ∧ range_test_fails t = false
      ∧ ∃ m, as_int (max_epochs t) = Some m ∧ m < start_epoch t
             ∧ wandb_run t = true
  | inr _ =>
      scheduler_configurable t = true ∧ range_test_fails t = false
      ∧ ∃ m, as_int (max_epochs t) = Some m
             ∧ ((m < start_epoch t ∧ wandb_run t = false)
                ∨ (start_epoch t ≤ m ∧ train ≠ [] ∧ val ≠ []
                   ∧ is_Some (criterion t)))
  end.
Proof.
  destruct (fit_spec train val t)
    as (r & t' & out_c & logs & rest_out & out_w & Hfit & Hc & Hw & _ & _ & Hnonempty
        & _ & _ & _ & Hend).
  rewrite Hfit in *.
  destruct Hend as [(-> & _ & _ & _ & Hwhy)
                   | [(-> & _ & _ & _ & Hfails)
                     | (m & Hm & Hok & Hfails & Hep & Hend)]].
  - destruct Hwhy as [Hbad | Hnone]; [left | by right].
    by apply scheduler_not_configurable_spec.
  - apply range_test_fails_spec in Hfails as [Hrun Hnone].
    split; [by apply runs_range_test_configurable |]. split; [done | by left].
  - apply scheduler_configurable_spec in Hok.
    assert (Hle : (length logs ≤ Z.to_nat (m + 1 - start_epoch t))%nat).
    { apply (f_equal length) in Hep.
      rewrite length_map, length_take, py_range_length in Hep. lia. }
    destruct Hend as [(_ & Hlen & _ & [[-> Hrun] | (-> & -> & Hrun & _)])
                     | [(_ & _ & -> & logs0 & l & -> & _)
                       | [(-> & _ & _ & -> & Hpos & Hemp)
                         | (-> & _ & _ & -> & Hpos & Hnone & Hne)]]].
    + split; [done |]. split; [done |]. exists m. split; [done |].
      destruct (decide (m < start_epoch t)) as [Hlt | Hge].
      * left. split; [done |].
        destruct (wandb_run t); [| done].
        destruct logs; [by destruct Hrun | simpl in Hlen; lia].
      * right. split; [lia |]. apply Hnonempty.
        destruct logs; [simpl in Hlen; lia | done].
    + split; [done |]. split; [done |]. exists m. split; [done |].
      simpl in Hlen. split; [lia | done].
    + split; [done |]. split; [done |]. exists m. split; [done |]. right.
      rewrite length_app in Hle. simpl in Hle.
      split; [lia |]. apply Hnonempty. by destruct logs0.
    + split; [done |]. split; [done |]. exists m. split; [done |]. split; [lia | done].
    + split; [done |]. split; [done |]. right. exists m.
      split; [done |]. split; [lia | done].
Qed.

End FitOutcome.

Section FitEnds.

Context `{FW : Framework}.

(** X1. [fit] returns normally exactly when the scheduler can be
    configured, the range test, if it is run, finds the criterion,
    [max_epochs] is an [int], and either the range of epochs is empty and no
    tracker is attached, or the range is not empty, both dataloaders are
    non-empty and the criterion is set.  It raises [AttributeError] exactly
    when the criterion, which the constructor only declares, is unset where
    it is first read: in the range test, or in the first training batch.
    The optimizer and the scheduler never cause it: [fit] sets them before
    they are used. *)
Theorem fit_returns_exactly_when (train val : DataLoader) (t : Trainer) :
  let '(r, _, _) := fit train val t in
  (r = inr ()
   ↔ scheduler_configurable t = true
     ∧ (runs_range_test t = true → is_Some (criterion t))
     ∧ ∃ m, as_int (max_epochs t) = Some m
            ∧ ((m < start_epoch t ∧ wandb_run t = false)
               ∨ (start_epoch t ≤ m ∧ train ≠ [] ∧ val ≠ []
                  ∧ is_Some (criterion t))))
  ∧ (r = inl AttributeError
     ↔ criterion t = None
       ∧ (runs_range_test t = true
          ∨ (scheduler_configurable t = true
             ∧ ∃ m, as_int (max_epochs t) = Some m ∧ start_epoch t ≤ m
                    ∧ train ≠ []))).
Proof.
  pose proof (fit_outcome train val t) as H.
  destruct (fit train val t) as [[r t'] out].
  rewrite <- range_test_works_spec.
  destruct r as [[] | []].
  - (* TypeError *)
    split; split; try done.
    + intros (Hc & Hw & m & Hm & _). destruct H as [? | [? _]]; congruence.
    + intros (Hnone & [Hrun | (Hc & m & Hm & _)]).
      * destruct H as [Hbad | [_ Hworks]].
        -- apply runs_range_test_configurable in Hrun. congruence.
        -- assert (range_test_fails t = true) by (by apply range_test_fails_spec).
           congruence.
      * destruct H as [? | [? _]]; congruence.
  - (* ZeroDivisionError *)
    destruct H as (Hc & Hworks & m & Hm & Hle & Hemp).
    split; split; try done.
    + intros (_ & _ & m' & Hm' & Hcase). assert (m' = m) as -> by congruence.
      destruct Hcase as [[? _] | (_ & ? & ? & _)]; [lia | tauto].
    + intros (Hnone & [Hrun | (_ & m' & Hm' & _ & Hne)]).
      * assert (range_test_fails t = true) by (by apply range_test_fails_spec).
        congruence.
      * destruct Hemp as [? | [_ [c Hcr]]]; congruence.
  - (* AttributeError *)
    destruct H as (Hc & Hnone & Hcase).
    split; split; try done.
    + intros (_ & Hworks & m & Hm & Hret).
      destruct Hcase as [Hrun | (m' & Hm' & Hle & Hne)].
      * assert (range_test_fails t = true) by (by apply range_test_fails_spec).
        congruence.
      * assert (m' = m) as -> by congruence.
        destruct Hret as [[? _] | (_ & _ & _ & [c Hcr])]; [lia | congruence].
    + intros _. split; [done |].
      destruct Hcase as [? | ?]; [by left | by right].
  - (* UnboundLocalError *)
    destruct H as (Hc & Hworks & m & Hm & Hlt & Hrun).
    split; split; try done.
    + intros (_ & _ & m' & Hm' & Hcase). assert (m' = m) as -> by congruence.
      destruct Hcase as [[_ ?] | (? & _)]; [congruence | lia].
    + intros (Hnone & [Hrun' | (_ & m' & Hm' & Hle & _)]).
      * assert (range_test_fails t = true) by (by apply range_test_fails_spec).
        congruence.
      * assert (m' = m) as -> by congruence. lia.
  - (* it returns *)
    destruct H as (Hc & Hworks & m & Hm & Hcase).
    split; split; try done.
    + intros _. split; [done |]. split; [done |]. by exists m.
    + intros (Hnone & [Hrun | (_ & m' & Hm' & Hle & Hne)]).
      * assert (range_test_fails t = true) by (by apply range_test_fails_spec).
        congruence.
      * assert (m' = m) as -> by congruence.
        destruct Hcase as [[? _] | (_ & _ & _ & [c Hcr])]; [lia | congruence].
Qed.

(** X2. For a trainer that has its criterion, [fit] raises [TypeError]
    exactly when [max_epochs] is not an [int], or the scheduler is in use
    and [max_lr] is [None] or a string.  No epoch has then been run: no loss
    is reported, and [best_val_loss] and [no_improve_count] are as
    before. *)
Theorem fit_raises_type_error_exactly_when (train val : DataLoader) (t : Trainer) :
  is_Some (criterion t) →
  let '(r, t', out) := fit train val t in
  (r = inl TypeError
   ↔ as_int (max_epochs t) = None
     ∨ (py_truthy (use_scheduler t) = true
        ∧ py_lt_zero (max_lr t) = inl TypeError))
  ∧ (r = inl TypeError →
     val_losses out = [] ∧ stopped out = false
     ∧ best_val_loss t' = best_val_loss t
     ∧ no_improve_count t' = no_improve_count t).
Proof.
  intros [c Hcr].
  pose proof (fit_outcome train val t) as H.
  destruct (fit_log train val t) as [logs Hlog].
  destruct (fit train val t) as [[r t'] out].
  destruct Hlog as (Hv & Hs & _ & Hst & _ & _ & _ & _ & _ & Herr).
  rewrite <- scheduler_not_configurable_spec.
  split.
  - destruct r as [[] | []]; split; try done.
    + intros _. destruct H as [? | [? _]]; [by right | by left].
    + intros Hbad. destruct H as (Hc & _ & m & Hm & _).
      destruct Hbad; congruence.
    + destruct H as (_ & ? & _). congruence.
    + intros Hbad. destruct H as (Hc & _ & m & Hm & _).
      destruct Hbad; congruence.
    + intros Hbad. destruct H as (Hc & _ & m & Hm & _).
      destruct Hbad; congruence.
  - intros ->.
    destruct (Herr TypeError eq_refl) as [-> _].
    simpl in *. unfold stopping_state in Hst.
    rewrite Hv, Hs. repeat split; congruence.
Qed.

(** X3. For a trainer that has its criterion, [fit] raises
    [ZeroDivisionError] exactly when the scheduler can be configured,
    [max_epochs] is an [int] not below [start_epoch], and one of the
    dataloaders is empty.  The first epoch then fails before it is
    reported, and [best_val_loss] and [no_improve_count] are as before. *)
Theorem fit_divides_by_zero_exactly_when (train val : DataLoader) (t : Trainer) :
  is_Some (criterion t) →
  let '(r, t', out) := fit train val t in
  (r = inl ZeroDivisionError
   ↔ scheduler_configurable t = true
     ∧ (∃ m, as_int (max_epochs t) = Some m ∧ start_epoch t ≤ m)
     ∧ (train = [] ∨ val = []))
  ∧ (r = inl ZeroDivisionError →
     val_losses out = [] ∧ stopped out = false
     ∧ best_val_loss t' = best_val_loss t
     ∧ no_improve_count t' = no_improve_count t).
Proof.
  intros [c Hcr].
  pose proof (fit_outcome train val t) as H.
  destruct (fit_log train val t) as [logs Hlog].
  destruct (fit train val t) as [[r t'] out].
  destruct Hlog as (Hv & Hs & _ & Hst & _ & _ & _ & _ & _ & Herr).
  split.
  - destruct r as [[] | []]; split; try done.
    + intros (Hc & (m & Hm & _) & _). destruct H as [? | [? _]]; congruence.
    + intros _. destruct H as (Hc & _ & m & Hm & Hle & Hemp).
      split; [done |]. split; [by exists m | tauto].
    + destruct H as (_ & ? & _). congruence.
    + intros (_ & (m & Hm & Hle) & _). destruct H as (_ & _ & m' & Hm' & Hlt & _).
      assert (m' = m) as -> by congruence. lia.
    + intros (_ & (m & Hm & Hle) & Hemp). destruct H as (_ & _ & m' & Hm' & Hcase).
      assert (m' = m) as -> by congruence.
      destruct Hcase as [[? _] | (_ & ? & ? & _)]; [lia | tauto].
  - intros ->.
    destruct (Herr ZeroDivisionError eq_refl) as [-> _].
    simpl in *. unfold stopping_state in Hst.
    rewrite Hv, Hs. repeat split; congruence.
Qed.

(** X4. For a trainer that has its criterion, [fit] raises
    [UnboundLocalError] exactly when a tracker is attached and the range of
    epochs is empty ([max_epochs] an [int] below [start_epoch]) while the
    scheduler can be configured: the summary reads [epoch], which the loop
    never bound. *)
Theorem fit_reads_unbound_epoch_exactly_when (train val : DataLoader) (t : Trainer) :
  is_Some (criterion t) →
  let '(r, _, out) := fit train val t in
  (r = inl UnboundLocalError
   ↔ scheduler_configurable t = true
     ∧ (∃ m, as_int (max_epochs t) = Some m ∧ m < start_epoch t)
     ∧ wandb_run t = true)
  ∧ (r = inl UnboundLocalError → val_losses out = [] ∧ summaries out = []).
Proof.
  intros [c Hcr].
  pose proof (fit_outcome train val t) as H.
  pose proof (fit_view train val t) as Hview. cbn zeta in Hview.
  destruct (fit_log train val t) as [logs Hlog].
  destruct (fit train val t) as [[r t'] out] eqn:Hfit.
  destruct Hlog as (Hv & _ & _ & _ & _ & _ & _ & _ & _ & Herr).
  split.
  - destruct r as [[] | []]; split; try done.
    + intros (Hc & (m & Hm & _) & _). destruct H as [? | [? _]]; congruence.
    + intros (_ & (m & Hm & Hlt) & _). destruct H as (_ & _ & m' & Hm' & Hle & _).
      assert (m' = m) as -> by congruence. lia.
    + destruct H as (_ & ? & _). congruence.
    + intros _. destruct H as (Hc & _ & m & Hm & Hlt & Hrun).
      split; [done |]. split; [by exists m | done].
    + intros (_ & (m & Hm & Hlt) & Hrun). destruct H as (_ & _ & m' & Hm' & Hcase).
      assert (m' = m) as -> by congruence.
      destruct Hcase as [[_ ?] | (? & _)]; [congruence | lia].
  - intros ->.
    destruct (Herr UnboundLocalError eq_refl) as [-> _].
    split; [done |].
    destruct H as (Hc & Hworks & m & Hm & Hlt & _). rewrite Hc, Hworks, Hm in Hview.
    cbn [negb] in Hview.
    replace (py_range (start_epoch t) (m + 1)) with (@nil Z) in Hview.
    2: { unfold py_range. replace (Z.to_nat (m + 1 - start_epoch t)) with O by lia.
         done. }
    cbn [epoch_loop] in Hview. unfold ret in Hview.
    destruct (wandb_run (configured train t)); simplify_eq;
      by destruct (runs_range_test t).
Qed.

End FitEnds.

Lemma fit_raises_type_error_exactly_when_witness :
  (fit [1]%float [3]%float float_epochs_trainer).1.1 = inl TypeError.
Proof.
  pose proof (fit_raises_type_error_exactly_when (FW := toy) [1]%float [3]%float
                float_epochs_trainer ltac:(by eexists)) as H.
  destruct (fit _ _ float_epochs_trainer) as [[r t'] out].
  apply (proj1 H). by left.
Defined.

Lemma fit_divides_by_zero_exactly_when_witness :
  (fit [1; 2]%float [] sample_trainer).1.1 = inl ZeroDivisionError.
Proof.
  pose proof (fit_divides_by_zero_exactly_when (FW := toy) [1; 2]%float []
                sample_trainer ltac:(by eexists)) as H.
  destruct (fit _ _ sample_trainer) as [[r t'] out].
  apply (proj1 H). split; [reflexivity |].
  split; [exists 3; split; [reflexivity | simpl; lia] | by right].
Defined.

Lemma fit_reads_unbound_epoch_exactly_when_witness :
  (fit [1]%float [3]%float no_epochs_tracked_trainer).1.1 = inl UnboundLocalError.
Proof.
  pose proof (fit_reads_unbound_epoch_exactly_when (FW := toy) [1]%float [3]%float
                no_epochs_tracked_trainer ltac:(by eexists)) as H.
  destruct (fit _ _ no_epochs_tracked_trainer) as [[r t'] out].
  apply (proj1 H). split; [reflexivity |].
  split; [exists 0; split; [reflexivity | simpl; lia] | reflexivity].
Defined.

(** What the constructor of [BaseTrainer] alone gives has no criterion: the
    first training batch of [fit] runs the model and raises. *)
Example fit_bare_trainer_run :
  criterion bare_trainer = None
  ∧ fit [1; 2]%float [3]%float bare_trainer
    = (inl AttributeError, set_optimizer (Some 1e-6%float) bare_trainer, []).
Proof. vm_compute. split; reflexivity. Qed.

Lemma py_range_cons (start stop : Z) :
  start < stop → py_range start stop = start :: py_range (start + 1) stop.
Proof.
  intros Hlt. unfold py_range.
  replace (Z.to_nat (stop - start)) with (S (Z.to_nat (stop - (start + 1)))) by lia.
  cbn [seq map]. f_equal; [lia |].
  rewrite <- seq_shift, map_map. apply map_ext. intros i. lia.
Qed.

Section EmptyDataloader.

Context `{FW : Framework}.

Lemma run_epoch_empty_train (val : DataLoader) (epoch : Z) (t : Trainer) :
  run_epoch [] val epoch t
  = (inl ZeroDivisionError, set_model (model_train (model t)) t, []).
Proof. done. Qed.

Lemma run_epoch_empty_val (train : DataLoader) (epoch : Z) (t : Trainer) :
  ready t → train ≠ [] →
  ∃ t1 ltrain,
    run_epoch train [] epoch t = (inl ZeroDivisionError, t1, postfixes Train ltrain)
    ∧ length ltrain = length train.
Proof.
  intros Hready Hne. unfold run_epoch. munfold.
  destruct (run_phase_spec Train train t)
    as (r1 & t1 & ltrain & Hrun1 & _ & _ & Hres1).
  rewrite Hrun1.
  destruct Hres1 as [(-> & Hlen & _) | [(_ & -> & _) | (_ & Hnot & _)]];
    [| done | tauto].
  eexists _, ltrain. split; [| done]. simpl. by rewrite app_nil_r.
Qed.

(** X5. When [fit], on a trainer that has its criterion, gets as far as
    its first epoch and the training dataloader is empty, it raises before
    any batch is run.  When only the validation dataloader is empty, it
    raises after every training batch of the first epoch has been run and
    its loss posted: the model has been trained for one pass when the error
    comes. *)
Theorem fit_on_empty_dataloader (train val : DataLoader) (t : Trainer) (m : Z) :
  is_Some (criterion t) →
  scheduler_configurable t = true →
  as_int (max_epochs t) = Some m →
  start_epoch t ≤ m →
  let notice := if runs_range_test t then [PrintLRTest] else [] in
  (train = [] →
   let '(r, _, out) := fit train val t in
   r = inl ZeroDivisionError ∧ out = notice)
  ∧ (train ≠ [] → val = [] →
     let '(r, _, out) := fit train val t in
     r = inl ZeroDivisionError
     ∧ ∃ ltrain, out = notice ++ postfixes Train ltrain
                 ∧ length ltrain = length train).
Proof.
  intros Hcr Hc Hm Hle.
  pose proof (fit_view train val t) as Hview. cbn zeta in Hview.
  assert (Hworks : range_test_fails t = false) by (by apply range_test_works_spec).
  rewrite Hc, Hworks, Hm in Hview. cbn [negb] in Hview.
  rewrite py_range_cons in Hview by lia. cbn [epoch_loop] in Hview.
  unfold mbind, M_bind, bind in Hview.
  split.
  - intros ->. rewrite run_epoch_empty_train in Hview. rewrite Hview.
    by rewrite app_nil_r.
  - intros Hne ->.
    destruct (run_epoch_empty_val train (start_epoch t) (configured train t))
      as (t1 & ltrain & Hrun & Hlen); [by apply configured_control | done |].
    rewrite Hrun in Hview. rewrite Hview. split; [done |]. by exists ltrain.
Qed.

End EmptyDataloader.

Lemma fit_on_empty_dataloader_witness :
  let '(r, t', out) := fit [1; 2]%float [] sample_trainer in
  r = inl ZeroDivisionError
  ∧ ∃ ltrain, out = [] ++ postfixes Train ltrain ∧ length ltrain = 2%nat.
Proof.
  apply (proj2 (fit_on_empty_dataloader (FW := toy) [1; 2]%float [] sample_trainer 3
                  ltac:(by eexists) eq_refl eq_refl ltac:(simpl; lia)));
    [discriminate | reflexivity].
Defined.

(** ** Testing *)

Section Testing.

Context `{FW : Framework}.

Lemma test_loop_collects (batches : list Batch)
    (references hypothesis : list (list string)) (t : Trainer) :
  test_loop batches references hypothesis t
  = (inr (references ++ references_of batches,
          hypothesis ++ hypotheses_of (model t) batches), t, []).
Proof.
  revert references hypothesis.
  induction batches as [| b rest IH]; intros refs hyps.
  - unfold references_of, hypotheses_of. simpl. by rewrite !app_nil_r.
  - cbn [test_loop]. munfold. rewrite IH.
    unfold references_of, hypotheses_of. simpl. by rewrite <- !app_assoc.
Qed.

(** X6. [test] raises exactly when [save_best_model] is enabled and no
    checkpoint was ever saved, and then with [AttributeError], before it
    touches the model or prints anything. *)
Theorem test_raises_exactly_when (loader : DataLoader) (t : Trainer) :
  let '(r, t', out) := test loader t in
  (r = inl AttributeError
   ↔ py_truthy (save_best_model t) = true ∧ checkpoint t = None)
  ∧ (∀ e, r = inl e → e = AttributeError ∧ t' = t ∧ out = []).
Proof.
  unfold test. munfold. simpl.
  destruct (py_truthy (save_best_model t)); simpl.
  - destruct (checkpoint t) as [c |]; simpl.
    2: { split; [done |]. by intros e [= <-]. }
    rewrite test_loop_collects. simpl.
    destruct (wandb_run t); simpl; split; try done; split; try done; by intros [].
  - rewrite test_loop_collects. simpl.
    destruct (wandb_run t); simpl; split; try done; split; try done; by intros [].
Qed.

(** X7. When it has a model to evaluate, [test] evaluates that one model
    on every batch, prints BLEU and edit distance of the references and the
    predictions collected in batch order, each times 100, reports the same
    two numbers to the tracker if one is attached, and changes no attribute
    of the trainer but the model. *)
Theorem test_reports_scores_of_evaluation_model (loader : DataLoader) (t : Trainer) :
  match evaluation_model t with
  | None => test loader t = (inl AttributeError, t, [])
  | Some m =>
      let bleu :=
        PrimFloat.mul (bleu_score (references_of loader) (hypotheses_of m loader)) 100 in
      let ed :=
        PrimFloat.mul (edit_distance (references_of loader) (hypotheses_of m loader)) 100 in
      test loader t
      = (inr (), set_model m t,
         PrintEvaluation bleu ed
         :: (if wandb_run t
             then [WandbSummary "bleu" (VFloat bleu);
                   WandbSummary "edit_distance" (VFloat ed)]
             else []))
  end.
Proof.
  unfold evaluation_model, test. munfold. simpl.
  destruct (py_truthy (save_best_model t)); simpl.
  - destruct (checkpoint t) as [c |] eqn:Hc; simpl; [| done].
    rewrite test_loop_collects. simpl.
    destruct (wandb_run t) eqn:Hw; simpl; by destruct t.
  - rewrite test_loop_collects. simpl.
    destruct (wandb_run t) eqn:Hw; simpl; by destruct t.
Qed.

End Testing.

(** ** What [fit] does to the configuration *)

Lemma loop_events_quiet (out : list Event) :
  Forall (λ e, loop_event e = true) out →
  range_test_notice out = false ∧ summaries out = [].
Proof.
  induction 1 as [| e out He _ [IH1 IH2]]; [done |].
  destruct e; simpl in *; try done.
Qed.

Lemma postfixes_loop_events (phase : Phase) (losses : list float) :
  Forall (λ e, loop_event e = true) (postfixes phase losses).
Proof. induction losses; simpl; by constructor. Qed.

Lemma epoch_events_loop_events (me pat : PyVal) (l : EpochLog) :
  Forall (λ e, loop_event e = true) (epoch_events me pat l).
Proof.
  unfold epoch_events. rewrite !Forall_app.
  split; [apply postfixes_loop_events |]. split; [apply postfixes_loop_events |].
  constructor; [done |]. destruct (log_stop l); by repeat constructor.
Qed.

Section FitConfiguration.

Context `{FW : Framework}.

Lemma epoch_loop_events (train val : DataLoader) (epochs : list Z)
    (last : option Z) (t : Trainer) :
  Forall (λ e, loop_event e = true) (epoch_loop train val epochs last t).2.
Proof.
  destruct (epoch_loop_spec train val epochs last t)
    as (r & t' & logs & rest_out & -> & _ & _ & _ & _ & _ & _ & _ & _ & Hend).
  simpl. rewrite Forall_app. split.
  - clear Hend. induction logs as [| l logs IH]; simpl; [constructor |].
    rewrite Forall_app. split; [apply epoch_events_loop_events | done].
  - destruct Hend as [(-> & _) | [(-> & _) | (e & _ & (l1 & l2 & ->) & _)]];
      try constructor.
    rewrite Forall_app. split; apply postfixes_loop_events.
Qed.

Lemma early_stopping_calls_settings (xs : list float) (t : Trainer) :
  settings (early_stopping_calls xs t).2 = settings t
  ∧ max_lr (early_stopping_calls xs t).2 = max_lr t.
Proof.
  revert t. induction xs as [| x xs IH]; intros t; simpl; [done |].
  pose proof (early_stopping_settings x t) as (Hs & Hm & _).
  destruct (_early_stopping x t) as [b t1]. specialize (IH t1).
  destruct (early_stopping_calls xs t1) as [bs t2]. simpl in *.
  destruct IH as [IH1 IH2]. split; congruence.
Qed.

Lemma configured_max_lr (train : DataLoader) (t : Trainer) :
  max_lr (configured train t)
  = if runs_range_test t
    then match criterion t with
         | Some c => suggested_max_lr c train t
         | None => max_lr t
         end
    else max_lr t.
Proof.
  unfold configured, suggested_max_lr, runs_range_test.
  destruct (py_truthy (use_scheduler t)); simpl; [| done].
  destruct (py_lt_zero (max_lr t)) as [e | [|]]; simpl.
  - by destruct (OneCycleLR _ _ _ _).
  - destruct (criterion t) as [c |]; [| done].
    destruct (lr_range_test _ _ _ _) as [[m o1] suggested].
    by destruct (OneCycleLR _ _ _ _).
  - by destruct (OneCycleLR _ _ _ _).
Qed.

Lemma config_of_settings (t u : Trainer) :
  settings u = settings t → config u = <["max-lr" := max_lr u]> (config t).
Proof.
  unfold settings, config. intros [= _ Hme Hpat Hlr Hsave Hsched _].
  rewrite Hme, Hpat, Hlr, Hsave, Hsched.
  apply map_eq. intros k.
  destruct (decide (k = "max-lr")) as [-> | Hk]; [by simplify_map_eq |].
  rewrite (lookup_insert_ne _ "max-lr") by done.
  destruct (decide (k = "max-epochs")) as [-> | ?]; [by simplify_map_eq |].
  destruct (decide (k = "patience")) as [-> | ?]; [by simplify_map_eq |].
  destruct (decide (k = "lr")) as [-> | ?]; [by simplify_map_eq |].
  by rewrite !(lookup_insert_ne _ "max-epochs"), !(lookup_insert_ne _ "patience"),
    !(lookup_insert_ne _ "lr"), !(lookup_insert_ne _ "max-lr") by done.
Qed.

(** X8. [fit] leaves the configuration as it was, except for [max_lr]:
    [config()] after [fit] differs from [config()] before it at most in
    ["max-lr"].  The range test is entered, and its notice printed, exactly
    when the scheduler is in use and [max_lr < 0]; for a trainer that has
    its criterion [max_lr] is then replaced by what the range test suggests,
    and without a criterion the range test raises and [max_lr] stays.  In
    every other case [max_lr] is as before. *)
Theorem fit_changes_config_only_in_max_lr (train val : DataLoader) (t : Trainer) :
  let '(_, t', out) := fit train val t in
  config t' = <["max-lr" := max_lr t']> (config t)
  ∧ max_lr t' = (if runs_range_test t
                 then match criterion t with
                      | Some c => suggested_max_lr c train t
                      | None => max_lr t
                      end
                 else max_lr t)
  ∧ range_test_notice out = runs_range_test t.
Proof.
  pose proof (fit_reading (λ t, (settings t, max_lr t))) as Hread.
  specialize (Hread ltac:(intros ? ? Hc; destruct (control_settings _ _ Hc); congruence)).
  assert (Hes : ∀ x t u, (settings t, max_lr t) = (settings u, max_lr u) →
            (settings (_early_stopping x t).2, max_lr (_early_stopping x t).2)
            = (settings (_early_stopping x u).2, max_lr (_early_stopping x u).2)).
  { intros x a b Hab.
    pose proof (early_stopping_settings x a) as (-> & -> & _).
    by pose proof (early_stopping_settings x b) as (-> & -> & _). }
  specialize (Hread Hes train val t).
  pose proof (fit_view train val t) as Hview. cbn zeta in Hview.
  destruct (fit train val t) as [[r t'] out].
  assert (Hstate : settings t' = settings t
                   ∧ max_lr t' = if runs_range_test t
                                 then match criterion t with
                                      | Some c => suggested_max_lr c train t
                                      | None => max_lr t
                                      end
                                 else max_lr t).
  { destruct (early_stopping_calls_settings (val_losses out)
                (if scheduler_configurable t then configured train t else t))
      as [Hs Hm].
    pose proof (f_equal fst Hread) as Hs'. pose proof (f_equal snd Hread) as Hm'.
    cbn [fst snd] in Hs', Hm'. rewrite Hs in Hs'. rewrite Hm in Hm'.
    destruct (scheduler_configurable t) eqn:Hc.
    - destruct (configured_control train t) as (_ & Hset & _).
      split; [congruence |]. by rewrite Hm', configured_max_lr.
    - split; [done |]. rewrite Hm'. unfold runs_range_test.
      apply scheduler_not_configurable_spec in Hc as [-> ->]. done. }
  destruct Hstate as [Hset Hmax].
  split; [by apply config_of_settings |]. split; [done |].
  destruct (scheduler_configurable t) eqn:Hc; cbn [negb] in Hview.
  2: { apply (f_equal snd) in Hview; cbn [snd] in Hview; rewrite Hview. unfold runs_range_test.
       apply scheduler_not_configurable_spec in Hc as [-> ->]. done. }
  destruct (range_test_fails t) eqn:Hfails.
  { apply (f_equal snd) in Hview; cbn [snd] in Hview; rewrite Hview.
    by apply range_test_fails_spec in Hfails as [-> _]. }
  destruct (as_int (max_epochs t)) as [m |].
  2: { apply (f_equal snd) in Hview; cbn [snd] in Hview; rewrite Hview. by destruct (runs_range_test t). }
  pose proof (epoch_loop_events train val (py_range (start_epoch t) (m + 1)) None
                (configured train t)) as Hev.
  destruct (epoch_loop train val (py_range (start_epoch t) (m + 1)) None
              (configured train t)) as [[rl t''] out_l].
  simpl in Hev. apply loop_events_quiet in Hev as [Hq _].
  assert (Hnotice : ∀ tail, range_test_notice tail = false →
            range_test_notice ((if runs_range_test t then [PrintLRTest] else [])
                               ++ out_l ++ tail) = runs_range_test t).
  { intros tail Htail. unfold range_test_notice in *.
    rewrite !existsb_app, Hq, Htail. by destruct (runs_range_test t). }
  destruct rl as [e | last].
  { apply (f_equal snd) in Hview; cbn [snd] in Hview; rewrite Hview. rewrite <- (app_nil_r out_l). by apply Hnotice. }
  destruct (wandb_run t'').
  2: { apply (f_equal snd) in Hview; cbn [snd] in Hview; rewrite Hview. rewrite <- (app_nil_r out_l). by apply Hnotice. }
  destruct last as [epoch |].
  2: { apply (f_equal snd) in Hview; cbn [snd] in Hview; rewrite Hview. rewrite <- (app_nil_r out_l). by apply Hnotice. }
  destruct (py_min_epoch epoch (max_epochs t'')) as [e | v].
  { apply (f_equal snd) in Hview; cbn [snd] in Hview; rewrite Hview. rewrite <- (app_nil_r out_l). by apply Hnotice. }
  apply (f_equal snd) in Hview; cbn [snd] in Hview; rewrite Hview. by apply Hnotice.
Qed.

End FitConfiguration.

(** ** Epoch numbers and the summary for the tracker *)

Lemma last_cons_default {A : Type} (x d : A) (l : list A) :
  List.last (x :: l) d = List.last l x.
Proof.
  revert x d. induction l as [| y l IH]; intros x d; [done |].
  change (List.last (x :: y :: l) d) with (List.last (y :: l) d).
  by rewrite !IH.
Qed.

Lemma last_bound_last (last : option Z) (logs : list EpochLog) :
  last_bound last logs = List.last (map Some (map log_epoch logs)) last.
Proof.
  revert last. induction logs as [| l logs IH]; intros last; [done |].
  cbn [last_bound map]. by rewrite IH, last_cons_default.
Qed.

Lemma epoch_numbers_app (out1 out2 : list Event) :
  epoch_numbers (out1 ++ out2) = epoch_numbers out1 ++ epoch_numbers out2.
Proof. unfold epoch_numbers. apply omap_app. Qed.

Lemma loop_output_numbers (me pat : PyVal) (logs : list EpochLog)
    (rest_out : list Event) :
  rest_out = [] ∨ partial_events rest_out →
  epoch_numbers (concat (map (epoch_events me pat) logs) ++ rest_out)
  = map log_epoch logs.
Proof.
  intros Hrest. rewrite epoch_numbers_app.
  assert (Hq : ∀ ph l, epoch_numbers (postfixes ph l) = []).
  { intros ph l. induction l; simpl; done. }
  assert (epoch_numbers rest_out = []) as ->.
  { destruct Hrest as [-> | (l1 & l2 & ->)]; [done |].
    by rewrite epoch_numbers_app, !Hq. }
  rewrite app_nil_r.
  induction logs as [| l logs IH]; [done |].
  cbn [map concat]. rewrite epoch_numbers_app, IH.
  unfold epoch_events. rewrite !epoch_numbers_app, !Hq. simpl.
  by destruct (log_stop l).
Qed.

Lemma last_py_range (start : Z) (n : nat) (d : option Z) :
  List.last (map Some (py_range start (start + Z.of_nat (S n)))) d
  = Some (start + Z.of_nat n).
Proof.
  unfold py_range.
  replace (Z.to_nat (start + Z.of_nat (S n) - start)) with (S n) by lia.
  rewrite seq_S, !map_app. simpl. apply last_last.
Qed.

Section EpochNumbers.

Context `{FW : Framework}.

Lemma epoch_loop_numbers (train val : DataLoader) (epochs : list Z)
    (last : option Z) (t : Trainer) :
  let '(r, t', out) := epoch_loop train val epochs last t in
  epoch_numbers out = take (length (val_losses out)) epochs
  ∧ (length (val_losses out) ≤ length epochs)%nat
  ∧ settings t' = settings t
  ∧ ∀ l, r = inr l → l = List.last (map Some (epoch_numbers out)) last.
Proof.
  destruct (epoch_loop_spec train val epochs last t)
    as (r & t' & logs & rest_out & -> & Hep & _ & _ & _ & Hset & _ & _ & _ & Hend).
  assert (Hrest : rest_out = [] ∨ partial_events rest_out).
  { destruct Hend as [(-> & _) | [(-> & _) | (e & _ & Hp & _)]]; tauto. }
  rewrite (loop_output_numbers _ _ _ _ Hrest).
  assert (Hv : val_losses (concat (map (epoch_events (max_epochs t) (patience t)) logs)
                           ++ rest_out) = log_val_losses logs).
  { destruct (fit_output_read (max_epochs t) (patience t) [] rest_out [] logs)
      as [Hv _]; [constructor | done | constructor |].
    cbn zeta in Hv. by rewrite app_nil_r in Hv. }
  rewrite Hv, log_val_losses_length.
  split; [done |]. split.
  { apply (f_equal length) in Hep. rewrite length_map, length_take in Hep. lia. }
  split; [done |].
  intros l ->.
  destruct Hend as [(_ & _ & _ & Hr) | [(_ & logs0 & l0 & -> & _ & _ & Hr)
                                       | (e & ? & _)]]; [| | done].
  - injection Hr as ->. apply last_bound_last.
  - injection Hr as ->. rewrite !map_app. simpl. by rewrite last_last.
Qed.

(** X9. The epochs [fit] reports are numbered consecutively from
    [start_epoch].  When [fit] returns with a tracker attached, it reports
    as ["epoch"] the number of the last epoch run, and nothing else; without
    a tracker, or when it raises, it reports nothing. *)
Theorem fit_numbers_epochs_and_reports_the_last (train val : DataLoader)
    (t : Trainer) :
  let '(r, _, out) := fit train val t in
  let n := Z.of_nat (length (val_losses out)) in
  epoch_numbers out = py_range (start_epoch t) (start_epoch t + n)
  ∧ (r = inr () →
     summaries out
     = if wandb_run t then [("epoch", VInt (start_epoch t + n - 1))] else [])
  ∧ (∀ e, r = inl e → summaries out = []).
Proof.
  pose proof (fit_view train val t) as Hview. cbn zeta in Hview.
  destruct (scheduler_configurable t); cbn [negb] in Hview.
  2: { rewrite Hview. cbn zeta. change (val_losses []) with (@nil float).
       by rewrite py_range_nil by (simpl; lia). }
  destruct (range_test_fails t).
  { rewrite Hview. cbn zeta. change (val_losses [PrintLRTest]) with (@nil float).
    by rewrite py_range_nil by (simpl; lia). }
  destruct (as_int (max_epochs t)) as [m |] eqn:Hm.
  2: { rewrite Hview. cbn zeta.
       destruct (runs_range_test t);
         [change (val_losses [PrintLRTest]) with (@nil float)
         | change (val_losses []) with (@nil float)];
         by rewrite py_range_nil by (simpl; lia). }
  pose proof (epoch_loop_numbers train val (py_range (start_epoch t) (m + 1)) None
                (configured train t)) as Hnum.
  pose proof (epoch_loop_events train val (py_range (start_epoch t) (m + 1)) None
                (configured train t)) as Hev.
  destruct (epoch_loop train val (py_range (start_epoch t) (m + 1)) None
              (configured train t)) as [[rl t'] out_l].
  simpl in Hev. apply loop_events_quiet in Hev as [_ Hsum].
  destruct Hnum as (Hnum & Hle & Hset & Hlast).
  destruct (configured_control train t) as (_ & Hset0 & _).
  assert (Hw : wandb_run t' = wandb_run t)
    by (unfold settings in *; congruence).
  assert (Hme : max_epochs t' = max_epochs t)
    by (unfold settings in *; congruence).
  rewrite take_py_range in Hnum by done.
  assert (Hread : ∀ tail, Forall (λ e, ∃ v, e = WandbSummary "epoch" v) tail →
            let out := (if runs_range_test t then [PrintLRTest] else [])
                       ++ out_l ++ tail in
            epoch_numbers out
            = py_range (start_epoch t)
                (start_epoch t + Z.of_nat (length (val_losses out)))
            ∧ summaries out = summaries tail).
  { intros tail Htail. cbn zeta.
    destruct (fit_view_output out_l (runs_range_test t) tail Htail) as (-> & _ & ->).
    split; [done |]. unfold summaries in *. rewrite !omap_app, Hsum.
    by destruct (runs_range_test t). }
  assert (Hplain : let out := (if runs_range_test t then [PrintLRTest] else [])
                              ++ out_l in
            epoch_numbers out
            = py_range (start_epoch t)
                (start_epoch t + Z.of_nat (length (val_losses out)))
            ∧ summaries out = []).
  { specialize (Hread [] ltac:(constructor)). cbn zeta in Hread.
    by rewrite app_nil_r in Hread. }
  cbn zeta in Hplain. destruct Hplain as [Hp1 Hp2].
  destruct rl as [e | last]; [rewrite Hview; by repeat split |].
  rewrite Hw in Hview.
  destruct (wandb_run t) eqn:Hrun; [| rewrite Hview; by repeat split].
  destruct last as [epoch |]; [| rewrite Hview; by repeat split].
  unfold py_min_epoch in Hview. rewrite Hme, Hm in Hview.
  rewrite Hview.
  destruct (Hread [WandbSummary "epoch"
                     (if m <? epoch then max_epochs t else VInt epoch)])
    as [Hr1 Hr2]; [repeat constructor; by eexists |].
  cbn zeta in Hr1, Hr2. split; [done |]. split; [| done].
  intros _. rewrite Hr2. simpl. do 3 f_equal.
  assert (Hvl : val_losses ((if runs_range_test t then [PrintLRTest] else [])
                            ++ out_l ++ [WandbSummary "epoch"
                                           (if m <? epoch then max_epochs t
                                            else VInt epoch)])
                = val_losses out_l).
  { apply fit_view_output. repeat constructor. by eexists. }
  rewrite Hvl.
  specialize (Hlast (Some epoch) eq_refl). rewrite Hnum in Hlast.
  rewrite py_range_length in Hle.
  destruct (length (val_losses out_l)) as [| k] eqn:Hk.
  { rewrite py_range_nil in Hlast by (simpl; lia). done. }
  rewrite last_py_range in Hlast. injection Hlast as ->.
  replace (m <? start_epoch t + Z.of_nat k) with false
    by (symmetry; apply Z.ltb_ge; lia).
  f_equal. lia.
Qed.

End EpochNumbers.

(** ** The checkpoint after [fit], and [test] after [fit] *)

Section CheckpointAfterFit.

Context `{FW : Framework}.

Lemma early_stopping_calls_has_checkpoint (xs : list float) (t : Trainer) :
  has_checkpoint (early_stopping_calls xs t).2
  = has_checkpoint t
    || (py_truthy (save_best_model t)
        && existsb (λ x, PrimFloat.ltb x (best_val_loss t)) xs).
Proof.
  revert t. induction xs as [| x xs IH]; intros t; simpl.
  - by rewrite andb_false_r, orb_false_r.
  - specialize (IH (_early_stopping x t).2). rewrite early_stopping_eq in IH.
    rewrite early_stopping_eq. simpl in *.
    destruct (early_stopping_calls xs _) as [bs t2]. simpl in *. rewrite IH.
    unfold has_checkpoint. simpl.
    destruct (PrimFloat.ltb x (best_val_loss t)); simpl; [| done].
    destruct (py_truthy (save_best_model t)); simpl; [| done].
    by rewrite orb_true_r.
Qed.

Lemma early_stopping_calls_checkpoint_disabled (xs : list float) (t : Trainer) :
  py_truthy (save_best_model t) = false →
  checkpoint (early_stopping_calls xs t).2 = checkpoint t.
Proof.
  revert t. induction xs as [| x xs IH]; intros t Hoff; simpl; [done |].
  specialize (IH (_early_stopping x t).2). rewrite early_stopping_eq in IH.
  rewrite early_stopping_eq. simpl in *.
  destruct (early_stopping_calls xs _) as [bs t2]. simpl in *.
  rewrite IH by done. by rewrite Hoff, andb_false_r.
Qed.

Lemma saving_state_control (t u : Trainer) :
  control t = control u → saving_state t = saving_state u.
Proof.
  unfold control, saving_state, has_checkpoint.
  intros [= _ _ _ _ _ Hs _ _ Hb _ Hc]. by rewrite Hs, Hb, Hc.
Qed.

Lemma saving_state_early_stopping (x : float) (t u : Trainer) :
  saving_state t = saving_state u →
  saving_state (_early_stopping x t).2 = saving_state (_early_stopping x u).2.
Proof.
  unfold saving_state, has_checkpoint. rewrite !early_stopping_eq. simpl.
  intros [= Hb Hs Hh Hc]. rewrite Hs in Hc. rewrite Hb, Hs.
  destruct (PrimFloat.ltb x (best_val_loss u)); simpl; [| by rewrite Hh, Hc].
  destruct (py_truthy (save_best_model u)); simpl; [done | by rewrite Hh, Hc].
Qed.

Lemma saving_state_configured (train : DataLoader) (t : Trainer) :
  saving_state (if scheduler_configurable t then configured train t else t)
  = saving_state t.
Proof.
  destruct (scheduler_configurable t); [| done].
  destruct (configured_control train t) as (Hss & Hset & Hck & _).
  assert (Hb : best_val_loss (configured train t) = best_val_loss t)
    by (unfold stopping_state in Hss; congruence).
  assert (Hsave : save_best_model (configured train t) = save_best_model t)
    by (unfold settings in Hset; congruence).
  unfold saving_state, has_checkpoint. by rewrite Hb, Hsave, Hck.
Qed.

(** What [fit] makes of the checkpoint. *)
Lemma fit_checkpoint (train val : DataLoader) (t : Trainer) :
  let '(_, t', out) := fit train val t in
  save_best_model t' = save_best_model t
  ∧ has_checkpoint t'
    = has_checkpoint t
      || (py_truthy (save_best_model t)
          && existsb (λ v, PrimFloat.ltb v (best_val_loss t)) (val_losses out))
  ∧ (py_truthy (save_best_model t) = false → checkpoint t' = checkpoint t).
Proof.
  pose proof (fit_reading saving_state saving_state_control
                saving_state_early_stopping train val t) as Hread.
  destruct (fit train val t) as [[r t'] out].
  rewrite (early_stopping_calls_respect saving_state saving_state_early_stopping
             (val_losses out) _ t (saving_state_configured train t)) in Hread.
  pose proof (early_stopping_calls_has_checkpoint (val_losses out) t) as Hhas.
  pose proof (early_stopping_calls_checkpoint_disabled (val_losses out) t) as Hoff.
  destruct (early_stopping_calls_settings (val_losses out) t) as [Hset _].
  destruct (early_stopping_calls (val_losses out) t) as [bs t2]. simpl in *.
  unfold saving_state in Hread. injection Hread as _ Hs Hh Hc.
  assert (Hsave : save_best_model t' = save_best_model t)
    by (unfold settings in Hset; congruence).
  split; [done |]. split; [congruence |].
  intros Hdis.
  assert (Hsave2 : save_best_model t2 = save_best_model t)
    by (unfold settings in Hset; congruence).
  rewrite Hsave, Hsave2, Hdis in Hc. rewrite Hc. by apply Hoff.
Qed.

(** X10. After [fit] a checkpoint is held exactly when one was held
    before, or [save_best_model] is enabled and the validation loss of some
    completed epoch was strictly below the [best_val_loss] [fit] started
    with.  With [save_best_model] disabled [fit] leaves the checkpoint as
    it was. *)
Theorem fit_holds_checkpoint_exactly_when (train val : DataLoader) (t : Trainer) :
  let '(_, t', out) := fit train val t in
  has_checkpoint t'
  = has_checkpoint t
    || (py_truthy (save_best_model t)
        && existsb (λ v, PrimFloat.ltb v (best_val_loss t)) (val_losses out))
  ∧ (py_truthy (save_best_model t) = false → checkpoint t' = checkpoint t).
Proof.
  pose proof (fit_checkpoint train val t) as H.
  destruct (fit train val t) as [[r t'] out].
  destruct H as (_ & Hhas & Hoff). by split.
Qed.

(** X11. [test] called after [fit] raises [AttributeError] exactly when
    [save_best_model] is enabled, no checkpoint was held before [fit], and
    no completed epoch had a validation loss strictly below the
    [best_val_loss] [fit] started with: so it does after a [fit] of a new
    trainer in which every validation loss was NaN or infinite, or no epoch
    was completed. *)
Theorem test_after_fit_raises_exactly_when (train val loader : DataLoader)
    (t : Trainer) :
  let '(_, t1, out) := fit train val t in
  let '(r, _, _) := test loader t1 in
  r = inl AttributeError
  ↔ py_truthy (save_best_model t) = true
    ∧ checkpoint t = None
    ∧ existsb (λ v, PrimFloat.ltb v (best_val_loss t)) (val_losses out) = false.
Proof.
  pose proof (fit_checkpoint train val t) as H.
  destruct (fit train val t) as [[r1 t1] out].
  destruct H as (Hsave & Hhas & _).
  unfold test. munfold. simpl. rewrite Hsave.
  unfold has_checkpoint in Hhas.
  destruct (py_truthy (save_best_model t)); simpl in *.
  - destruct (checkpoint t1) as [c |]; simpl.
    + rewrite test_loop_collects. simpl.
      destruct (wandb_run t1); simpl; split; try done;
        intros (_ & Hnone & Hex); rewrite Hnone, Hex in Hhas; done.
    + split; [| done]. intros _. split; [done |].
      destruct (checkpoint t); [done |]. simpl in Hhas. by split.
  - rewrite test_loop_collects. simpl.
    destruct (wandb_run t1); simpl; split; try done; by intros [].
Qed.

End CheckpointAfterFit.

(** ** Losses that are not numbers *)

Lemma SFeqb_refl (s : spec_float) : s ≠ S754_nan → SFeqb s s = true.
Proof.
  unfold SFeqb, SFcompare. intros Hs.
  destruct s as [[|] | [|] | | [|] m e]; try done;
    by rewrite Z.compare_refl, Pos.compare_cont_refl.
Qed.

Lemma is_nan_Prim2SF (x : float) :
  PrimFloat.is_nan x = true ↔ Prim2SF x = S754_nan.
Proof.
  unfold PrimFloat.is_nan. rewrite FloatAxioms.eqb_spec. split.
  - intros H. destruct (Prim2SF x) eqn:Hx; try done;
      rewrite SFeqb_refl in H; done.
  - by intros ->.
Qed.

Lemma add_nan_l (x y : float) :
  PrimFloat.is_nan x = true → PrimFloat.is_nan (PrimFloat.add x y) = true.
Proof. rewrite !is_nan_Prim2SF, FloatAxioms.add_spec. by intros ->. Qed.

Lemma add_nan_r (x y : float) :
  PrimFloat.is_nan y = true → PrimFloat.is_nan (PrimFloat.add x y) = true.
Proof.
  rewrite !is_nan_Prim2SF, FloatAxioms.add_spec. intros ->. by destruct (Prim2SF x).
Qed.

Lemma div_nan_l (x y : float) :
  PrimFloat.is_nan x = true → PrimFloat.is_nan (PrimFloat.div x y) = true.
Proof. rewrite !is_nan_Prim2SF, FloatAxioms.div_spec. by intros ->. Qed.

Lemma ltb_nan_l (x y : float) :
  PrimFloat.is_nan x = true → PrimFloat.ltb x y = false.
Proof. rewrite is_nan_Prim2SF, FloatAxioms.ltb_spec. by intros ->. Qed.

Lemma sum_nan (losses : list float) (total : float) :
  PrimFloat.is_nan total = true ∨ (∃ x, In x losses ∧ PrimFloat.is_nan x = true) →
  PrimFloat.is_nan (fold_left PrimFloat.add losses total) = true.
Proof.
  revert total. induction losses as [| y losses IH]; intros total H; simpl.
  - destruct H as [H | (x & [] & _)]. done.
  - apply IH. destruct H as [H | (x & [<- | Hin] & Hx)].
    + left. by apply add_nan_l.
    + left. by apply add_nan_r.
    + right. by exists x.
Qed.

Lemma mean_nan (losses : list float) (x : float) :
  In x losses → PrimFloat.is_nan x = true → PrimFloat.is_nan (mean losses) = true.
Proof.
  intros Hin Hx. unfold mean. apply div_nan_l, sum_nan. right. by exists x.
Qed.

Section NaNLoss.

Context `{FW : Framework}.

(** X12. When some batch of the validation phase yields a NaN loss, the
    validation loss reported for the epoch is NaN and the epoch counts as
    not improving: [best_val_loss] and the checkpoint stay as they were and
    [no_improve_count] goes up by one. *)
Theorem nan_validation_loss_never_improves (train val : DataLoader) (epoch : Z)
    (t t' : Trainer) (b : bool) (out : list Event) (x : float) :
  run_epoch train val epoch t = (inr b, t', out) →
  In (PbarPostfix Val x) out →
  PrimFloat.is_nan x = true →
  (∃ tl vl, In (PrintEpoch epoch (max_epochs t) tl vl) out
            ∧ PrimFloat.is_nan vl = true)
  ∧ best_val_loss t' = best_val_loss t
  ∧ checkpoint t' = checkpoint t
  ∧ no_improve_count t' = no_improve_count t + 1
  ∧ b = py_int_eq (no_improve_count t + 1) (patience t).
Proof.
  intros Hrun Hin Hx.
  destruct (run_epoch_spec train val epoch t)
    as (r & t1 & out1 & Hrun' & _ & _ & Hcase).
  rewrite Hrun in Hrun'. injection Hrun' as <- <- <-.
  destruct Hcase as [(ltrain & lval & tm & Hc & Hb & -> & -> & _)
                    | (e & He & _)]; [| done].
  injection Hb as ->.
  assert (Hval : In x lval).
  { unfold epoch_events, postfixes in Hin. simpl in Hin.
    apply in_app_or in Hin as [Hin | Hin].
    { apply in_map_iff in Hin as (y & Hy & _). done. }
    apply in_app_or in Hin as [Hin | Hin].
    { apply in_map_iff in Hin as (y & [= ->] & Hy). done. }
    destruct Hin as [Hin | Hin]; [done |].
    destruct (_early_stopping _ _).1; [| done]. by destruct Hin. }
  pose proof (mean_nan lval x Hval Hx) as Hnan.
  split.
  { exists (mean ltrain), (mean lval). split; [| done].
    unfold epoch_events. simpl. apply in_or_app. right. apply in_or_app. right.
    by left. }
  rewrite early_stopping_eq. simpl.
  rewrite (ltb_nan_l _ _ Hnan). simpl.
  unfold control in Hc. injection Hc as _ _ Hp _ _ _ _ _ Hbest Hn Hck _.
  by rewrite Hbest, Hck, Hn, Hp.
Qed.

End NaNLoss.

Lemma nan_validation_loss_never_improves_witness :
  best_val_loss (run_epoch [1]%float [nan] 1 ready_trainer).1.2
  = best_val_loss ready_trainer.
Proof.
  apply (proj1 (proj2 (nan_validation_loss_never_improves (FW := toy)
                         [1]%float [nan] 1 ready_trainer
                         (run_epoch (FW := toy) [1]%float [nan] 1 ready_trainer).1.2
                         false
                         [PbarPostfix Train 1; PbarPostfix Val nan;
                          PrintEpoch 1 (VInt 3) 1 nan] nan
                         ltac:(vm_compute; reflexivity)
                         ltac:(right; left; reflexivity) eq_refl))).
Defined.

(** ** Patience values, and a counter past the patience *)

Lemma py_int_eq_int_value (n : Z) (v : PyVal) :
  py_int_eq n v = match int_value v with
                  | Some k => n =? k
                  | None => false
                  end.
Proof. by destruct v. Qed.

Section Patience.

Context `{FW : Framework}.

(** X13. Early stopping is disabled by every patience that equals no
    positive integer: an [int] that is zero or negative, [False], [None], a
    string, or a float that is not a positive whole number.  No call of
    [_early_stopping] then returns [True] and [fit] never takes the
    [break]. *)
Theorem patience_without_positive_value_never_stops (t : Trainer) :
  (∀ k, int_value (patience t) = Some k → k ≤ 0) →
  0 ≤ no_improve_count t →
  (∀ losses, Forall (λ b, b = false) (early_stopping_calls losses t).1)
  ∧ (∀ train val, let '(_, _, out) := fit train val t in stopped out = false).
Proof.
  intros Hval Hc.
  assert (Hnever : ∀ n, 1 ≤ n → py_int_eq n (patience t) = false).
  { intros n Hn. rewrite py_int_eq_int_value.
    destruct (int_value (patience t)) as [k |] eqn:Hk; [| done].
    specialize (Hval k eq_refl). apply Z.eqb_neq. lia. }
  destruct (unreachable_patience_never_stops t Hnever Hc) as [Hcalls Hfit].
  split; [done |]. intros train val. specialize (Hfit train val).
  destruct (fit train val t) as [[r t'] out]. by destruct Hfit.
Qed.

Lemma early_stopping_calls_past_patience (xs : list float) (t : Trainer) (p : Z) :
  patience t = VInt p →
  p ≤ no_improve_count t →
  Forall (λ x, PrimFloat.ltb x (best_val_loss t) = false) xs →
  Forall (λ b, b = false) (early_stopping_calls xs t).1
  ∧ no_improve_count (early_stopping_calls xs t).2
    = no_improve_count t + Z.of_nat (length xs).
Proof.
  revert t. induction xs as [| x xs IH]; intros t Hpat Hc Hall; simpl.
  - split; [constructor | lia].
  - apply Forall_cons in Hall as [Hx Hall].
    specialize (IH (_early_stopping x t).2). rewrite early_stopping_eq in IH.
    rewrite early_stopping_eq. simpl in *. rewrite Hx in *. simpl in *.
    destruct (IH Hpat ltac:(lia) Hall) as [IH1 IH2].
    destruct (early_stopping_calls xs _) as [bs t2]. simpl in *.
    split; [| lia]. constructor; [| done].
    rewrite Hpat. simpl. apply Z.eqb_neq. lia.
Qed.

(** X14. Once [no_improve_count] has reached the patience, as it has when
    [fit] stopped early, a further [fit] does not stop early as long as no
    epoch improves on [best_val_loss]: the counter only moves further past
    the patience. *)
Theorem fit_past_patience_does_not_stop (train val : DataLoader) (t t' : Trainer)
    (r : Exn + ()) (out : list Event) (p : Z) :
  patience t = VInt p →
  p ≤ no_improve_count t →
  fit train val t = (r, t', out) →
  Forall (λ v, PrimFloat.ltb v (best_val_loss t) = false) (val_losses out) →
  stopped out = false
  ∧ no_improve_count t' = no_improve_count t + Z.of_nat (length (val_losses out)).
Proof.
  intros Hpat Hc Hfit Hall.
  destruct (fit_log train val t) as [logs Hlog]. rewrite Hfit in Hlog.
  destruct Hlog as (Hv & Hs & Hcalls & Hst & _).
  rewrite Hv in *.
  destruct (early_stopping_calls_past_patience _ t p Hpat Hc Hall) as [Hfalse Hn].
  split.
  - rewrite Hs. apply no_stop_existsb, all_false_no_stop. by rewrite <- Hcalls.
  - unfold stopping_state in Hst. congruence.
Qed.

End Patience.

Lemma patience_without_positive_value_never_stops_witness :
  Forall (λ b, b = false)
    (early_stopping_calls [3; 3; 3; 3]%float float_patience_trainer).1.
Proof.
  apply (proj1 (patience_without_positive_value_never_stops float_patience_trainer
                  ltac:(intros k H; vm_compute in H; discriminate)
                  ltac:(simpl; lia))).
Defined.

Lemma fit_past_patience_does_not_stop_witness :
  stopped (fit [1; 2]%float [3]%float stopped_trainer).2 = false.
Proof.
  apply (proj1 (fit_past_patience_does_not_stop (FW := toy) [1; 2]%float [3]%float
                  stopped_trainer
                  (fit (FW := toy) [1; 2]%float [3]%float stopped_trainer).1.2
                  (fit (FW := toy) [1; 2]%float [3]%float stopped_trainer).1.1
                  (fit (FW := toy) [1; 2]%float [3]%float stopped_trainer).2
                  2 eq_refl ltac:(vm_compute; discriminate)
                  ltac:(vm_compute; reflexivity)
                  ltac:(vm_compute; repeat constructor))).
Defined.

(** ** What the constructor establishes and the methods keep *)

Section Soundness.

Context `{FW : Framework}.
#[local] Existing Instances M_ret M_bind.

Lemma counters_control (t u : Trainer) :
  control t = control u → counters t = counters u.
Proof. unfold control, counters. congruence. Qed.

Lemma counters_early_stopping (x : float) (t u : Trainer) :
  counters t = counters u →
  counters (_early_stopping x t).2 = counters (_early_stopping x u).2.
Proof.
  unfold counters. intros H. rewrite !early_stopping_eq.
  assert (Hb : best_val_loss t = best_val_loss u) by congruence.
  assert (Hn : no_improve_count t = no_improve_count u) by congruence.
  assert (Hp : patience t = patience u) by congruence.
  assert (Hs : start_epoch t = start_epoch u) by congruence.
  rewrite Hb. destruct (PrimFloat.ltb x (best_val_loss u)); simpl;
    destruct (py_truthy (save_best_model t)), (py_truthy (save_best_model u));
    simpl; congruence.
Qed.

Lemma sound_counters (t u : Trainer) :
  counters t = counters u → sound t → sound u.
Proof.
  unfold counters, sound. intros H.
  assert (Hb : best_val_loss t = best_val_loss u) by congruence.
  assert (Hn : no_improve_count t = no_improve_count u) by congruence.
  assert (Hs : start_epoch t = start_epoch u) by congruence.
  by rewrite Hb, Hn, Hs.
Qed.

Lemma sound_early_stopping (x : float) (t : Trainer) :
  sound t → sound (_early_stopping x t).2.
Proof.
  unfold sound. rewrite early_stopping_eq. intros (Hc & Hs & Hb).
  destruct (PrimFloat.ltb x (best_val_loss t)) eqn:Hlt; simpl.
  - assert (Hx : PrimFloat.is_nan x = false).
    { destruct (PrimFloat.is_nan x) eqn:Hnan; [| done].
      by rewrite (ltb_nan_l x _ Hnan) in Hlt. }
    destruct (py_truthy (save_best_model t)); simpl; by repeat split.
  - repeat split; [lia | done | done].
Qed.

Lemma sound_early_stopping_calls (xs : list float) (t : Trainer) :
  sound t → sound (early_stopping_calls xs t).2.
Proof.
  revert t. induction xs as [| x xs IH]; intros t Ht; simpl; [done |].
  pose proof (sound_early_stopping x t Ht) as H1.
  destruct (_early_stopping x t) as [b t1]. simpl in H1.
  specialize (IH t1 H1). by destruct (early_stopping_calls xs t1).
Qed.

(** X15. The constructor leaves the trainer with [start_epoch] 1, a
    counter that is not negative and a [best_val_loss] that is not NaN, and
    [_early_stopping], [fit] and [test] keep it so, however they end: a NaN
    validation loss is never taken for the best, and a second [fit] starts
    again at epoch 1. *)
Theorem trainer_stays_sound (m : Model) (cfg : gmap string PyVal) (run : bool)
    (t : Trainer) :
  sound (__init__ m cfg run)
  ∧ (sound t →
     (∀ x, sound (_early_stopping x t).2)
     ∧ (∀ train val, sound (fit train val t).1.2)
     ∧ (∀ loader, sound (test loader t).1.2)).
Proof.
  split; [by repeat split |]. intros Ht.
  split; [intros x; by apply sound_early_stopping |]. split.
  - intros train val.
    pose proof (fit_reading counters counters_control counters_early_stopping
                  train val t) as Hread.
    destruct (fit train val t) as [[r t'] out]. simpl.
    set (t0 := if scheduler_configurable t then configured train t else t) in *.
    assert (H0 : sound t0).
    { subst t0. destruct (scheduler_configurable t); [| done].
      destruct (configured_control train t) as (Hst & Hse & _).
      apply (sound_counters t); [| done].
      unfold counters, stopping_state, settings in *. congruence. }
    apply (sound_counters (early_stopping_calls (val_losses out) t0).2);
      [done | by apply sound_early_stopping_calls].
  - intros loader. pose proof (test_control loader t) as Hc.
    destruct (test loader t) as [[r t'] out]. simpl.
    apply (sound_counters t); [| done]. symmetry. by apply counters_control.
Qed.

End Soundness.

Lemma trainer_stays_sound_witness :
  sound (fit [1; 2]%float [nan] default_trainer).1.2.
Proof.
  apply (proj1 (proj2 (proj2 (trainer_stays_sound (FW := toy) 0 ∅ false default_trainer)
                        ltac:(split; [simpl; lia | split; reflexivity])))).
Defined.

(** ** The validation phase *)

Section Validation.

Context `{FW : Framework}.
#[local] Existing Instances M_ret M_bind.

Lemma validation_loop_eq (c : Criterion) (batches : list Batch) (total : float)
    (t : Trainer) :
  criterion t = Some c →
  batch_loop Val batches total t =
  (inr (fold_left PrimFloat.add (forward_losses c (model t) batches).2 total),
   set_model (forward_losses c (model t) batches).1 t,
   postfixes Val (forward_losses c (model t) batches).2).
Proof.
  revert total t. induction batches as [| b rest IH]; intros total t Hcr.
  - simpl. unfold ret. by destruct t.
  - cbn [batch_loop forward_losses]. munfold. rewrite validation_step_eq, Hcr.
    unfold forward_loss.
    destruct (model_call (model t) (_move_to_device b)) as [m1 logits] eqn:Hf.
    cbn [fst snd]. rewrite IH by done. cbn [model set_model].
    by destruct (forward_losses c m1 rest) as [m2 losses].
Qed.

(** X16. The validation phase only evaluates: it puts the model in
    evaluation mode, runs one forward pass per batch, posts each loss and
    returns their mean.  Of the trainer it changes the model and nothing
    else, so the optimizer and the scheduler are never stepped, and it needs
    neither.  It raises [ZeroDivisionError] on an empty dataloader; on a
    trainer whose criterion was never assigned it raises [AttributeError]
    on the first batch, once the model has been run on it. *)
Theorem validation_phase_only_evaluates (loader : DataLoader) (t : Trainer) :
  match criterion t with
  | Some c =>
      let '(m, losses) := forward_losses c (model_eval (model t)) loader in
      run_phase Val loader t =
        (if decide (loader = []) then inl ZeroDivisionError else inr (mean losses),
         set_model m t, postfixes Val losses)
      ∧ length losses = length loader
  | None =>
      run_phase Val loader t =
        match loader with
        | [] => (inl ZeroDivisionError, set_model (model_eval (model t)) t, [])
        | b :: _ =>
            (inl AttributeError,
             set_model (model_call (model_eval (model t)) (_move_to_device b)).1 t,
             [])
        end
  end.
Proof.
  destruct (criterion t) as [c |] eqn:Hcr.
  - assert (Hlen : ∀ bs m, length (forward_losses c m bs).2 = length bs).
    { induction bs as [| b bs IH]; intros m; simpl; [done |].
      destruct (forward_loss c m (_move_to_device b)) as [m1 loss].
      specialize (IH m1). destruct (forward_losses c m1 bs). simpl in *. lia. }
    unfold run_phase. munfold. rewrite (validation_loop_eq c) by done.
    cbn [model set_model].
    specialize (Hlen loader (model_eval (model t))).
    destruct (forward_losses c (model_eval (model t)) loader) as [m losses].
    cbn [fst snd] in *. rewrite app_nil_r. split; [| done].
    destruct loader as [| b rest]; [done |].
    rewrite decide_False by done. unfold mean, py_truediv. rewrite Hlen. done.
  - unfold run_phase. munfold. destruct loader as [| b rest]; [done |].
    cbn [batch_loop]. munfold. rewrite validation_step_eq. simpl. by rewrite Hcr.
Qed.

End Validation.
